(** * Daily Digest backend: content sync, classification and briefing selection

    A shallow embedding of the sync tasks ([app/tasks/sync.py]), the
    classifiers ([app/services/classification.py]), the briefing selector
    ([app/services/briefing_generator.py]) and the briefing state machine
    ([app/tasks/briefing.py], [app/api/briefings.py]).

    Conventions.
    - Python floats are taken as exact rationals ([Q]); every score of the
      program is built from integer counts with [/], [*], [+], [min] and
      [max], and the properties below compare scores with constants.
    - [datetime] values are seconds on the UTC time line, [date] values are
      day numbers; every reading of the clock is an input of the function
      that reads it.
    - An exception is the text [str(e)] it carries; [except Exception]
      catches every [Raise].
    - A SQLAlchemy session is modelled with its persistent objects, its
      pending objects and the last committed state (the session factory is
      created with [autoflush=False]: a query does not see pending objects). *)

From Stdlib Require Import List String Ascii ZArith NArith QArith Qminmax Bool Lia.
From Stdlib Require Import Sorting.Sorted Sorting.Permutation.
From Stdlib Require DecimalString.
Import ListNotations.

Open Scope string_scope.
Open Scope Z_scope.

(** ** Python values *)

Inductive result (A : Type) : Type :=
| Ok (a : A)
| Raise (e : string).
Arguments Ok {A} a.
Arguments Raise {A} e.

Definition bind {A B} (r : result A) (k : A -> result B) : result B :=
  match r with
  | Ok a => k a
  | Raise e => Raise e
  end.

Notation "x <- r ;; k" := (bind r (fun x => k))
  (at level 61, r at next level, right associativity).

#[local] Unset Elimination Schemes.
Inductive json : Type :=
| JNull
| JBool (b : bool)
| JInt (n : Z)
| JFloat (x : Q)
| JStr (s : string)
| JList (l : list json)
| JDict (d : list (string * json)).
#[local] Set Elimination Schemes.

(** [d.get(key)] on a dict given as its items. *)
Fixpoint dict_get {V} (d : list (string * V)) (key : string) : option V :=
  match d with
  | [] => None
  | (k, v) :: d' => if String.eqb k key then Some v else dict_get d' key
  end.

Definition get_default {V} (o : option V) (default : V) : V :=
  match o with
  | Some v => v
  | None => default
  end.

(** [x or default] on an optional string: [None] and [""] are falsy. *)
Definition str_or (o : option string) (default : string) : string :=
  match o with
  | Some EmptyString | None => default
  | Some s => s
  end.

(** [sub in s] on strings. *)
Fixpoint str_in (sub s : string) : bool :=
  String.prefix sub s ||
  match s with
  | EmptyString => false
  | String _ s' => str_in sub s'
  end.

(** [s.replace("Z", "+00:00")]. *)
Fixpoint replace_Z (s : string) : string :=
  match s with
  | EmptyString => EmptyString
  | String c s' =>
      if Ascii.eqb c "Z"%char then "+00:00" ++ replace_Z s'
      else String c (replace_Z s')
  end.

Definition str_of_int (n : Z) : string :=
  DecimalString.NilZero.string_of_int (Z.to_int n).

Definition Qltb (x y : Q) : bool := negb (Qle_bool y x).

Definition UUID := N.
Definition datetime := Z.
Definition Date := Z.

Definition hours (n : Z) : Z := n * 3600.

(** ** Enumerations of [app/models] *)

Module SourceType.
Inductive t := TWITTER | FACEBOOK | INSTAGRAM | TELEGRAM | RSS | EMAIL.
End SourceType.

Module ContentType.
Inductive t := POST | ARTICLE | MESSAGE | NOTIFICATION.
End ContentType.

Module CategoryType.
Inductive t := PERSONAL | WORK | HOBBY | NEWS | IMPORTANT | OTHER.

Definition all : list t := [PERSONAL; WORK; HOBBY; NEWS; IMPORTANT; OTHER].

(** [CategoryType(value)]: lookup by value, [ValueError] otherwise. *)
Definition of_value (v : json) : result t :=
  match v with
  | JStr s =>
      if String.eqb s "personal" then Ok PERSONAL
      else if String.eqb s "work" then Ok WORK
      else if String.eqb s "hobby" then Ok HOBBY
      else if String.eqb s "news" then Ok NEWS
      else if String.eqb s "important" then Ok IMPORTANT
      else if String.eqb s "other" then Ok OTHER
      else Raise ("'" ++ s ++ "' is not a valid CategoryType")
  | _ => Raise "value is not a valid CategoryType"
  end.
End CategoryType.

Module SyncStatus.
Inductive t := SUCCESS | FAILED | PARTIAL.
End SyncStatus.

Module BriefingStatus.
Inductive t := PENDING | GENERATING | READY | DELIVERED | FAILED.

Definition eqb (a b : t) : bool :=
  match a, b with
  | PENDING, PENDING | GENERATING, GENERATING | READY, READY
  | DELIVERED, DELIVERED | FAILED, FAILED => true
  | _, _ => false
  end.
End BriefingStatus.

(** ** Provider payloads

    The dicts the provider clients return, with the keys the sync tasks
    read; an absent key is [None]. *)

Record PublicMetrics := {
  like_count : option Z;
  retweet_count : option Z;
  reply_count : option Z
}.

Record Tweet := {
  tw_id : string;
  tw_text : option string;
  tw_created_at : option string;
  tw_public_metrics : option PublicMetrics;
  tw_lang : option string
}.

Record FeedEntry := {
  entry_id : option string;
  entry_link : option string;
  entry_title : option string;
  entry_summary : option string;
  entry_description : option string;
  entry_author : option string;
  entry_dc_creator : option string;
  entry_published_parsed : option datetime;
  entry_updated_parsed : option datetime;
  entry_tags : list (option string)
}.

Record Feed := {
  bozo : bool;
  feed_title : option string;
  feed_link : option string;
  entries : list FeedEntry
}.

Record TgMessage := {
  message_id : option Z;
  chat_id : option Z;
  chat_type : option string;
  msg_date : option Z;
  msg_text : option string;
  msg_caption : option string;
  from_username : option string;
  message_type : option string
}.

(** An update whose ["message"] is absent or an empty dict has
    [upd_message = None]. *)
Record TgUpdate := {
  update_id : Z;
  upd_message : option TgMessage
}.

Record FbPost := {
  fb_id : option string;
  fb_message : option string;
  fb_created_time : option string;
  fb_likes : option Z;
  fb_comments : option Z;
  fb_shares : option Z;
  fb_from_name : option string
}.

Record IgMedia := {
  ig_id : option string;
  ig_caption : option string;
  ig_media_type : option string;
  ig_media_url : option string;
  ig_permalink : option string;
  ig_thumbnail_url : option string;
  ig_timestamp : option string;
  ig_username : option string
}.

(** The dict [RSSParser.parse_feed] builds for one entry. *)
Record RssItem := {
  rss_external_id : string;
  rss_title : string;
  rss_text_content : string;
  rss_url : string;
  rss_author : string;
  rss_published_at : datetime;
  rss_feed_title : string;
  rss_feed_link : string;
  rss_tags : list string;
  rss_raw_data : FeedEntry
}.

(** The JSONB column [ContentItem.metadata], by the shape each sync task
    writes. *)
Inductive ItemMetadata :=
| MetaTwitter (public_metrics : PublicMetrics) (lang : option string)
| MetaRss (feed_title feed_link : string) (tags : list string)
| MetaTelegram (chat_id chat_type message_type : string)
| MetaFacebook (likes comments shares : Z)
| MetaInstagram (media_type media_url : string) (permalink thumbnail_url : option string).

Inductive RawData :=
| RawTweet (t : Tweet)
| RawEntry (e : FeedEntry)
| RawMessage (m : TgMessage)
| RawPost (p : FbPost)
| RawMedia (m : IgMedia).

(** ** Models *)

Module ContentClassification.
Record t := {
  category : CategoryType.t;
  relevance_score : Q;
  importance_score : Q;
  social_score : Q;
  personal_score : Q;
  topics : json;
  model_version : option string
}.
End ContentClassification.

(** A [ContentItem] with its one-to-one [classification] relationship
    ([uselist=False], [content_id] unique). *)
Module ContentItem.
Record t := {
  id : UUID;
  source_id : UUID;
  external_id : string;
  content_type : ContentType.t;
  title : option string;
  text_content : option string;
  url : option string;
  author : option string;
  published_at : datetime;
  item_metadata : option ItemMetadata;
  raw_data : option RawData;
  classification : option ContentClassification.t
}.
End ContentItem.

Module User.
Record t := {
  id : UUID;
  is_active : bool;
  deleted_at : option datetime;
  briefing_time : Z
}.
End User.

Module UserPreferences.
Record t := {
  user_id : UUID;
  min_relevance_score : option Q;
  max_items_per_briefing : option Z
}.
End UserPreferences.

Module DataSource.
Record t := {
  id : UUID;
  user_id : UUID;
  source_type : SourceType.t;
  credentials : option (list (string * string));
  is_active : bool;
  last_sync_at : option datetime;
  sync_frequency_minutes : Z;
  settings : option (list (string * string))
}.

Definition set_last_sync_at (s : t) (v : option datetime) : t :=
  {| id := id s; user_id := user_id s; source_type := source_type s;
     credentials := credentials s; is_active := is_active s;
     last_sync_at := v;
     sync_frequency_minutes := sync_frequency_minutes s;
     settings := settings s |}.
End DataSource.

Module SyncLog.
Record t := {
  source_id : UUID;
  status : SyncStatus.t;
  items_fetched : Z;
  items_new : Z;
  items_updated : Z;
  error_message : option string;
  duration_seconds : Z;
  started_at : datetime;
  completed_at : datetime
}.
End SyncLog.

Module Briefing.
Record t := {
  id : UUID;
  user_id : UUID;
  date : Date;
  status : BriefingStatus.t;
  text_summary : option string;
  audio_file_url : option string;
  audio_duration_seconds : option Z;
  content_items_count : Z;
  generated_at : option datetime;
  delivered_at : option datetime;
  error_message : option string
}.

(** [Briefing(user_id=..., date=..., status=...)] with the column defaults. *)
Definition new (id user_id : UUID) (d : Date) (st : BriefingStatus.t) : t :=
  {| id := id; user_id := user_id; date := d; status := st;
     text_summary := None; audio_file_url := None;
     audio_duration_seconds := None; content_items_count := 0;
     generated_at := None; delivered_at := None; error_message := None |}.

Definition set_status (b : t) (st : BriefingStatus.t) : t :=
  {| id := id b; user_id := user_id b; date := date b; status := st;
     text_summary := text_summary b; audio_file_url := audio_file_url b;
     audio_duration_seconds := audio_duration_seconds b;
     content_items_count := content_items_count b;
     generated_at := generated_at b; delivered_at := delivered_at b;
     error_message := error_message b |}.

Definition set_error_message (b : t) (m : option string) : t :=
  {| id := id b; user_id := user_id b; date := date b; status := status b;
     text_summary := text_summary b; audio_file_url := audio_file_url b;
     audio_duration_seconds := audio_duration_seconds b;
     content_items_count := content_items_count b;
     generated_at := generated_at b; delivered_at := delivered_at b;
     error_message := m |}.

Definition set_delivered_at (b : t) (v : option datetime) : t :=
  {| id := id b; user_id := user_id b; date := date b; status := status b;
     text_summary := text_summary b; audio_file_url := audio_file_url b;
     audio_duration_seconds := audio_duration_seconds b;
     content_items_count := content_items_count b;
     generated_at := generated_at b; delivered_at := v;
     error_message := error_message b |}.

(** The assignments of [generate_briefing] before it sets [READY]. *)
Definition set_generated (b : t) (summary : option string) (audio_url : string)
    (duration count : Z) (at_ : datetime) : t :=
  {| id := id b; user_id := user_id b; date := date b; status := status b;
     text_summary := summary; audio_file_url := Some audio_url;
     audio_duration_seconds := Some duration;
     content_items_count := count;
     generated_at := Some at_; delivered_at := delivered_at b;
     error_message := error_message b |}.
End Briefing.

Module BriefingContent.
Record t := {
  briefing_id : UUID;
  content_id : UUID;
  order : Z;
  included_reason : string
}.
End BriefingContent.

(** ** The store and the session *)

Record DB := {
  users : list User.t;
  user_preferences : list UserPreferences.t;
  data_sources : list DataSource.t;
  content_items : list ContentItem.t;
  briefings : list Briefing.t;
  briefing_content : list BriefingContent.t;
  sync_logs : list SyncLog.t
}.

Definition empty_db : DB :=
  {| users := []; user_preferences := []; data_sources := [];
     content_items := []; briefings := []; briefing_content := [];
     sync_logs := [] |}.

(** Settings of [app/core/config.py] (the defaults of the class). *)
Module settings.
Definition MAX_CONTENT_ITEMS_PER_BRIEFING : Z := 10.
Definition MIN_RELEVANCE_SCORE : Q := 3 # 10.
Definition BRIEFING_DURATION_SECONDS : Z := 120.
Definition BRIEFING_GENERATION_START_MINUTES : Z := 10.
End settings.

(** ** Sorting

    [sort_desc gtb] is a stable sort into descending order: an element stays
    in front of the later elements it is not strictly below.  It stands for
    [sorted(..., reverse=True)] and for SQL's [ORDER BY ... DESC]. *)

Fixpoint insert_desc {A} (gtb : A -> A -> bool) (x : A) (l : list A) : list A :=
  match l with
  | [] => [x]
  | y :: l' => if gtb y x then y :: insert_desc gtb x l' else x :: l
  end.

Fixpoint sort_desc {A} (gtb : A -> A -> bool) (l : list A) : list A :=
  match l with
  | [] => []
  | x :: l' => insert_desc gtb x (sort_desc gtb l')
  end.

(** [l[:n]] *)
Definition slice_to {A} (l : list A) (n : Z) : list A :=
  if 0 <=? n then firstn (Z.to_nat n) l
  else firstn (List.length l - Z.to_nat (- n)) l.

(** [collections.Counter(words)]: the counts, in order of first occurrence. *)
Fixpoint counter_add (c : list (string * nat)) (w : string) : list (string * nat) :=
  match c with
  | [] => [(w, 1%nat)]
  | (k, n) :: c' =>
      if String.eqb k w then (k, S n) :: c' else (k, n) :: counter_add c' w
  end.

Definition Counter (words : list string) : list (string * nat) :=
  fold_left counter_add words [].

(** [Counter.most_common(n)] is [sorted(items, key=count, reverse=True)[:n]]. *)
Definition most_common (c : list (string * nat)) (n : nat) : list (string * nat) :=
  firstn n (sort_desc (fun a b => Nat.ltb (snd b) (snd a)) c).

(** The dict a classifier returns. *)
Record Classification := {
  category : CategoryType.t;
  relevance_score : Q;
  importance_score : Q;
  social_score : Q;
  personal_score : Q;
  topics : json
}.

Section Digest.

(** *** Library functions *)

(** [str.lower] *)
Variable str_lower : string -> string.
(** [re.findall(r'\b[а-яё]{4,}\b', s)] *)
Variable findall_words : string -> list string.
(** [float(s)] on a string; [ValueError] when it is not a number. *)
Variable float_of_str : string -> result Q.

(** ** [app/services/classification.py] *)

Definition WORK_KEYWORDS : list string :=
  ["работа"; "проект"; "дедлайн"; "встреча"; "коллега"; "офис";
   "задача"; "клиент"; "бизнес"; "компания"; "стартап"].

Definition PERSONAL_KEYWORDS : list string :=
  ["семья"; "друзья"; "день рождения"; "отпуск"; "праздник";
   "личное"; "дом"; "родные"].

Definition HOBBY_KEYWORDS : list string :=
  ["хобби"; "спорт"; "музыка"; "кино"; "книга"; "игра";
   "путешествие"; "фото"; "рисование"].

Definition NEWS_KEYWORDS : list string :=
  ["новость"; "событие"; "происшествие"; "политика"; "экономика";
   "технологии"; "наука"; "культура"].

Definition IMPORTANT_KEYWORDS : list string :=
  ["важно"; "срочно"; "критично"; "внимание"; "обязательно";
   "необходимо"; "требуется"].

Definition matches (text : string) (keywords : list string) : nat :=
  List.length (filter (fun keyword => str_in keyword text) keywords).

Definition _calculate_score (text : string) (keywords : list string) : Q :=
  match keywords with
  | [] => 0
  | _ =>
      Qmin (inject_Z (Z.of_nat (matches text keywords))
            / inject_Z (Z.of_nat (List.length keywords)) * 2) 1
  end.

Definition no_metrics : PublicMetrics :=
  {| like_count := None; retweet_count := None; reply_count := None |}.

(** [metadata.get("public_metrics", {})]: only the Twitter sync writes the
    key. *)
Definition metadata_public_metrics (metadata : option ItemMetadata) : PublicMetrics :=
  match metadata with
  | Some (MetaTwitter m _) => m
  | _ => no_metrics
  end.

Definition total_engagement (metrics : PublicMetrics) : Z :=
  get_default (like_count metrics) 0
  + get_default (retweet_count metrics) 0 * 2
  + get_default (reply_count metrics) 0.

Definition _calculate_social_score (metadata : option ItemMetadata) : Q :=
  let metrics := metadata_public_metrics metadata in
  Qmin (inject_Z (total_engagement metrics) / 1000) 1.

Definition _calculate_personal_score (content : ContentItem.t) : Q := 3 # 10.

Definition _extract_topics (text : string) : list string :=
  let words := findall_words (str_lower text) in
  map fst (most_common (Counter words) 5).

(** [max(scores, key=scores.get)]: the first key, in insertion order, whose
    value is maximal. *)
Fixpoint max_by_value {K} (best : K * Q) (rest : list (K * Q)) : K :=
  match rest with
  | [] => fst best
  | kv :: rest' =>
      if Qltb (snd best) (snd kv) then max_by_value kv rest'
      else max_by_value best rest'
  end.

Definition full_text (content : ContentItem.t) : string :=
  let text := str_lower (get_default (ContentItem.text_content content) "") in
  let title := str_lower (get_default (ContentItem.title content) "") in
  title ++ " " ++ text.

Definition RuleBasedClassifier_classify (content : ContentItem.t) : Classification :=
  let full_text := full_text content in
  let work_score := _calculate_score full_text WORK_KEYWORDS in
  let personal_score := _calculate_score full_text PERSONAL_KEYWORDS in
  let hobby_score := _calculate_score full_text HOBBY_KEYWORDS in
  let news_score := _calculate_score full_text NEWS_KEYWORDS in
  let important_score := _calculate_score full_text IMPORTANT_KEYWORDS in
  let category :=
    max_by_value (CategoryType.WORK, work_score)
      [(CategoryType.PERSONAL, personal_score);
       (CategoryType.HOBBY, hobby_score);
       (CategoryType.NEWS, news_score);
       (CategoryType.IMPORTANT, important_score);
       (CategoryType.OTHER, 1 # 10)] in
  let relevance_score :=
    Qmax (Qmax (Qmax work_score personal_score) hobby_score) news_score in
  let importance_score := (important_score * (1 # 2) + relevance_score * (1 # 2))%Q in
  let social_score := _calculate_social_score (ContentItem.item_metadata content) in
  let personal_relevance := _calculate_personal_score content in
  {| category := category;
     relevance_score := Qmin relevance_score 1;
     importance_score := Qmin importance_score 1;
     social_score := social_score;
     personal_score := personal_relevance;
     topics := JList (map JStr (_extract_topics full_text)) |}.

(** [float(v)] *)
Definition py_float (v : json) : result Q :=
  match v with
  | JBool b => Ok (if b then 1%Q else 0%Q)
  | JInt n => Ok (inject_Z n)
  | JFloat x => Ok x
  | JStr s => float_of_str s
  | _ => Raise "float() argument must be a string or a real number"
  end.

(** The [try] block of [AIClassifier.classify].  [reply] is the outcome of
    [json.loads(response.choices[0].message.content)] after the completion
    request: the parsed value, or the exception of the request or of the
    parser. *)
Definition ai_classify (reply : result json) : result Classification :=
  result <- reply ;;
  match result with
  | JDict d =>
      category <- CategoryType.of_value
                    (get_default (dict_get d "category") (JStr "other")) ;;
      relevance <- py_float (get_default (dict_get d "relevance_score") (JFloat (1 # 2))) ;;
      importance <- py_float (get_default (dict_get d "importance_score") (JFloat (1 # 2))) ;;
      social <- py_float (get_default (dict_get d "social_score") (JFloat (3 # 10))) ;;
      personal <- py_float (get_default (dict_get d "personal_score") (JFloat (3 # 10))) ;;
      Ok {| category := category;
            relevance_score := relevance;
            importance_score := importance;
            social_score := social;
            personal_score := personal;
            topics := get_default (dict_get d "topics") (JList []) |}
  | _ => Raise "object has no attribute 'get'"
  end.

Definition AIClassifier_classify (reply : result json) (content : ContentItem.t)
    : Classification :=
  match ai_classify reply with
  | Ok c => c
  | Raise _ => RuleBasedClassifier_classify content
  end.

(** ** Imports inside functions

    [from module import name] binds the attribute [name] of the module; a
    module that has no such attribute makes the statement raise
    [ImportError].  ([str(e)] also names the file of the module, which
    depends on where the package is installed; it is not part of the text
    here.) *)
Definition import_error (name module : string) : string :=
  "cannot import name '" ++ name ++ "' from '" ++ module ++ "'".

Definition import_from (module : string) (names : list string) (name : string)
    : result unit :=
  if existsb (String.eqb name) names then Ok tt
  else Raise (import_error name module).

(** The names [app/models/user.py] binds: what it imports and the two
    classes it defines. *)
Definition app_models_user : list string :=
  ["Column"; "String"; "Boolean"; "Time"; "DateTime"; "SQLEnum"; "UUID";
   "func"; "relationship"; "uuid"; "enum"; "Base";
   "SubscriptionStatus"; "User"].

(** The names [app/models/preferences.py] binds; [app/models/__init__.py]
    imports [UserPreferences] from there. *)
Definition app_models_preferences : list string :=
  ["Column"; "String"; "Integer"; "Float"; "DateTime"; "ForeignKey"; "ARRAY";
   "UUID"; "JSONB"; "func"; "relationship"; "uuid"; "Base"; "UserPreferences"].

(** The names [app/models/data_source.py] binds. *)
Definition app_models_data_source : list string :=
  ["Column"; "String"; "Boolean"; "Integer"; "DateTime"; "ForeignKey";
   "SQLEnum"; "JSON"; "UUID"; "JSONB"; "func"; "relationship"; "uuid"; "enum";
   "Base"; "SourceType"; "DataSource"].

(** ** [BriefingGenerator.select_content_for_briefing] *)

(** [x >= y] on the [(relevance_score, importance_score)] keys is written
    with the strict order the sort uses: [rank_gtb a b] says that [a] comes
    strictly before [b] under
    [ORDER BY relevance_score DESC, importance_score DESC]. *)
Definition rank_gtb (a b : ContentItem.t * ContentClassification.t) : bool :=
  let ra := ContentClassification.relevance_score (snd a) in
  let rb := ContentClassification.relevance_score (snd b) in
  let ia := ContentClassification.importance_score (snd a) in
  let ib := ContentClassification.importance_score (snd b) in
  Qltb rb ra || (Qeq_bool ra rb && Qltb ib ia).

(** [db.query(ContentItem).join(ContentClassification)]: the rows of the
    inner join. *)
Definition join_classification (items : list ContentItem.t)
    : list (ContentItem.t * ContentClassification.t) :=
  flat_map (fun item =>
              match ContentItem.classification item with
              | Some c => [(item, c)]
              | None => []
              end) items.

(** [.limit(n)]: PostgreSQL rejects a negative [LIMIT]. *)
Definition limit {A} (n : Z) (rows : list A) : result (list A) :=
  if n <? 0 then Raise "LIMIT must not be negative"
  else Ok (firstn (Z.to_nat n) rows).

Definition truthy_classification (item : ContentItem.t) : bool :=
  match ContentItem.classification item with
  | Some _ => true
  | None => false
  end.

(** [max_items or settings.MAX_CONTENT_ITEMS_PER_BRIEFING] *)
Definition max_items_or_default (max_items : option Z) : Z :=
  match max_items with
  | None | Some 0 => settings.MAX_CONTENT_ITEMS_PER_BRIEFING
  | Some n => n
  end.

(** [preferences.min_relevance_score if preferences else
    settings.MIN_RELEVANCE_SCORE]; the column is nullable. *)
Definition min_relevance_of (db : DB) (user : User.t) : option Q :=
  match find (fun p => N.eqb (UserPreferences.user_id p) (User.id user))
             (user_preferences db) with
  | Some preferences => UserPreferences.min_relevance_score preferences
  | None => Some settings.MIN_RELEVANCE_SCORE
  end.

Definition active_source_ids (db : DB) (user : User.t) : list UUID :=
  map DataSource.id
      (filter (fun s => N.eqb (DataSource.user_id s) (User.id user)
                        && DataSource.is_active s)
              (data_sources db)).

(** [ContentClassification.relevance_score >= min_relevance]: SQLAlchemy
    builds no [>=] comparison with [None] and raises [ArgumentError]. *)
Definition relevance_threshold (min_relevance : option Q) : result Q :=
  match min_relevance with
  | Some m => Ok m
  | None =>
      Raise "Only '=', '!=', 'is_()', 'is_not()', 'is_distinct_from()', 'is_not_distinct_from()' operators can be used with None/True/False"
  end.

(** The [filter(...)] of the query. *)
Definition is_candidate (source_ids : list UUID) (cutoff_time : datetime)
    (min_relevance : Q)
    (row : ContentItem.t * ContentClassification.t) : bool :=
  existsb (N.eqb (ContentItem.source_id (fst row))) source_ids
  && (cutoff_time <=? ContentItem.published_at (fst row))
  && Qle_bool min_relevance (ContentClassification.relevance_score (snd row)).

(** The statements of the method that follow its two imports. *)
Definition select_query (db : DB) (user : User.t)
    (max_items : option Z) (utcnow : datetime) : result (list ContentItem.t) :=
  let max_items := max_items_or_default max_items in
  let min_relevance := min_relevance_of db user in
  let cutoff_time := utcnow - hours 24 in
  let source_ids := active_source_ids db user in
  min_relevance <- relevance_threshold min_relevance ;;
  content <- limit (max_items * 2)
                   (map fst
                      (sort_desc rank_gtb
                         (filter (is_candidate source_ids cutoff_time min_relevance)
                                 (join_classification (content_items db))))) ;;
  let ranked_content := filter truthy_classification content in
  Ok (slice_to ranked_content max_items).

(** The method starts with [from app.models.data_source import DataSource]
    and [from app.models.user import UserPreferences]. *)
Definition select_content_for_briefing (db : DB) (user : User.t)
    (max_items : option Z) (utcnow : datetime) : result (list ContentItem.t) :=
  _ <- import_from "app.models.data_source" app_models_data_source "DataSource" ;;
  _ <- import_from "app.models.user" app_models_user "UserPreferences" ;;
  select_query db user max_items utcnow.

(** ** The session

    [SessionLocal = sessionmaker(autocommit=False, autoflush=False)]. *)

(** The requests a task sends to the provider clients. *)
Inductive Request :=
| TwitterUserTimeline (user_id : option string) (max_results : Z) (start_time : datetime)
| TelegramGetUpdates (offset : option Z) (limit : Z)
| FacebookUserFeed (user_id : string) (limit : Z) (since : datetime)
| InstagramUserMedia (user_id : string) (limit : Z)
| FeedparserParse (feed_url : string).

(** What one run of a task reads from its environment: the clock when the
    task starts, while it works and when it finishes, the calendar date, and
    the values [uuid.uuid4] draws. *)
Record Run := {
  t_start : datetime;
  t_now : datetime;
  t_end : datetime;
  today : Date;
  uuid4 : nat -> UUID
}.

Record Session := {
  committed : DB;
  live : DB;
  pending : DB;
  inactive : bool;
  drawn : nat;
  requests : list Request
}.

Definition open_session (db : DB) : Session :=
  {| committed := db; live := db; pending := empty_db; inactive := false;
     drawn := 0; requests := [] |}.

Definition with_live (s : Session) (db : DB) : Session :=
  {| committed := committed s; live := db; pending := pending s;
     inactive := inactive s; drawn := drawn s; requests := requests s |}.

(** [db.add(obj)]: the object joins the pending ones; its primary key is
    the next value of [uuid4]. *)
Definition with_pending (s : Session) (db : DB) : Session :=
  {| committed := committed s; live := live s; pending := db;
     inactive := inactive s; drawn := S (drawn s); requests := requests s |}.

Definition send (s : Session) (r : Request) : Session :=
  {| committed := committed s; live := live s; pending := pending s;
     inactive := inactive s; drawn := drawn s;
     requests := (requests s ++ [r])%list |}.

Definition set_data_sources (db : DB) (l : list DataSource.t) : DB :=
  {| users := users db; user_preferences := user_preferences db;
     data_sources := l; content_items := content_items db;
     briefings := briefings db; briefing_content := briefing_content db;
     sync_logs := sync_logs db |}.

Definition set_content_items (db : DB) (l : list ContentItem.t) : DB :=
  {| users := users db; user_preferences := user_preferences db;
     data_sources := data_sources db; content_items := l;
     briefings := briefings db; briefing_content := briefing_content db;
     sync_logs := sync_logs db |}.

Definition set_briefings (db : DB) (l : list Briefing.t) : DB :=
  {| users := users db; user_preferences := user_preferences db;
     data_sources := data_sources db; content_items := content_items db;
     briefings := l; briefing_content := briefing_content db;
     sync_logs := sync_logs db |}.

Definition set_briefing_content (db : DB) (l : list BriefingContent.t) : DB :=
  {| users := users db; user_preferences := user_preferences db;
     data_sources := data_sources db; content_items := content_items db;
     briefings := briefings db; briefing_content := l;
     sync_logs := sync_logs db |}.

Definition set_sync_logs (db : DB) (l : list SyncLog.t) : DB :=
  {| users := users db; user_preferences := user_preferences db;
     data_sources := data_sources db; content_items := content_items db;
     briefings := briefings db; briefing_content := briefing_content db;
     sync_logs := l |}.

Definition merge_db (a b : DB) : DB :=
  {| users := users a ++ users b;
     user_preferences := user_preferences a ++ user_preferences b;
     data_sources := data_sources a ++ data_sources b;
     content_items := content_items a ++ content_items b;
     briefings := briefings a ++ briefings b;
     briefing_content := briefing_content a ++ briefing_content b;
     sync_logs := sync_logs a ++ sync_logs b |}%list.

(** An assignment to an attribute of the object a query's [.first()]
    returned: the first row that matches is the one that changes. *)
Fixpoint update_first {A} (p : A -> bool) (f : A -> A) (l : list A) : list A :=
  match l with
  | [] => []
  | x :: l' => if p x then f x :: l' else x :: update_first p f l'
  end.

(** Unique constraints: [fresh_keys eqb existing new] holds when no key of
    [new] is in [existing] or earlier in [new]. *)
Fixpoint fresh_keys {K} (eqb : K -> K -> bool) (existing new : list K) : bool :=
  match new with
  | [] => true
  | k :: new' =>
      negb (existsb (eqb k) existing) && fresh_keys eqb (k :: existing) new'
  end.

Definition item_key (i : ContentItem.t) : UUID * string :=
  (ContentItem.source_id i, ContentItem.external_id i).

Definition item_key_eqb (a b : UUID * string) : bool :=
  N.eqb (fst a) (fst b) && String.eqb (snd a) (snd b).

Definition briefing_key (b : Briefing.t) : UUID * Date :=
  (Briefing.user_id b, Briefing.date b).

Definition briefing_key_eqb (a b : UUID * Date) : bool :=
  N.eqb (fst a) (fst b) && Z.eqb (snd a) (snd b).

Definition link_key (l : BriefingContent.t) : UUID * UUID :=
  (BriefingContent.briefing_id l, BriefingContent.content_id l).

Definition link_key_eqb (a b : UUID * UUID) : bool :=
  N.eqb (fst a) (fst b) && N.eqb (snd a) (snd b).

(** [uq_content_source_external], [uq_briefing_user_date] and
    [uq_briefing_content] on the rows a flush inserts. *)
Definition constraints_hold (existing new : DB) : bool :=
  fresh_keys item_key_eqb (map item_key (content_items existing))
             (map item_key (content_items new))
  && fresh_keys briefing_key_eqb (map briefing_key (briefings existing))
                (map briefing_key (briefings new))
  && fresh_keys link_key_eqb (map link_key (briefing_content existing))
                (map link_key (briefing_content new)).

(** [db.commit()]: flush the pending objects and the changed attributes.
    A failed flush leaves the session unusable until [rollback()]. *)
Definition commit (s : Session) : result unit * Session :=
  if inactive s then
    (Raise "This Session's transaction has been rolled back due to a previous exception during flush", s)
  else if constraints_hold (live s) (pending s) then
    let db := merge_db (live s) (pending s) in
    (Ok tt,
     {| committed := db; live := db; pending := empty_db; inactive := false;
        drawn := drawn s; requests := requests s |})
  else
    (Raise "duplicate key value violates unique constraint",
     {| committed := committed s; live := live s; pending := pending s;
        inactive := true; drawn := drawn s; requests := requests s |}).

(** [db.rollback()] followed by [db.close()]: what stays is what was
    committed. *)
Definition rollback (s : Session) : Session :=
  {| committed := committed s; live := committed s; pending := empty_db;
     inactive := false; drawn := drawn s; requests := requests s |}.

Definition add_content_item (s : Session) (i : ContentItem.t) : Session :=
  with_pending s (set_content_items (pending s) (content_items (pending s) ++ [i])%list).

Definition add_briefing (s : Session) (b : Briefing.t) : Session :=
  with_pending s (set_briefings (pending s) (briefings (pending s) ++ [b])%list).

Definition add_briefing_content (s : Session) (l : BriefingContent.t) : Session :=
  with_pending s (set_briefing_content (pending s) (briefing_content (pending s) ++ [l])%list).

Definition add_sync_log (s : Session) (l : SyncLog.t) : Session :=
  with_pending s (set_sync_logs (pending s) (sync_logs (pending s) ++ [l])%list).

(** ** [app/tasks/sync.py] *)

(** *** Provider clients and library functions *)

(** [decrypt_data] of [app/core/encryption.py] *)
Variable decrypt_data : string -> result string.
(** [datetime.fromisoformat] *)
Variable datetime_fromisoformat : string -> result datetime.
(** [BeautifulSoup(content, 'html.parser').get_text()] *)
Variable soup_get_text : string -> string.
(** [TwitterClient(access_token).get_user_timeline(user_id, max_results, start_time)] *)
Variable get_user_timeline :
  string -> option string -> Z -> datetime -> result (list Tweet).
(** [TelegramClient(bot_token).get_updates(offset, limit)] *)
Variable get_updates : string -> option Z -> Z -> result (list TgUpdate).
(** [FacebookClient(access_token).get_user_feed(user_id, limit, since)] *)
Variable get_user_feed : string -> string -> Z -> datetime -> result (list FbPost).
(** [InstagramClient(access_token).get_user_media(user_id, limit)] *)
Variable get_user_media : string -> string -> Z -> result (list IgMedia).
(** [feedparser.parse(feed_url)] *)
Variable feedparser_parse : string -> result Feed.
(** [s[:n]] *)
Variable str_slice_to : nat -> string -> string.

(** A [for] loop whose body may raise: the state reached before the failing
    iteration stays. *)
Fixpoint for_each {A St} (body : A -> St -> result St) (l : list A) (st : St)
    : result unit * St :=
  match l with
  | [] => (Ok tt, st)
  | x :: l' =>
      match body x st with
      | Ok st' => for_each body l' st'
      | Raise e => (Raise e, st)
      end
  end.

(** The loop state of a sync function: the session, [items_new] and
    [items_updated]. *)
Definition Counts : Type := Session * Z * Z.

Definition same_item (source : DataSource.t) (external_id : string)
    (i : ContentItem.t) : bool :=
  item_key_eqb (item_key i) (DataSource.id source, external_id).

(** [db.query(ContentItem).filter(source_id == ..., external_id == ...).first()];
    pending objects are not flushed before the query. *)
Definition existing_item (s : Session) (source : DataSource.t)
    (external_id : string) : option ContentItem.t :=
  find (same_item source external_id) (content_items (live s)).

Definition update_item (s : Session) (source : DataSource.t)
    (external_id : string) (f : ContentItem.t -> ContentItem.t) : Session :=
  with_live s (set_content_items (live s)
    (update_first (same_item source external_id) f (content_items (live s)))).

Definition refresh_item (title text_content url author : option string)
    (metadata : option ItemMetadata) (raw : option RawData)
    (i : ContentItem.t) : ContentItem.t :=
  {| ContentItem.id := ContentItem.id i;
     ContentItem.source_id := ContentItem.source_id i;
     ContentItem.external_id := ContentItem.external_id i;
     ContentItem.content_type := ContentItem.content_type i;
     ContentItem.title := title;
     ContentItem.text_content := text_content;
     ContentItem.url := url;
     ContentItem.author := author;
     ContentItem.published_at := ContentItem.published_at i;
     ContentItem.item_metadata := metadata;
     ContentItem.raw_data := raw;
     ContentItem.classification := ContentItem.classification i |}.

Definition new_item (run : Run) (s : Session) (source : DataSource.t)
    (external_id : string) (content_type : ContentType.t)
    (title text_content url author : option string) (published_at : datetime)
    (metadata : option ItemMetadata) (raw : option RawData) : ContentItem.t :=
  {| ContentItem.id := uuid4 run (drawn s);
     ContentItem.source_id := DataSource.id source;
     ContentItem.external_id := external_id;
     ContentItem.content_type := content_type;
     ContentItem.title := title;
     ContentItem.text_content := text_content;
     ContentItem.url := url;
     ContentItem.author := author;
     ContentItem.published_at := published_at;
     ContentItem.item_metadata := metadata;
     ContentItem.raw_data := raw;
     ContentItem.classification := None |}.

(** [if not source.credentials: raise ValueError(...)] *)
Definition require_credentials (source : DataSource.t) (name : string)
    : result (list (string * string)) :=
  match DataSource.credentials source with
  | None | Some [] => Raise ("No credentials found for " ++ name ++ " source")
  | Some credentials => Ok credentials
  end.

(** [credentials[key]] *)
Definition subscript (credentials : list (string * string)) (key : string)
    : result string :=
  match dict_get credentials key with
  | Some v => Ok v
  | None => Raise ("'" ++ key ++ "'")
  end.

(** [created.replace("Z", "+00:00")] parsed by [datetime.fromisoformat]. *)
Definition parse_created (created : string) : result datetime :=
  datetime_fromisoformat (replace_Z created).

(** The final [db.commit()] and [return] of a sync function. *)
Definition commit_counts (items_fetched : Z) (st : Counts)
    : result (Z * Z * Z) * Session :=
  let '(s, items_new, items_updated) := st in
  match commit s with
  | (Ok _, s') => (Ok (items_fetched, items_new, items_updated), s')
  | (Raise e, s') => (Raise e, s')
  end.

Definition reconcile {A} (body : A -> Counts -> result Counts) (fetched : list A)
    (s : Session) : result (Z * Z * Z) * Session :=
  let items_fetched := Z.of_nat (List.length fetched) in
  match for_each body fetched (s, 0, 0) with
  | (Ok _, st) => commit_counts items_fetched st
  | (Raise e, (s', _, _)) => (Raise e, s')
  end.

(** **** Twitter *)

Definition tweet_metadata (tweet : Tweet) : ItemMetadata :=
  MetaTwitter (get_default (tw_public_metrics tweet) no_metrics) (tw_lang tweet).

Definition twitter_body (run : Run) (source : DataSource.t)
    (credentials : list (string * string)) (tweet : Tweet) (st : Counts)
    : result Counts :=
  let '(s, items_new, items_updated) := st in
  let external_id := tw_id tweet in
  match existing_item s source external_id with
  | Some existing =>
      Ok (update_item s source external_id
            (fun i => refresh_item (ContentItem.title i) (tw_text tweet)
                        (ContentItem.url i) (ContentItem.author i)
                        (Some (tweet_metadata tweet)) (Some (RawTweet tweet)) i),
          items_new, items_updated + 1)
  | None =>
      published_at <-
        match tw_created_at tweet with
        | Some created => parse_created created
        | None => Raise "'NoneType' object has no attribute 'replace'"
        end ;;
      Ok (add_content_item s
            (new_item run s source external_id ContentType.POST None
               (tw_text tweet)
               (Some ("https://twitter.com/i/web/status/" ++ external_id))
               (dict_get credentials "twitter_username") published_at
               (Some (tweet_metadata tweet)) (Some (RawTweet tweet))),
          items_new + 1, items_updated)
  end.

(** [last_sync = source.last_sync_at]; the fetch window starts there, or 24
    hours back when it is [None]. *)
Definition window_start (source : DataSource.t) (utcnow : datetime) : datetime :=
  match DataSource.last_sync_at source with
  | Some last_sync => last_sync
  | None => utcnow - hours 24
  end.

Definition sync_twitter_source (run : Run) (s : Session) (source : DataSource.t)
    : result (Z * Z * Z) * Session :=
  match (credentials <- require_credentials source "Twitter" ;;
         token <- subscript credentials "access_token" ;;
         access_token <- decrypt_data token ;;
         Ok (credentials, access_token)) with
  | Raise e => (Raise e, s)
  | Ok (credentials, access_token) =>
      let start_time := window_start source (t_now run) in
      let user_id := dict_get credentials "twitter_user_id" in
      let s := send s (TwitterUserTimeline user_id 100 start_time) in
      match get_user_timeline access_token user_id 100 start_time with
      | Raise e => (Raise e, s)
      | Ok tweets => reconcile (twitter_body run source credentials) tweets s
      end
  end.

(** **** RSS ([app/services/rss_parser.py]) *)

Definition normalize_entry (run : Run) (feed : Feed) (entry : FeedEntry) : RssItem :=
  let published_at :=
    match entry_published_parsed entry, entry_updated_parsed entry with
    | Some t, _ => t
    | None, Some t => t
    | None, None => t_now run
    end in
  let content := str_or (entry_summary entry) (get_default (entry_description entry) "") in
  let content :=
    match content with
    | EmptyString => content
    | _ => soup_get_text content
    end in
  {| rss_external_id := get_default (entry_id entry) (get_default (entry_link entry) "");
     rss_title := get_default (entry_title entry) "";
     rss_text_content := content;
     rss_url := get_default (entry_link entry) "";
     rss_author := str_or (entry_author entry) (get_default (entry_dc_creator entry) "");
     rss_published_at := published_at;
     rss_feed_title := get_default (feed_title feed) "";
     rss_feed_link := get_default (feed_link feed) "";
     rss_tags := map (fun term => get_default term "") (entry_tags entry);
     rss_raw_data := entry |}.

(** [RSSParser.parse_feed]: the [except Exception] of the method logs the
    error and returns [[]]. *)
Definition parse_feed (run : Run) (feed_url : string) : list RssItem :=
  match feedparser_parse feed_url with
  | Ok feed => map (normalize_entry run feed) (entries feed)
  | Raise _ => []
  end.

Definition rss_metadata (item_data : RssItem) : ItemMetadata :=
  MetaRss (rss_feed_title item_data) (rss_feed_link item_data) (rss_tags item_data).

Definition rss_body (run : Run) (source : DataSource.t) (item_data : RssItem)
    (st : Counts) : result Counts :=
  let '(s, items_new, items_updated) := st in
  let external_id := rss_external_id item_data in
  match existing_item s source external_id with
  | Some existing =>
      Ok (update_item s source external_id
            (refresh_item (Some (rss_title item_data))
               (Some (rss_text_content item_data)) (Some (rss_url item_data))
               (Some (rss_author item_data)) (Some (rss_metadata item_data))
               (Some (RawEntry (rss_raw_data item_data)))),
          items_new, items_updated + 1)
  | None =>
      Ok (add_content_item s
            (new_item run s source external_id ContentType.ARTICLE
               (Some (rss_title item_data)) (Some (rss_text_content item_data))
               (Some (rss_url item_data)) (Some (rss_author item_data))
               (rss_published_at item_data) (Some (rss_metadata item_data))
               (Some (RawEntry (rss_raw_data item_data)))),
          items_new + 1, items_updated)
  end.

Definition sync_rss_source (run : Run) (s : Session) (source : DataSource.t)
    : result (Z * Z * Z) * Session :=
  match DataSource.settings source with
  | None | Some [] => (Raise "No feed_url found in RSS source settings", s)
  | Some settings =>
      match dict_get settings "feed_url" with
      | None => (Raise "No feed_url found in RSS source settings", s)
      | Some feed_url =>
          let s := send s (FeedparserParse feed_url) in
          let feed_items := parse_feed run feed_url in
          reconcile (rss_body run source) feed_items s
      end
  end.

(** **** Telegram *)

Definition str_of_opt_int (n : option Z) : string :=
  match n with
  | Some n => str_of_int n
  | None => ""
  end.

Definition telegram_body (run : Run) (source : DataSource.t) (update : TgUpdate)
    (st : Counts) : result Counts :=
  let '(s, items_new, items_updated) := st in
  match upd_message update with
  | None => Ok st
  | Some message =>
      let external_id := str_of_opt_int (message_id message) in
      let chat_id := str_of_opt_int (chat_id message) in
      match existing_item s source external_id with
      | Some existing => Ok (s, items_new, items_updated + 1)
      | None =>
          let published_at :=
            match msg_date message with
            | None | Some 0 => t_now run
            | Some message_date => message_date
            end in
          let text := str_or (msg_text message) (get_default (msg_caption message) "") in
          Ok (add_content_item s
                (new_item run s source external_id ContentType.MESSAGE None
                   (Some text) None
                   (Some (get_default (from_username message) ""))
                   published_at
                   (Some (MetaTelegram chat_id
                            (get_default (chat_type message) "")
                            (get_default (message_type message) "text")))
                   (Some (RawMessage message))),
              items_new + 1, items_updated)
      end
  end.

Definition sync_telegram_source (run : Run) (s : Session) (source : DataSource.t)
    : result (Z * Z * Z) * Session :=
  match (credentials <- require_credentials source "Telegram" ;;
         token <- subscript credentials "bot_token" ;;
         decrypt_data token) with
  | Raise e => (Raise e, s)
  | Ok bot_token =>
      let offset := DataSource.last_sync_at source in
      let s := send s (TelegramGetUpdates offset 100) in
      match get_updates bot_token offset 100 with
      | Raise e => (Raise e, s)
      | Ok updates => reconcile (telegram_body run source) updates s
      end
  end.

(** **** Facebook *)

Definition post_metadata (post : FbPost) : ItemMetadata :=
  MetaFacebook (get_default (fb_likes post) 0) (get_default (fb_comments post) 0)
               (get_default (fb_shares post) 0).

Definition created_or_now (run : Run) (created : option string) : result datetime :=
  match created with
  | None | Some EmptyString => Ok (t_now run)
  | Some created => parse_created created
  end.

Definition facebook_body (run : Run) (source : DataSource.t) (post : FbPost)
    (st : Counts) : result Counts :=
  let '(s, items_new, items_updated) := st in
  let external_id := get_default (fb_id post) "" in
  match existing_item s source external_id with
  | Some existing =>
      Ok (update_item s source external_id
            (fun i => refresh_item (ContentItem.title i)
                        (Some (get_default (fb_message post) ""))
                        (ContentItem.url i) (ContentItem.author i)
                        (Some (post_metadata post)) (Some (RawPost post)) i),
          items_new, items_updated + 1)
  | None =>
      published_at <- created_or_now run (fb_created_time post) ;;
      Ok (add_content_item s
            (new_item run s source external_id ContentType.POST None
               (Some (get_default (fb_message post) "")) None
               (Some (get_default (fb_from_name post) "")) published_at
               (Some (post_metadata post)) (Some (RawPost post))),
          items_new + 1, items_updated)
  end.

Definition sync_facebook_source (run : Run) (s : Session) (source : DataSource.t)
    : result (Z * Z * Z) * Session :=
  match (credentials <- require_credentials source "Facebook" ;;
         token <- subscript credentials "access_token" ;;
         decrypt_data token) with
  | Raise e => (Raise e, s)
  | Ok access_token =>
      let start_time := window_start source (t_now run) in
      let s := send s (FacebookUserFeed "me" 100 start_time) in
      match get_user_feed access_token "me" 100 start_time with
      | Raise e => (Raise e, s)
      | Ok posts => reconcile (facebook_body run source) posts s
      end
  end.

(** **** Instagram *)

Definition instagram_body (run : Run) (source : DataSource.t) (media : IgMedia)
    (st : Counts) : result Counts :=
  let '(s, items_new, items_updated) := st in
  let external_id := get_default (ig_id media) "" in
  let caption := get_default (ig_caption media) "" in
  match existing_item s source external_id with
  | Some existing =>
      Ok (update_item s source external_id
            (fun i => refresh_item (ContentItem.title i) (Some caption)
                        (ContentItem.url i) (ContentItem.author i)
                        (Some (MetaInstagram
                                 (get_default (ig_media_type media) "")
                                 (get_default (ig_media_url media) "")
                                 (Some (get_default (ig_permalink media) ""))
                                 None))
                        (Some (RawMedia media)) i),
          items_new, items_updated + 1)
  | None =>
      published_at <- created_or_now run (ig_timestamp media) ;;
      Ok (add_content_item s
            (new_item run s source external_id ContentType.POST
               match caption with
               | EmptyString => None
               | _ => Some (str_slice_to 200 caption)
               end
               (Some caption)
               (Some (get_default (ig_permalink media) ""))
               (Some (get_default (ig_username media) "")) published_at
               (Some (MetaInstagram
                        (get_default (ig_media_type media) "")
                        (get_default (ig_media_url media) "")
                        None
                        (Some (get_default (ig_thumbnail_url media) ""))))
               (Some (RawMedia media))),
          items_new + 1, items_updated)
  end.

Definition sync_instagram_source (run : Run) (s : Session) (source : DataSource.t)
    : result (Z * Z * Z) * Session :=
  match (credentials <- require_credentials source "Instagram" ;;
         token <- subscript credentials "access_token" ;;
         decrypt_data token) with
  | Raise e => (Raise e, s)
  | Ok access_token =>
      let s := send s (InstagramUserMedia "me" 100) in
      match get_user_media access_token "me" 100 with
      | Raise e => (Raise e, s)
      | Ok media_items => reconcile (instagram_body run source) media_items s
      end
  end.

(** **** [sync_data_source] *)

Definition source_by_id (source_id : UUID) (x : DataSource.t) : bool :=
  N.eqb (DataSource.id x) source_id.

Definition sync_dispatch (run : Run) (s : Session) (source : DataSource.t)
    : result (Z * Z * Z) * Session :=
  match DataSource.source_type source with
  | SourceType.TWITTER => sync_twitter_source run s source
  | SourceType.RSS => sync_rss_source run s source
  | SourceType.TELEGRAM => sync_telegram_source run s source
  | SourceType.FACEBOOK => sync_facebook_source run s source
  | SourceType.INSTAGRAM => sync_instagram_source run s source
  | SourceType.EMAIL => (Ok (0, 0, 0), s)
  end.

Definition new_sync_log (run : Run) (source : DataSource.t)
    (outcome : result (Z * Z * Z)) : SyncLog.t :=
  let '(status, (items_fetched, items_new, items_updated), error_message) :=
    match outcome with
    | Ok counts => (SyncStatus.SUCCESS, counts, None)
    | Raise e => (SyncStatus.FAILED, (0, 0, 0), Some e)
    end in
  {| SyncLog.source_id := DataSource.id source;
     SyncLog.status := status;
     SyncLog.items_fetched := items_fetched;
     SyncLog.items_new := items_new;
     SyncLog.items_updated := items_updated;
     SyncLog.error_message := error_message;
     SyncLog.duration_seconds := t_end run - t_start run;
     SyncLog.started_at := t_start run;
     SyncLog.completed_at := t_end run |}.

(** The celery task.  The result is the session when the task closes it:
    [committed] is the store the task leaves, [requests] what it asked of the
    providers. *)
Definition sync_data_source (run : Run) (db : DB) (source_id : UUID) : Session :=
  let start_time := t_start run in
  let s := open_session db in
  match find (source_by_id source_id) (data_sources (live s)) with
  | None => rollback s
  | Some found =>
      if negb (DataSource.is_active found) then rollback s
      else
        let s := with_live s (set_data_sources (live s)
                   (update_first (source_by_id source_id)
                      (fun x => DataSource.set_last_sync_at x (Some start_time))
                      (data_sources (live s)))) in
        match find (source_by_id source_id) (data_sources (live s)) with
        | None => rollback s
        | Some source =>
            let '(outcome, s) := sync_dispatch run s source in
            let s := add_sync_log s (new_sync_log run source outcome) in
            match commit s with
            | (Ok _, s) => rollback s
            | (Raise _, s) => rollback s
            end
        end
  end.

(** ** [app/tasks/briefing.py] *)

(** *** Collaborators *)

(** Whether [openai_client] is configured ([settings.OPENAI_API_KEY]). *)
Variable openai_client : bool.
(** The completion request of [AIClassifier.classify] for an item, parsed. *)
Variable classify_reply : ContentItem.t -> result json.
(** Whether PostgreSQL takes a value for the [ARRAY(Text)] column
    [ContentClassification.topics]. *)
Variable stores_topics : json -> bool.
(** The completion request of [generate_text_summary]:
    [response.choices[0].message.content]. *)
Variable summary_reply : list ContentItem.t -> result (option string).
Variable ELEVENLABS_API_KEY : string.
Variable _generate_with_elevenlabs : option string -> result string.
Variable _generate_with_openai : option string -> result string.
Variable STORAGE_TYPE : string.
(** [os.makedirs] and the write of the audio file. *)
Variable write_file : string -> string -> result unit.
(** [f"{x:.2f}"] *)
Variable format_2f : Q -> string.

Definition newline : string := String "010"%char EmptyString.

Definition item_text (item : ContentItem.t) : string :=
  str_or (ContentItem.text_content item) (str_or (ContentItem.title item) "").

Fixpoint enumerate {A} (start : Z) (l : list A) : list (Z * A) :=
  match l with
  | [] => []
  | x :: l' => (start, x) :: enumerate (start + 1) l'
  end.

Definition _create_fallback_summary (content_items : list ContentItem.t) : string :=
  String.concat newline
    (("Доброе утро! Вот ваш дайджест на сегодня:" ++ newline)
     :: map (fun '(i, item) =>
               str_of_int i ++ ". " ++ str_slice_to 100 (item_text item) ++ "...")
            (enumerate 1 (firstn 10 content_items))).

Definition generate_text_summary (content_items : list ContentItem.t)
    : option string :=
  match summary_reply content_items with
  | Ok summary => summary
  | Raise _ => Some (_create_fallback_summary content_items)
  end.

Definition generate_audio (text : option string) : result string :=
  match ELEVENLABS_API_KEY with
  | EmptyString => _generate_with_openai text
  | _ =>
      match _generate_with_elevenlabs text with
      | Ok audio => Ok audio
      | Raise _ => _generate_with_openai text
      end
  end.

Definition str_of_uuid (id : UUID) : string := str_of_int (Z.of_N id).

Definition save_audio_file (briefing_id : UUID) (audio_data : string)
    : result string :=
  if String.eqb STORAGE_TYPE "local" then
    _ <- write_file (str_of_uuid briefing_id ++ ".mp3") audio_data ;;
    Ok ("/storage/" ++ str_of_uuid briefing_id ++ ".mp3")
  else Raise "S3/Azure storage not implemented yet".

Definition briefing_for (user_id : UUID) (d : Date) (b : Briefing.t) : bool :=
  briefing_key_eqb (briefing_key b) (user_id, d).

Definition update_briefing (s : Session) (this : Briefing.t -> bool)
    (f : Briefing.t -> Briefing.t) : Session :=
  with_live s (set_briefings (live s) (update_first this f (briefings (live s)))).

Definition fail_with (message : string) (b : Briefing.t) : Briefing.t :=
  Briefing.set_error_message (Briefing.set_status b BriefingStatus.FAILED)
                             (Some message).

Definition link_body (briefing_id : UUID) (row : Z * ContentItem.t) (s : Session)
    : result Session :=
  let '(order, item) := row in
  match ContentItem.classification item with
  | None => Raise "'NoneType' object has no attribute 'relevance_score'"
  | Some c =>
      Ok (add_briefing_content s
            {| BriefingContent.briefing_id := briefing_id;
               BriefingContent.content_id := ContentItem.id item;
               BriefingContent.order := order;
               BriefingContent.included_reason :=
                 "Relevance: "
                 ++ format_2f (ContentClassification.relevance_score c) |})
  end.

(** The inner [try] block of [generate_briefing]; [this] is the briefing
    object, [briefing_id] its primary key. *)
Definition generate (run : Run) (s : Session) (user : User.t)
    (this : Briefing.t -> bool) (briefing_id : UUID) : result unit * Session :=
  match select_content_for_briefing (live s) user None (t_now run) with
  | Raise e => (Raise e, s)
  | Ok [] =>
      commit (update_briefing s this (fail_with "No content available for briefing"))
  | Ok content_items =>
      let text_summary := generate_text_summary content_items in
      match (audio_data <- generate_audio text_summary ;;
             save_audio_file briefing_id audio_data) with
      | Raise e => (Raise e, s)
      | Ok audio_url =>
          let s := update_briefing s this
                     (fun b => Briefing.set_status
                                 (Briefing.set_generated b text_summary audio_url
                                    settings.BRIEFING_DURATION_SECONDS
                                    (Z.of_nat (List.length content_items))
                                    (t_now run))
                                 BriefingStatus.READY) in
          match for_each (link_body briefing_id) (enumerate 1 content_items) s with
          | (Raise e, s) => (Raise e, s)
          | (Ok _, s) => commit s
          end
      end
  end.

(** [generate_briefing] from its first [db.commit()] on: the briefing is
    [GENERATING] in the session, [generate] runs, and the [except] clause
    records a failure. *)
Definition commit_and_generate (run : Run) (s : Session) (user : User.t)
    (this : Briefing.t -> bool) (briefing_id : UUID) : option UUID * DB :=
  match commit s with
  | (Raise _, s) => (None, committed (rollback s))
  | (Ok _, s) =>
      match generate run s user this briefing_id with
      | (Ok _, s) => (Some briefing_id, committed (rollback s))
      | (Raise e, s) =>
          match commit (update_briefing s this (fail_with e)) with
          | (Ok _, s) => (Some briefing_id, committed (rollback s))
          | (Raise _, s) => (None, committed (rollback s))
          end
      end
  end.

Definition not_deleted (u : User.t) : bool :=
  match User.deleted_at u with
  | None => true
  | Some _ => false
  end.

(** The celery task [generate_briefing(user_id, briefing_date)]: the value it
    returns and the store it leaves. *)
Definition generate_briefing (run : Run) (db : DB) (user_id : UUID)
    (briefing_date : option Date) : option UUID * DB :=
  let s := open_session db in
  match find (fun u => N.eqb (User.id u) user_id && not_deleted u)
             (users (live s)) with
  | None => (None, committed (rollback s))
  | Some user =>
      if negb (User.is_active user) then (None, committed (rollback s))
      else
        let target_date := get_default briefing_date (today run) in
        let this := briefing_for (User.id user) target_date in
        match find this (briefings (live s)) with
        | Some existing_briefing =>
            if BriefingStatus.eqb (Briefing.status existing_briefing)
                                  BriefingStatus.DELIVERED
            then (Some (Briefing.id existing_briefing), committed (rollback s))
            else
              commit_and_generate run
                (update_briefing s this
                   (fun b => Briefing.set_status b BriefingStatus.GENERATING))
                user this (Briefing.id existing_briefing)
        | None =>
            let id := uuid4 run (drawn s) in
            commit_and_generate run
              (add_briefing s (Briefing.new id (User.id user) target_date
                                 BriefingStatus.GENERATING))
              user this id
        end
  end.

(** [generate_daily_briefings]: the tasks the sweep queues. *)
Inductive Task :=
| GenerateBriefing (user_id : UUID) (briefing_date : option Date).

Definition generate_daily_briefings (run : Run) (db : DB) : list Task :=
  flat_map
    (fun user =>
       let briefing_datetime := today run * 86400 + User.briefing_time user in
       let generation_time :=
         briefing_datetime - settings.BRIEFING_GENERATION_START_MINUTES * 60 in
       let time_diff := t_now run - generation_time in
       if (0 <=? time_diff) && (time_diff <=? 3600) then
         match find (briefing_for (User.id user) (today run)) (briefings db) with
         | Some existing =>
             if BriefingStatus.eqb (Briefing.status existing) BriefingStatus.DELIVERED
             then []
             else [GenerateBriefing (User.id user) (Some (today run))]
         | None => [GenerateBriefing (User.id user) (Some (today run))]
         end
       else [])
    (filter (fun u => not_deleted u && User.is_active u) (users db)).

(** [classify_pending_content]: up to 100 unclassified items of the last 24
    hours get a classification, from the AI classifier when a client is
    configured and from the rule-based one otherwise. *)
Definition new_classification (item : ContentItem.t) : ContentClassification.t :=
  let classification_data :=
    if openai_client then AIClassifier_classify (classify_reply item) item
    else RuleBasedClassifier_classify item in
  {| ContentClassification.category := category classification_data;
     ContentClassification.relevance_score := relevance_score classification_data;
     ContentClassification.importance_score := importance_score classification_data;
     ContentClassification.social_score := social_score classification_data;
     ContentClassification.personal_score := personal_score classification_data;
     ContentClassification.topics := topics classification_data;
     ContentClassification.model_version :=
       Some (if openai_client then "gpt-4-v1" else "rule-based-v1") |}.

Definition set_classification (i : ContentItem.t)
    (c : ContentClassification.t) : ContentItem.t :=
  {| ContentItem.id := ContentItem.id i;
     ContentItem.source_id := ContentItem.source_id i;
     ContentItem.external_id := ContentItem.external_id i;
     ContentItem.content_type := ContentItem.content_type i;
     ContentItem.title := ContentItem.title i;
     ContentItem.text_content := ContentItem.text_content i;
     ContentItem.url := ContentItem.url i;
     ContentItem.author := ContentItem.author i;
     ContentItem.published_at := ContentItem.published_at i;
     ContentItem.item_metadata := ContentItem.item_metadata i;
     ContentItem.raw_data := ContentItem.raw_data i;
     ContentItem.classification := Some c |}.

(** The filter of the query:
    [ContentClassification.id.is_(None), ContentItem.published_at >= cutoff_time]. *)
Definition unclassified_since (cutoff_time : datetime) (item : ContentItem.t)
    : bool :=
  negb (truthy_classification item)
  && (cutoff_time <=? ContentItem.published_at item).

(** The items table once the first [n] rows of the query have their
    classification. *)
Fixpoint classify_first (n : nat) (cutoff_time : datetime)
    (items : list ContentItem.t) : list ContentItem.t :=
  match items with
  | [] => []
  | item :: rest =>
      if unclassified_since cutoff_time item then
        match n with
        | O => items
        | S n' =>
            set_classification item (new_classification item)
            :: classify_first n' cutoff_time rest
        end
      else item :: classify_first n cutoff_time rest
  end.

(** The one [db.commit()] of the task flushes the classifications of the
    loop together.  The value of [topics] goes to the column as the
    classifier returned it; a refused row makes the flush raise, and the
    [except] clause rolls the whole batch back. *)
Definition classify_pending_content (run : Run) (db : DB) : DB :=
  let cutoff_time := t_now run - hours 24 in
  let unclassified :=
    firstn 100 (filter (unclassified_since cutoff_time) (content_items db)) in
  let classifications := map new_classification unclassified in
  if forallb (fun c => stores_topics (ContentClassification.topics c))
             classifications
  then set_content_items db (classify_first 100 cutoff_time (content_items db))
  else db.

(** ** [app/api/briefings.py] *)

(** [POST /generate]: the response, the tasks queued with [.delay] and the
    store after the request. *)
Definition trigger_briefing_generation (run : Run) (db : DB)
    (current_user : User.t) (target_date : option Date)
    : result Briefing.t * list Task * DB :=
  let s := open_session db in
  let target_date := get_default target_date (today run) in
  let this := briefing_for (User.id current_user) target_date in
  let existing := find this (briefings (live s)) in
  let delivered :=
    match existing with
    | Some b => BriefingStatus.eqb (Briefing.status b) BriefingStatus.DELIVERED
    | None => false
    end in
  match existing, delivered with
  | Some b, true => (Ok b, [], committed (rollback s))
  | _, _ =>
      let task := GenerateBriefing (User.id current_user) (Some target_date) in
      let s :=
        match existing with
        | Some _ =>
            update_briefing s this
              (fun b => Briefing.set_status b BriefingStatus.GENERATING)
        | None =>
            add_briefing s (Briefing.new (uuid4 run (drawn s))
                              (User.id current_user) target_date
                              BriefingStatus.GENERATING)
        end in
      match commit s with
      | (Raise e, s) => (Raise e, [task], committed (rollback s))
      | (Ok _, s) =>
          match find this (briefings (live s)) with
          | Some briefing => (Ok briefing, [task], committed (rollback s))
          | None => (Raise "Instance could not be refreshed", [task],
                     committed (rollback s))
          end
      end
  end.

(** [POST /{briefing_id}/mark-delivered] *)
Definition mark_briefing_delivered (run : Run) (db : DB) (briefing_id : UUID)
    (current_user : User.t) : result Briefing.t * DB :=
  let s := open_session db in
  let this := fun b => N.eqb (Briefing.id b) briefing_id
                       && N.eqb (Briefing.user_id b) (User.id current_user) in
  match find this (briefings (live s)) with
  | None => (Raise "Briefing not found", committed (rollback s))
  | Some _ =>
      let s := update_briefing s this
                 (fun b => Briefing.set_delivered_at
                             (Briefing.set_status b BriefingStatus.DELIVERED)
                             (Some (t_now run))) in
      match commit s with
      | (Raise e, s) => (Raise e, committed (rollback s))
      | (Ok _, s) =>
          match find this (briefings (live s)) with
          | Some briefing => (Ok briefing, committed (rollback s))
          | None => (Raise "Instance could not be refreshed", committed (rollback s))
          end
      end
  end.

End Digest.

(** * Test data *)

Module Example.

Definition lower (s : string) : string := s.
Definition no_words (s : string) : list string := [].
Definition no_float (s : string) : result Q := Raise "could not convert string to float".
Definition decrypt (s : string) : result string := Ok s.
Definition fromisoformat (s : string) : result datetime := Ok 1700000000.
Definition get_text (s : string) : string := s.
Definition slice (n : nat) (s : string) : string := s.

Definition run1 : Run :=
  {| t_start := 1700003600; t_now := 1700003601; t_end := 1700003602;
     today := 19676; uuid4 := fun n => N.of_nat (100 + n) |}.

Definition run2 : Run :=
  {| t_start := 1700007200; t_now := 1700007201; t_end := 1700007202;
     today := 19676; uuid4 := fun n => N.of_nat (200 + n) |}.

Definition user : User.t :=
  {| User.id := 1%N; User.is_active := true; User.deleted_at := None;
     User.briefing_time := 28800 |}.

Definition source (type : SourceType.t) (last_sync_at : option datetime)
    : DataSource.t :=
  {| DataSource.id := 10%N; DataSource.user_id := 1%N;
     DataSource.source_type := type;
     DataSource.credentials :=
       Some [("access_token", "token"); ("bot_token", "token");
             ("twitter_user_id", "42")];
     DataSource.is_active := true;
     DataSource.last_sync_at := last_sync_at;
     DataSource.sync_frequency_minutes := 15;
     DataSource.settings := Some [("feed_url", "https://example.org/feed")] |}.

Definition tweet (id : string) : Tweet :=
  {| tw_id := id; tw_text := Some "text";
     tw_created_at := Some "2023-11-14T22:13:20Z";
     tw_public_metrics := None; tw_lang := Some "en" |}.

Definition db_with (sources : list DataSource.t) (items : list ContentItem.t)
    (bs : list Briefing.t) : DB :=
  {| users := [user]; user_preferences := []; data_sources := sources;
     content_items := items; briefings := bs; briefing_content := [];
     sync_logs := [] |}.

Definition timeline (tweets : list Tweet)
    (token : string) (user_id : option string) (max_results : Z)
    (start_time : datetime) : result (list Tweet) := Ok tweets.

Definition no_updates (token : string) (offset : option Z) (limit : Z)
    : result (list TgUpdate) := Ok [].

Definition updates (l : list TgUpdate) (token : string) (offset : option Z)
    (limit : Z) : result (list TgUpdate) := Ok l.

Definition no_feed (token user_id : string) (limit : Z) (since : datetime)
    : result (list FbPost) := Ok [].

Definition no_media (token user_id : string) (limit : Z)
    : result (list IgMedia) := Ok [].

Definition feed_unreachable (feed_url : string) : result Feed :=
  Raise "<urlopen error [Errno -2] Name or service not known>".

(** [sync_data_source] with a Twitter timeline that answers [tweets]. *)
Definition sync_twitter (tweets : list Tweet) (run : Run) (db : DB) : Session :=
  sync_data_source decrypt fromisoformat get_text (timeline tweets) no_updates
    no_feed no_media feed_unreachable slice run db 10%N.

Definition sync_rss (run : Run) (db : DB) : Session :=
  sync_data_source decrypt fromisoformat get_text (timeline []) no_updates
    no_feed no_media feed_unreachable slice run db 10%N.

Definition item (id : UUID) (published_at : datetime)
    (c : option ContentClassification.t) : ContentItem.t :=
  {| ContentItem.id := id; ContentItem.source_id := 10%N;
     ContentItem.external_id := str_of_uuid id;
     ContentItem.content_type := ContentType.POST;
     ContentItem.title := None; ContentItem.text_content := Some "text";
     ContentItem.url := None; ContentItem.author := None;
     ContentItem.published_at := published_at;
     ContentItem.item_metadata := None; ContentItem.raw_data := None;
     ContentItem.classification := c |}.

Definition scored (relevance importance : Q) : ContentClassification.t :=
  {| ContentClassification.category := CategoryType.WORK;
     ContentClassification.relevance_score := relevance;
     ContentClassification.importance_score := importance;
     ContentClassification.social_score := 0;
     ContentClassification.personal_score := 3 # 10;
     ContentClassification.topics := JList [];
     ContentClassification.model_version := Some "rule-based-v1" |}.

Definition briefing (st : BriefingStatus.t) : Briefing.t :=
  Briefing.new 50%N 1%N 19676 st.

Definition no_summary (items : list ContentItem.t) : result (option string) :=
  Raise "Connection error.".
Definition tts (text : option string) : result string := Ok "mp3".
Definition write (path data : string) : result unit := Ok tt.
Definition two_decimals (x : Q) : string := "0.00".

Definition generate (run : Run) (db : DB) : option UUID * DB :=
  generate_briefing slice no_summary "" tts tts "local" write two_decimals
    run db 1%N None.

Definition timeline_fails (token : string) (user_id : option string)
    (max_results : Z) (start_time : datetime) : result (list Tweet) :=
  Raise "429 Too Many Requests".

(** [sync_data_source] with a Telegram client that answers [l]. *)
Definition sync_telegram (l : list TgUpdate) (run : Run) (db : DB) : Session :=
  sync_data_source decrypt fromisoformat get_text (timeline []) (updates l)
    no_feed no_media feed_unreachable slice run db 10%N.

(** [sync_data_source] with a Twitter client whose request fails. *)
Definition sync_twitter_failing (run : Run) (db : DB) : Session :=
  sync_data_source decrypt fromisoformat get_text timeline_fails no_updates
    no_feed no_media feed_unreachable slice run db 10%N.

(** An edited-message update: it has no ["message"] key. *)
Definition edited_update : TgUpdate := {| update_id := 7; upd_message := None |}.

Definition twitter_db (last_sync_at : option datetime) : DB :=
  db_with [source SourceType.TWITTER last_sync_at] [] [].

(** Three classified items of the last day, one unclassified item and one
    below the default threshold. *)
Definition selection_db : DB :=
  db_with [source SourceType.TWITTER None]
    [item 1%N 1700000000 (Some (scored (1 # 2) (1 # 2)));
     item 2%N 1700000000 (Some (scored (9 # 10) (1 # 2)));
     item 3%N 1700000000 (Some (scored (1 # 2) (7 # 10)));
     item 4%N 1700000000 None;
     item 5%N 1700000000 (Some (scored (1 # 10) (7 # 10)))] [].

Definition english_item : ContentItem.t :=
  item 6%N 1700000000 (Some (scored 0 0)).

Definition malformed_reply : result json := Ok (JList [JStr "work"]).

End Example.

(** * Further functions of the cited modules *)

(** ** [sync_all_sources] ([app/tasks/sync.py]) *)

(** The tasks [sync_all_sources] queues with [sync_data_source.delay]. *)
Inductive SyncTask :=
| SyncDataSource (source_id : UUID).

(** A [datetime] value: naive, as [datetime.utcnow()] returns it, or aware,
    as PostgreSQL returns the value of a [DateTime(timezone=True)] column. *)
Inductive py_datetime :=
| Naive (t : datetime)
| Aware (t : datetime).

(** [a - b] on [datetime] values, in seconds. *)
Definition datetime_sub (a b : py_datetime) : result Z :=
  match a, b with
  | Naive x, Naive y | Aware x, Aware y => Ok (x - y)
  | _, _ => Raise "can't subtract offset-naive and offset-aware datetimes"
  end.

(** The loop of [sync_all_sources] over the active sources: the tasks it
    queues, and how it ends.  [source.last_sync_at] was loaded by the query
    of this session. *)
Fixpoint queue_due (utcnow : datetime) (sources : list DataSource.t)
    : list SyncTask * result unit :=
  match sources with
  | [] => ([], Ok tt)
  | source :: rest =>
      let queue_source :=
        let '(tasks, outcome) := queue_due utcnow rest in
        (SyncDataSource (DataSource.id source) :: tasks, outcome) in
      match DataSource.last_sync_at source with
      | Some last_sync_at =>
          match datetime_sub (Naive utcnow) (Aware last_sync_at) with
          | Raise e => ([], Raise e)
          | Ok time_since_sync =>
              let sync_interval :=
                DataSource.sync_frequency_minutes source * 60 in
              if time_since_sync <? sync_interval then queue_due utcnow rest
              else queue_source
          end
      | None => queue_source
      end
  end.

(** [sync_all_sources]: the tasks queued and the outcome of the task; the
    function has no [except] clause. *)
Definition sync_all_sources (run : Run) (db : DB) : list SyncTask * result unit :=
  queue_due (t_now run) (filter DataSource.is_active (data_sources db)).

(** ** [TwitterClient] ([app/services/twitter_client.py]) *)

(** What the loop of [get_user_timeline] reads of a response:
    [data.get("data", [])] and [data.get("meta", {}).get("next_token")]. *)
Record TimelinePage := {
  page_data : list Tweet;
  page_next_token : option string
}.

(** Truth value of an optional string: [None] and [""] are falsy. *)
Definition truthy_str (o : option string) : bool :=
  match o with
  | Some (String _ _) => true
  | _ => false
  end.

Module TwitterClient.
Section Client.

(** [self.get_me()], read as [user_info.get("data", {}).get("id")]. *)
Variable get_me : result (option string).

(** The GET request number [n] of a call, for a user id and the
    [pagination_token] parameter, with [raise_for_status] and [json]. *)
Variable get_page : nat -> option string -> option string -> result TimelinePage.

(** The [while len(all_tweets) < max_results] loop; [n] counts the
    requests sent so far.  [None]: the fuel did not suffice. *)
Fixpoint timeline_loop (fuel n : nat) (user_id : option string)
    (max_results : Z) (all_tweets : list Tweet) (next_token : option string)
    : option (result (list Tweet * nat)) :=
  match fuel with
  | O => None
  | S fuel =>
      if Z.of_nat (List.length all_tweets) <? max_results then
        match get_page n user_id
                (if truthy_str next_token then next_token else None) with
        | Raise e => Some (Raise e)
        | Ok data =>
            let all_tweets := (all_tweets ++ page_data data)%list in
            let next_token := page_next_token data in
            if negb (truthy_str next_token) then Some (Ok (all_tweets, S n))
            else timeline_loop fuel (S n) user_id max_results all_tweets
                   next_token
        end
      else Some (Ok (all_tweets, n))
  end.

(** [get_user_timeline(user_id, max_results)]: the tweets returned and the
    number of timeline requests sent. *)
Definition get_user_timeline (fuel : nat) (user_id : option string)
    (max_results : Z) : option (result (list Tweet * nat)) :=
  match (if negb (truthy_str user_id) then get_me else Ok user_id) with
  | Raise e => Some (Raise e)
  | Ok user_id =>
      match timeline_loop fuel 0 user_id max_results [] None with
      | None => None
      | Some (Raise e) => Some (Raise e)
      | Some (Ok (all_tweets, n)) => Some (Ok (slice_to all_tweets max_results, n))
      end
  end.

End Client.
End TwitterClient.

(** ** The reading endpoints ([app/api/briefings.py]) *)

(** [GET /]: the briefings of the user of the last [days] days, latest
    first. *)
Definition get_briefings (run : Run) (db : DB) (days : Z)
    (current_user : User.t) : list Briefing.t :=
  let cutoff_date := today run - days in
  sort_desc (fun a b => Briefing.date b <? Briefing.date a)
    (filter (fun b => N.eqb (Briefing.user_id b) (User.id current_user)
                      && (cutoff_date <=? Briefing.date b))
            (briefings db)).

(** [GET /today] *)
Definition get_today_briefing (run : Run) (db : DB) (current_user : User.t)
    : option Briefing.t :=
  find (fun b => N.eqb (Briefing.user_id b) (User.id current_user)
                 && Z.eqb (Briefing.date b) (today run))
       (briefings db).

(** * Further test data *)

Module Fixture.

(** A Twitter source whose credentials column is NULL. *)
Definition bare_source : DataSource.t :=
  {| DataSource.id := 10%N; DataSource.user_id := 1%N;
     DataSource.source_type := SourceType.TWITTER;
     DataSource.credentials := None;
     DataSource.is_active := true;
     DataSource.last_sync_at := None;
     DataSource.sync_frequency_minutes := 15;
     DataSource.settings := None |}.

Definition text_message : TgMessage :=
  {| message_id := Some 5; chat_id := Some 77; chat_type := Some "private";
     msg_date := Some 1700000000; msg_text := Some "text";
     msg_caption := None; from_username := Some "anna";
     message_type := None |}.

Definition text_update : TgUpdate :=
  {| update_id := 8; upd_message := Some text_message |}.

Definition entry : FeedEntry :=
  {| entry_id := Some "post-1"; entry_link := Some "https://example.org/1";
     entry_title := Some "Post"; entry_summary := Some "text";
     entry_description := None; entry_author := None;
     entry_dc_creator := None; entry_published_parsed := Some 1700000000;
     entry_updated_parsed := None; entry_tags := [] |}.

(** A feed that carries the same entry twice. *)
Definition feed_twice (feed_url : string) : result Feed :=
  Ok {| bozo := false; feed_title := Some "Feed"; feed_link := None;
        entries := [entry; entry] |}.

(** An item whose text holds a keyword of the "important" list and no
    keyword of a category list. *)
Definition urgent_item : ContentItem.t :=
  {| ContentItem.id := 7%N; ContentItem.source_id := 10%N;
     ContentItem.external_id := "7";
     ContentItem.content_type := ContentType.POST;
     ContentItem.title := None; ContentItem.text_content := Some "это важно";
     ContentItem.url := None; ContentItem.author := None;
     ContentItem.published_at := 1700000000;
     ContentItem.item_metadata := None; ContentItem.raw_data := None;
     ContentItem.classification := None |}.

(** A run of the sweep five minutes before the briefing time of
    [Example.user]. *)
Definition morning_run : Run :=
  {| t_start := 1700034900; t_now := 1700034900; t_end := 1700034901;
     today := 19676; uuid4 := fun n => N.of_nat (300 + n) |}.

Definition other_user : User.t :=
  {| User.id := 2%N; User.is_active := true; User.deleted_at := None;
     User.briefing_time := 28800 |}.

(** The three candidates of [Example.selection_db]. *)
Definition item1 : ContentItem.t :=
  Example.item 1%N 1700000000 (Some (Example.scored (1 # 2) (1 # 2))).
Definition item2 : ContentItem.t :=
  Example.item 2%N 1700000000 (Some (Example.scored (9 # 10) (1 # 2))).
Definition item3 : ContentItem.t :=
  Example.item 3%N 1700000000 (Some (Example.scored (1 # 2) (7 # 10))).

(** [sync_data_source] with the clients of [Example] and a feed parser. *)
Definition sync_with (tweets : list Tweet) (l : list TgUpdate)
    (parse : string -> result Feed) (run : Run) (db : DB) : Session :=
  sync_data_source Example.decrypt Example.fromisoformat Example.get_text
    (Example.timeline tweets) (Example.updates l) Example.no_feed
    Example.no_media parse Example.slice run db 10%N.

(** A timeline of two pages: two tweets and a next token, then one tweet. *)
Definition two_pages (n : nat) (user_id token : option string)
    : result TimelinePage :=
  match n with
  | O => Ok {| page_data := [Example.tweet "a"; Example.tweet "b"];
               page_next_token := Some "t1" |}
  | S _ => Ok {| page_data := [Example.tweet "c"]; page_next_token := None |}
  end.

(** A timeline whose pages are empty and always name a next page. *)
Definition empty_pages (n : nat) (user_id token : option string)
    : result TimelinePage :=
  Ok {| page_data := []; page_next_token := Some "t" |}.

(** Briefings of [Example.user] for two days and one of [other_user]. *)
Definition briefings_db : DB :=
  Example.db_with [] []
    [Briefing.new 51%N 1%N 19675 BriefingStatus.DELIVERED;
     Briefing.new 52%N 2%N 19676 BriefingStatus.READY;
     Briefing.new 50%N 1%N 19676 BriefingStatus.READY;
     Briefing.new 53%N 1%N 19660 BriefingStatus.FAILED].

(** A Twitter client whose request times out: the exception of the HTTP
    client has an empty text. *)
Definition timeline_times_out (token : string) (user_id : option string)
    (max_results : Z) (start_time : datetime) : result (list Tweet) :=
  Raise "".

(** [sync_data_source] with that client. *)
Definition sync_twitter_timing_out (run : Run) (db : DB) : Session :=
  sync_data_source Example.decrypt Example.fromisoformat Example.get_text
    timeline_times_out Example.no_updates Example.no_feed Example.no_media
    Example.feed_unreachable Example.slice run db 10%N.

(** A database that takes lists of strings for [topics] and nothing else. *)
Definition lists_of_strings (topics : json) : bool :=
  match topics with
  | JList l => forallb (fun v => match v with JStr _ => true | _ => false end) l
  | _ => false
  end.

(** A reply of the model whose [topics] is one string. *)
Definition reply_with_topics_string (item : ContentItem.t) : result json :=
  Ok (JDict [("category", JStr "news"); ("topics", JStr "economy, sport")]).

(** Two unclassified items of the last day. *)
Definition pending_db : DB :=
  Example.db_with [Example.source SourceType.TWITTER None]
    [Example.item 1%N 1700000000 None; Example.item 2%N 1700000000 None] [].

End Fixture.

(** * Vocabulary of the statements *)

Definition in_unit_interval (x : Q) : Prop := (0 <= x /\ x <= 1)%Q.

(** A classification of the data model: a category of the enumeration and
    four scores in [0, 1]. *)
Definition valid_classification (c : Classification) : Prop :=
  In (category c) CategoryType.all
  /\ in_unit_interval (relevance_score c)
  /\ in_unit_interval (importance_score c)
  /\ in_unit_interval (social_score c)
  /\ in_unit_interval (personal_score c).

(** The keyword vocabulary of the rule-based classifier. *)
Definition category_keywords : list string :=
  (WORK_KEYWORDS ++ PERSONAL_KEYWORDS ++ HOBBY_KEYWORDS ++ NEWS_KEYWORDS
   ++ IMPORTANT_KEYWORDS)%list.

(** [rank_ge a b]: [a] is not ranked below [b] under (relevance descending,
    importance descending), both items being classified. *)
Definition rank_ge (a b : ContentItem.t) : Prop :=
  match ContentItem.classification a, ContentItem.classification b with
  | Some ca, Some cb =>
      (ContentClassification.relevance_score cb
       < ContentClassification.relevance_score ca
       \/ (ContentClassification.relevance_score ca
           == ContentClassification.relevance_score cb
           /\ ContentClassification.importance_score cb
              <= ContentClassification.importance_score ca))%Q
  | _, _ => False
  end.

(** The candidates of a briefing: the rows the query of the selector asks
    for, that is the classified items of the user's active sources that were
    published in the last 24 hours and whose relevance reaches the user's
    threshold.  With a NULL threshold there is no such query and no
    candidate. *)
Definition candidates (db : DB) (user : User.t) (utcnow : datetime)
    : list (ContentItem.t * ContentClassification.t) :=
  match min_relevance_of db user with
  | Some min_relevance =>
      filter (is_candidate (active_source_ids db user) (utcnow - hours 24)
                           min_relevance)
             (join_classification (content_items db))
  | None => []
  end.

(** The user a task looks up by id, when it is there, not deleted and
    active. *)
Definition active_user (db : DB) (user_id : UUID) : option User.t :=
  match find (fun u => N.eqb (User.id u) user_id && not_deleted u) (users db) with
  | Some user => if User.is_active user then Some user else None
  | None => None
  end.

(** What a generation run may do to the status of a briefing: leave it, or
    move a briefing that is not DELIVERED to GENERATING, READY or FAILED. *)
Definition generation_step (a b : BriefingStatus.t) : Prop :=
  a = b
  \/ (a <> BriefingStatus.DELIVERED
      /\ (b = BriefingStatus.GENERATING \/ b = BriefingStatus.READY
          \/ b = BriefingStatus.FAILED)).

(** What a delivery acknowledgment may do: leave the status, or set
    DELIVERED. *)
Definition delivery_step (a b : BriefingStatus.t) : Prop :=
  a = b \/ b = BriefingStatus.DELIVERED.

(** What the delivery acknowledgment of [briefing_id] by [user] does to a
    stored briefing: nothing, or, when it is the briefing of that id and
    user, it sets DELIVERED and the time of delivery and nothing else. *)
Definition acknowledged (run : Run) (briefing_id : UUID) (user : User.t)
    (a b : Briefing.t) : Prop :=
  b = a
  \/ (Briefing.id a = briefing_id
      /\ Briefing.user_id a = User.id user
      /\ b = Briefing.set_delivered_at
               (Briefing.set_status a BriefingStatus.DELIVERED)
               (Some (t_now run))).

Definition same_row (step : BriefingStatus.t -> BriefingStatus.t -> Prop)
    (a b : Briefing.t) : Prop :=
  Briefing.id a = Briefing.id b
  /\ briefing_key a = briefing_key b
  /\ step (Briefing.status a) (Briefing.status b).

Definition in_progress (b : Briefing.t) : Prop :=
  Briefing.status b = BriefingStatus.GENERATING
  \/ Briefing.status b = BriefingStatus.READY
  \/ Briefing.status b = BriefingStatus.FAILED.

(** [evolves step old new]: the table [new] holds the rows of [old], in
    place and with statuses changed along [step], followed by rows created
    as GENERATING, READY or FAILED. *)
Definition evolves (step : BriefingStatus.t -> BriefingStatus.t -> Prop)
    (old new : list Briefing.t) : Prop :=
  exists kept created,
    new = (kept ++ created)%list
    /\ Forall2 (same_row step) old kept
    /\ Forall in_progress created.

(** The invariant of a generation run on the briefing of [(user_id, d)],
    from the moment that briefing is known not to be DELIVERED. *)
Definition generation_invariant (old : list Briefing.t) (user_id : UUID)
    (d : Date) (s : Session) : Prop :=
  evolves generation_step old (briefings (committed s))
  /\ evolves generation_step old
       (briefings (live s) ++ briefings (pending s))%list
  /\ (forall b, find (briefing_for user_id d) (briefings (live s)) = Some b ->
                Briefing.status b <> BriefingStatus.DELIVERED)
  /\ Forall in_progress (briefings (pending s)).

(** An assignment to a briefing that generation makes: the row keeps its
    id, user and date and ends GENERATING, READY or FAILED. *)
Definition generation_update (f : Briefing.t -> Briefing.t) : Prop :=
  forall b,
    Briefing.id (f b) = Briefing.id b
    /\ briefing_key (f b) = briefing_key b
    /\ in_progress (f b).

(** [is_new s source external_id]: the session holds no stored item of
    [source] with that external id. *)
Definition is_new (s : Session) (source : DataSource.t) (external_id : string)
    : bool :=
  negb (existsb (same_item source external_id) (content_items (live s))).

Definition count_ids (p : string -> bool) (ids : list string) : Z :=
  Z.of_nat (List.length (filter p ids)).

(** The external ids a batch carries: one per element that has one. *)
Definition ids_of {A} (ext : A -> option string) (batch : list A) : list string :=
  flat_map (fun x => match ext x with Some id => [id] | None => [] end) batch.

(** The external id of a Telegram update: that of its message, when it has
    one. *)
Definition update_external_id (update : TgUpdate) : option string :=
  match upd_message update with
  | Some message => Some (str_of_opt_int (message_id message))
  | None => None
  end.

(** The session of [sync_data_source] once [source.last_sync_at] has been
    assigned the start time of the run. *)
Definition start_sync (run : Run) (db : DB) (source_id : UUID) : Session :=
  with_live (open_session db)
    (set_data_sources db
       (update_first (source_by_id source_id)
          (fun x => DataSource.set_last_sync_at x (Some (t_start run)))
          (data_sources db))).

(** The session can still commit: no flush has failed, and the pending rows
    respect the unique constraints. *)
Definition can_commit (s : Session) : Prop :=
  inactive s = false /\ constraints_hold (live s) (pending s) = true.

(** ** Vocabulary of the further properties *)

(** The columns of a stored item that no sync function assigns. *)
Definition item_identity (i : ContentItem.t)
    : UUID * UUID * string * ContentType.t * datetime
      * option ContentClassification.t :=
  (ContentItem.id i, ContentItem.source_id i, ContentItem.external_id i,
   ContentItem.content_type i, ContentItem.published_at i,
   ContentItem.classification i).

(** What one iteration of a sync loop does to the session: nothing, an
    assignment to attributes of a stored item that leaves its identity
    alone, or the addition of an unclassified item of the source. *)
Definition item_step (source : DataSource.t) (s s' : Session) : Prop :=
  s' = s
  \/ (exists external_id f,
        (forall i, item_identity (f i) = item_identity i)
        /\ s' = update_item s source external_id f)
  \/ (exists item,
        ContentItem.source_id item = DataSource.id source
        /\ ContentItem.classification item = None
        /\ s' = add_content_item s item).

(** No two stored items share [(source_id, external_id)]. *)
Definition items_unique (db : DB) : Prop :=
  NoDup (map item_key (content_items db)).

(** The source object of a run once [last_sync_at] has been assigned. *)
Definition stamped (run : Run) (source : DataSource.t) : DataSource.t :=
  DataSource.set_last_sync_at source (Some (t_start run)).

(** The tables of a store other than [content_items]. *)
Definition other_tables (db : DB) : DB := set_content_items db [].

Definition of_source (source_id : UUID) (i : ContentItem.t) : bool :=
  N.eqb (ContentItem.source_id i) source_id.

(** What one iteration of a sync loop does to [items_new] and
    [items_updated]: it counts the element as new or as updated; only the
    Telegram loop may count it as neither. *)
Definition counts_step (type : SourceType.t) (n u n' u' : Z) : Prop :=
  (n' = n + 1 /\ u' = u)
  \/ (n' = n /\ u' = u + 1)
  \/ (type = SourceType.TELEGRAM /\ n' = n /\ u' = u).

(** A stored item after a sync of the source [source_id], against the item
    before: the identity columns are the same, and an item of another source
    is the same item. *)
Definition kept_item (source_id : UUID) (old new : ContentItem.t) : Prop :=
  item_identity new = item_identity old
  /\ (ContentItem.source_id old <> source_id -> new = old).

(** An item a sync of the source [source_id] stores: an unclassified item of
    that source. *)
Definition added_item (source_id : UUID) (i : ContentItem.t) : Prop :=
  ContentItem.source_id i = source_id /\ ContentItem.classification i = None.

(** [items_evolve source_id old new]: the table [new] holds the rows of
    [old], in place, followed by rows added for the source. *)
Definition items_evolve (source_id : UUID) (old new : list ContentItem.t)
    : Prop :=
  exists kept added,
    new = (kept ++ added)%list
    /\ Forall2 (kept_item source_id) old kept
    /\ Forall (added_item source_id) added.

(** The name a sync function uses for its provider in messages. *)
Definition provider_name (type : SourceType.t) : option string :=
  match type with
  | SourceType.TWITTER => Some "Twitter"
  | SourceType.FACEBOOK => Some "Facebook"
  | SourceType.INSTAGRAM => Some "Instagram"
  | SourceType.TELEGRAM => Some "Telegram"
  | SourceType.RSS | SourceType.EMAIL => None
  end.

(** The keywords that count for a category; [OTHER] has none. *)
Definition keywords_of (c : CategoryType.t) : list string :=
  match c with
  | CategoryType.WORK => WORK_KEYWORDS
  | CategoryType.PERSONAL => PERSONAL_KEYWORDS
  | CategoryType.HOBBY => HOBBY_KEYWORDS
  | CategoryType.NEWS => NEWS_KEYWORDS
  | CategoryType.IMPORTANT => IMPORTANT_KEYWORDS
  | CategoryType.OTHER => []
  end.

(** How often [w] occurs in [words]. *)
Definition occurrences (words : list string) (w : string) : nat :=
  count_occ string_dec words w.

(** The count a [Counter] holds for a key; 0 for a key it does not hold. *)
Definition count_of (c : list (string * nat)) (k : string) : nat :=
  match find (fun kv => String.eqb (fst kv) k) c with
  | Some kv => snd kv
  | None => 0%nat
  end.

(** No two briefings share [(user_id, date)]. *)
Definition briefings_unique (db : DB) : Prop :=
  NoDup (map briefing_key (briefings db)).

(** The tables of a store other than [briefings] and [briefing_content]. *)
Definition content_tables (db : DB) : DB :=
  set_briefing_content (set_briefings db []) [].

(** [appended old new]: the table [new] is [old] followed by further rows. *)
Definition appended {A} (old new : list A) : Prop :=
  exists added, new = (old ++ added)%list.

(** What [classify_pending_content] selects: an item without a
    classification, published at or after the cutoff. *)
Definition is_pending (cutoff_time : datetime) (item : ContentItem.t) : bool :=
  negb (truthy_classification item)
  && (cutoff_time <=? ContentItem.published_at item).

(** [classified_batch classification_for cutoff_time old new]: the items
    table [new] holds the rows of [old] in place; a row that differs was
    pending and got its classification and nothing else; and 100 of the
    pending rows, or all of them when they are fewer, are no longer
    pending. *)
Definition classified_batch
    (classification_for : ContentItem.t -> ContentClassification.t)
    (cutoff_time : datetime) (old new : list ContentItem.t) : Prop :=
  Forall2 (fun old new =>
             new = old
             \/ (ContentItem.classification old = None
                 /\ cutoff_time <= ContentItem.published_at old
                 /\ new = set_classification old (classification_for old)))
          old new
  /\ List.length (filter (is_pending cutoff_time) new)
     = (List.length (filter (is_pending cutoff_time) old)
        - Nat.min 100 (List.length (filter (is_pending cutoff_time) old)))%nat.

(** The link [generate_briefing] writes for a row of
    [enumerate(content_items, 1)]. *)
Definition is_link_for (format_2f : Q -> string) (briefing_id : UUID)
    (row : Z * ContentItem.t) (link : BriefingContent.t) : Prop :=
  exists c,
    ContentItem.classification (snd row) = Some c
    /\ link = {| BriefingContent.briefing_id := briefing_id;
                 BriefingContent.content_id := ContentItem.id (snd row);
                 BriefingContent.order := fst row;
                 BriefingContent.included_reason :=
                   "Relevance: "
                   ++ format_2f (ContentClassification.relevance_score c) |}.

(** The primary key of the briefing a generation run works on: that of the
    stored briefing of the user and date, or the first value [uuid4] draws. *)
Definition briefing_id_of (run : Run) (db : DB) (user_id : UUID) (d : Date)
    : UUID :=
  match find (briefing_for user_id d) (briefings db) with
  | Some b => Briefing.id b
  | None => uuid4 run 0
  end.

(** * Properties *)

Section Properties.

Set Default Proof Using "Type".

Variable str_lower : string -> string.
Variable findall_words : string -> list string.
Variable float_of_str : string -> result Q.

Local Abbreviation rule_based := (RuleBasedClassifier_classify str_lower findall_words).
Local Abbreviation ai_based := (AIClassifier_classify str_lower findall_words float_of_str).

Variable str_slice_to : nat -> string -> string.
Variable summary_reply : list ContentItem.t -> result (option string).
Variable ELEVENLABS_API_KEY : string.
Variable _generate_with_elevenlabs : option string -> result string.
Variable _generate_with_openai : option string -> result string.
Variable STORAGE_TYPE : string.
Variable write_file : string -> string -> result unit.
Variable format_2f : Q -> string.

Local Abbreviation generate_briefing_task :=
  (generate_briefing str_slice_to summary_reply ELEVENLABS_API_KEY
     _generate_with_elevenlabs _generate_with_openai STORAGE_TYPE write_file
     format_2f).

Variable decrypt_data : string -> result string.
Variable datetime_fromisoformat : string -> result datetime.
Variable soup_get_text : string -> string.
Variable get_user_timeline :
  string -> option string -> Z -> datetime -> result (list Tweet).
Variable get_updates : string -> option Z -> Z -> result (list TgUpdate).
Variable get_user_feed : string -> string -> Z -> datetime -> result (list FbPost).
Variable get_user_media : string -> string -> Z -> result (list IgMedia).
Variable feedparser_parse : string -> result Feed.

Local Abbreviation twitter_loop_body := (twitter_body datetime_fromisoformat).
Local Abbreviation sync_task :=
  (sync_data_source decrypt_data datetime_fromisoformat soup_get_text
     get_user_timeline get_updates get_user_feed get_user_media
     feedparser_parse str_slice_to).

(** ** The classifiers *)

Lemma calculate_score_range text keywords :
  in_unit_interval (_calculate_score text keywords).
Proof.
  unfold _calculate_score, in_unit_interval.
  destruct keywords as [|k keywords]; [split; discriminate|].
  split; [|apply Q.le_min_r].
  apply Q.min_glb; [|discriminate].
  apply Qmult_le_0_compat; [|discriminate].
  apply Qmult_le_0_compat.
  - change 0%Q with (inject_Z 0). rewrite <- Zle_Qle. lia.
  - apply Qinv_le_0_compat.
    change 0%Q with (inject_Z 0). rewrite <- Zle_Qle. lia.
Qed.

Lemma Qmax_range x y :
  in_unit_interval x -> in_unit_interval y -> in_unit_interval (Qmax x y).
Proof.
  intros [Hx0 Hx1] [Hy0 Hy1]. split.
  - apply Qle_trans with x; [assumption|apply Q.le_max_l].
  - apply Q.max_lub; assumption.
Qed.

Lemma Qmin_one_range x : (0 <= x)%Q -> in_unit_interval (Qmin x 1).
Proof.
  intros Hx. split; [apply Q.min_glb; [assumption|discriminate]|apply Q.le_min_r].
Qed.

Lemma social_score_range metadata :
  0 <= total_engagement (metadata_public_metrics metadata) ->
  in_unit_interval (_calculate_social_score metadata).
Proof.
  intros H. unfold _calculate_social_score. apply Qmin_one_range.
  apply Qmult_le_0_compat; [|discriminate].
  change 0%Q with (inject_Z 0). rewrite <- Zle_Qle. exact H.
Qed.

Lemma category_in_fixed_set (c : CategoryType.t) : In c CategoryType.all.
Proof. destruct c; simpl; auto 10. Qed.

(** The rule-based path keeps every score in [0, 1], provided the engagement
    counts of the item are not negative. *)
Lemma rule_based_valid content :
  0 <= total_engagement (metadata_public_metrics (ContentItem.item_metadata content)) ->
  valid_classification (rule_based content).
Proof.
  intros Hm. unfold valid_classification, RuleBasedClassifier_classify; simpl.
  set (t := full_text str_lower content).
  pose proof (calculate_score_range t WORK_KEYWORDS) as Hw.
  pose proof (calculate_score_range t PERSONAL_KEYWORDS) as Hp.
  pose proof (calculate_score_range t HOBBY_KEYWORDS) as Hh.
  pose proof (calculate_score_range t NEWS_KEYWORDS) as Hn.
  pose proof (calculate_score_range t IMPORTANT_KEYWORDS) as Hi.
  pose proof (Qmax_range _ _ (Qmax_range _ _ (Qmax_range _ _ Hw Hp) Hh) Hn) as Hr.
  split; [apply category_in_fixed_set|].
  split; [apply Qmin_one_range, Hr|].
  split.
  - apply Qmin_one_range.
    destruct Hi as [Hi0 _], Hr as [Hr0 _].
    apply (Qplus_le_compat 0 _ 0); apply Qmult_le_0_compat;
      solve [assumption | discriminate].
  - split; [apply social_score_range, Hm|].
    unfold _calculate_personal_score, in_unit_interval. split; discriminate.
Qed.

(** C2 (the AI-backed path returns the scores of the reply as they are): a
    reply whose relevance is 1.5 yields a classification with relevance 1.5,
    outside [0, 1], for every content item. *)
Theorem ai_scores_not_clamped content :
  let reply := Ok (JDict [("category", JStr "work"); ("relevance_score", JFloat (3 # 2))]) in
  relevance_score (ai_based reply content) = (3 # 2)%Q
  /\ ~ valid_classification (ai_based reply content).
Proof.
  split; [reflexivity|].
  intros (_ & [_ H] & _). apply H. reflexivity.
Qed.

(** C3: when the AI path raises (the request fails, the reply is not JSON,
    or it violates the schema), [AIClassifier.classify] returns what the
    rule-based classifier returns for the item, and that is a valid
    classification as soon as the engagement counts are not negative. *)
Theorem ai_failure_falls_back reply content e :
  ai_classify float_of_str reply = Raise e ->
  ai_based reply content = rule_based content
  /\ (0 <= total_engagement
            (metadata_public_metrics (ContentItem.item_metadata content)) ->
      valid_classification (ai_based reply content)).
Proof.
  intros H. unfold AIClassifier_classify. rewrite H.
  split; [reflexivity|apply rule_based_valid].
Qed.

Lemma matches_none text keywords :
  (forall kw, In kw keywords -> str_in kw text = false) ->
  matches text keywords = 0%nat.
Proof.
  unfold matches. induction keywords as [|k ks IH]; intros H; [reflexivity|].
  simpl. rewrite (H k (or_introl eq_refl)). apply IH.
  intros kw Hkw. apply H. right. exact Hkw.
Qed.

Lemma no_keywords_scores content :
  (forall kw, In kw category_keywords ->
              str_in kw (full_text str_lower content) = false) ->
  category (rule_based content) = CategoryType.OTHER
  /\ (relevance_score (rule_based content) == 0)%Q.
Proof.
  intros H. unfold RuleBasedClassifier_classify, _calculate_score. simpl.
  assert (Hin : forall l, incl l category_keywords ->
                          matches (full_text str_lower content) l = 0%nat).
  { intros l Hl. apply matches_none. intros kw Hkw. apply H, Hl, Hkw. }
  unfold category_keywords in Hin.
  rewrite !Hin; [split; reflexivity| | | | |];
    intros kw Hkw; rewrite !in_app_iff; auto 10.
Qed.

(** ** Sorting *)

Section SortDesc.

Context {A : Type} (gtb : A -> A -> bool).

Hypothesis gtb_asym : forall a b, gtb a b = true -> gtb b a = false.
Hypothesis ge_trans :
  forall a b c, gtb b a = false -> gtb c b = false -> gtb c a = false.

Lemma insert_desc_perm x l : Permutation (insert_desc gtb x l) (x :: l).
Proof.
  induction l as [|y l IH]; simpl; [reflexivity|].
  destruct (gtb y x); [|reflexivity].
  rewrite IH. apply perm_swap.
Qed.

Lemma sort_desc_perm l : Permutation (sort_desc gtb l) l.
Proof.
  induction l as [|x l IH]; simpl; [reflexivity|].
  rewrite insert_desc_perm. constructor. exact IH.
Qed.

Lemma insert_desc_sorted x l :
  StronglySorted (fun a b => gtb b a = false) l ->
  StronglySorted (fun a b => gtb b a = false) (insert_desc gtb x l).
Proof using gtb_asym ge_trans.
  induction 1 as [|y l Hs IH Hy]; simpl; [repeat constructor|].
  destruct (gtb y x) eqn:E.
  - constructor; [exact IH|].
    eapply Permutation_Forall; [symmetry; apply insert_desc_perm|].
    constructor; [|exact Hy]. apply gtb_asym, E.
  - constructor; [constructor; assumption|].
    constructor; [exact E|].
    eapply Forall_impl; [|exact Hy]. intros z Hz. eapply ge_trans; eassumption.
Qed.

Lemma sort_desc_sorted l :
  StronglySorted (fun a b => gtb b a = false) (sort_desc gtb l).
Proof using gtb_asym ge_trans.
  induction l as [|x l IH]; simpl; [constructor|].
  apply insert_desc_sorted, IH.
Qed.

End SortDesc.

Lemma StronglySorted_firstn {A} (R : A -> A -> Prop) n l :
  StronglySorted R l -> StronglySorted R (firstn n l).
Proof.
  intros H. revert n. induction H as [|x l Hs IH Hx]; intros [|n]; simpl;
    try constructor.
  - apply IH.
  - clear -Hx. revert n. induction Hx as [|y l Hy Hl IH]; intros [|n]; simpl;
      constructor; [exact Hy|apply IH].
Qed.

Lemma StronglySorted_filter {A} (R : A -> A -> Prop) p l :
  StronglySorted R l -> StronglySorted R (filter p l).
Proof.
  induction 1 as [|x l Hs IH Hx]; simpl; [constructor|].
  destruct (p x); [|exact IH]. constructor; [exact IH|].
  rewrite Forall_forall in *. intros y Hy. apply Hx.
  apply filter_In in Hy. exact (proj1 Hy).
Qed.

Lemma StronglySorted_map_weaken {A B} (R : A -> A -> Prop) (R' : B -> B -> Prop)
    (P : A -> Prop) (f : A -> B) l :
  (forall a b, P a -> P b -> R a b -> R' (f a) (f b)) ->
  Forall P l -> StronglySorted R l -> StronglySorted R' (map f l).
Proof.
  intros HR HP H. induction H as [|x l Hs IH Hx]; simpl; [constructor|].
  inversion HP as [|? ? Px Pl]; subst.
  constructor; [apply IH, Pl|].
  rewrite Forall_forall in *. intros y Hy.
  apply in_map_iff in Hy as (z & <- & Hz). apply HR; auto.
Qed.

Lemma In_firstn {A} (x : A) n l : In x (firstn n l) -> In x l.
Proof.
  revert n. induction l as [|y l IH]; intros [|n]; simpl;
    try (intros []; fail).
  intros [H|H]; [left; exact H|right; eapply IH, H].
Qed.

(** ** The briefing selector *)

Lemma Qltb_false x y : Qltb x y = false <-> (y <= x)%Q.
Proof.
  unfold Qltb. rewrite negb_false_iff. apply Qle_bool_iff.
Qed.

Lemma Qltb_true x y : Qltb x y = true <-> (x < y)%Q.
Proof.
  unfold Qltb. rewrite negb_true_iff. rewrite <- not_true_iff_false, Qle_bool_iff.
  split; [apply Qnot_le_lt|apply Qlt_not_le].
Qed.

Lemma rank_gtb_false a b :
  rank_gtb b a = false <->
  (ContentClassification.relevance_score (snd b)
   < ContentClassification.relevance_score (snd a)
   \/ (ContentClassification.relevance_score (snd a)
       == ContentClassification.relevance_score (snd b)
       /\ ContentClassification.importance_score (snd b)
          <= ContentClassification.importance_score (snd a)))%Q.
Proof.
  unfold rank_gtb.
  set (ra := ContentClassification.relevance_score (snd a)).
  set (rb := ContentClassification.relevance_score (snd b)).
  set (ia := ContentClassification.importance_score (snd a)).
  set (ib := ContentClassification.importance_score (snd b)).
  rewrite orb_false_iff, andb_false_iff, !Qltb_false,
    <- not_true_iff_false, Qeq_bool_iff.
  split.
  - intros [H1 [H2|H2]].
    + left. apply Qle_lteq in H1 as [H1|H1]; [exact H1|].
      exfalso. apply H2. exact H1.
    + apply Qle_lteq in H1 as [H1|H1]; [left; exact H1|].
      right. split; [symmetry; exact H1|exact H2].
  - intros [H|[H1 H2]].
    + split; [apply Qlt_le_weak, H|].
      left. intros E. rewrite E in H. exact (Qlt_irrefl _ H).
    + split; [rewrite H1; apply Qle_refl|right; exact H2].
Qed.

Lemma rank_gtb_asym a b : rank_gtb a b = true -> rank_gtb b a = false.
Proof.
  intros H. apply rank_gtb_false. unfold rank_gtb in H.
  apply orb_true_iff in H as [H|H].
  - left. apply Qltb_true, H.
  - apply andb_true_iff in H as [H1 H2].
    apply Qeq_bool_iff in H1. apply Qltb_true in H2.
    right. split; [exact H1|apply Qlt_le_weak, H2].
Qed.

Lemma rank_ge_trans a b c :
  rank_gtb b a = false -> rank_gtb c b = false -> rank_gtb c a = false.
Proof.
  rewrite !rank_gtb_false.
  intros [H1|[H1 H1']] [H2|[H2 H2']].
  - left. eapply Qlt_trans; [exact H2|exact H1].
  - left. rewrite <- H2. exact H1.
  - left. rewrite H1. exact H2.
  - right. split; [rewrite H1; exact H2|eapply Qle_trans; [exact H2'|exact H1']].
Qed.

Lemma join_classification_spec items row :
  In row (join_classification items) ->
  In (fst row) items /\ ContentItem.classification (fst row) = Some (snd row).
Proof.
  unfold join_classification. rewrite in_flat_map.
  intros (item & Hin & Hrow).
  destruct (ContentItem.classification item) as [c|] eqn:E; [|contradiction].
  destruct Hrow as [<-|[]]. simpl. split; assumption.
Qed.

Lemma candidates_spec db user utcnow row :
  In row (candidates db user utcnow) ->
  ContentItem.classification (fst row) = Some (snd row)
  /\ exists m,
       min_relevance_of db user = Some m
       /\ is_candidate (active_source_ids db user) (utcnow - hours 24) m row
          = true.
Proof.
  unfold candidates. destruct (min_relevance_of db user) as [m|]; [|intros []].
  rewrite filter_In. intros [Hin Hc].
  apply join_classification_spec in Hin.
  split; [exact (proj2 Hin)|]. exists m. split; [reflexivity|exact Hc].
Qed.

(** The rows of the query, in the order the database returns them. *)
Lemma ordered_candidates_sorted db user utcnow :
  StronglySorted rank_ge
    (map fst (sort_desc rank_gtb (candidates db user utcnow))).
Proof.
  apply StronglySorted_map_weaken
    with (R := fun a b => rank_gtb b a = false)
         (P := fun row => ContentItem.classification (fst row) = Some (snd row)).
  - intros a b Ha Hb H. apply rank_gtb_false in H.
    unfold rank_ge. rewrite Ha, Hb. exact H.
  - eapply Permutation_Forall; [symmetry; apply sort_desc_perm|].
    apply Forall_forall. intros row Hrow. apply candidates_spec in Hrow.
    exact (proj1 Hrow).
  - apply sort_desc_sorted; [apply rank_gtb_asym|apply rank_ge_trans].
Qed.

Lemma ordered_candidates_truthy db user utcnow :
  Forall (fun item => truthy_classification item = true)
    (map fst (sort_desc rank_gtb (candidates db user utcnow))).
Proof.
  apply Forall_forall. intros item Hitem.
  apply in_map_iff in Hitem as (row & <- & Hrow).
  apply (Permutation_in _ (sort_desc_perm rank_gtb _)) in Hrow.
  apply candidates_spec in Hrow as [Hc _].
  unfold truthy_classification. rewrite Hc. reflexivity.
Qed.

Lemma filter_all {A} (p : A -> bool) l :
  Forall (fun x => p x = true) l -> filter p l = l.
Proof.
  induction 1 as [|x l Hx Hl IH]; simpl; [reflexivity|].
  rewrite Hx, IH. reflexivity.
Qed.

(** The selector raises on every call: [app/models/user.py] defines no
    [UserPreferences]. *)
Lemma select_content_import_error db user max_items utcnow :
  select_content_for_briefing db user max_items utcnow
  = Raise (import_error "UserPreferences" "app.models.user").
Proof. reflexivity. Qed.

(** C1 (the selector returns at most [max_items] items, ranked by
    relevance and importance, and every candidate when they are fewer): the
    selector returns nothing.  Its second statement is
    [from app.models.user import UserPreferences], and [app/models/user.py]
    binds no such name; the class is in [app/models/preferences.py], from
    where the same import succeeds.  So every call raises [ImportError],
    whatever the store, the user and [max_items] are. *)
Theorem select_content_raises_import_error db user max_items utcnow :
  select_content_for_briefing db user max_items utcnow
  = Raise (import_error "UserPreferences" "app.models.user")
  /\ (forall l, select_content_for_briefing db user max_items utcnow <> Ok l)
  /\ import_from "app.models.preferences" app_models_preferences
       "UserPreferences" = Ok tt.
Proof.
  split; [reflexivity|]. split; [|reflexivity].
  intros l H. discriminate H.
Qed.

(** What the selector could return is what the statements after the
    imports return. *)
Lemma select_content_after_imports db user max_items utcnow l :
  select_content_for_briefing db user max_items utcnow = Ok l ->
  select_query db user max_items utcnow = Ok l.
Proof.
  unfold select_content_for_briefing.
  destruct (import_from "app.models.data_source" _ _); [|discriminate].
  destruct (import_from "app.models.user" _ _); [|discriminate].
  cbn [bind]. intros H. exact H.
Qed.

Lemma select_query_threshold db user max_items utcnow l :
  select_query db user max_items utcnow = Ok l ->
  exists m, min_relevance_of db user = Some m.
Proof.
  unfold select_query. cbv zeta.
  destruct (min_relevance_of db user) as [m|]; [|discriminate].
  intros _. exists m. reflexivity.
Qed.

Lemma select_query_rows db user max_items utcnow m :
  min_relevance_of db user = Some m ->
  select_query db user max_items utcnow
  = (content <- limit (max_items_or_default max_items * 2)
                  (map fst (sort_desc rank_gtb (candidates db user utcnow))) ;;
     Ok (slice_to (filter truthy_classification content)
           (max_items_or_default max_items))).
Proof.
  intros Hm. unfold select_query, candidates. cbv zeta. rewrite Hm.
  reflexivity.
Qed.

Lemma select_query_eq db user max_items utcnow m :
  min_relevance_of db user = Some m ->
  0 < max_items_or_default max_items ->
  select_query db user max_items utcnow =
  Ok (firstn (Z.to_nat (max_items_or_default max_items))
        (filter truthy_classification
           (firstn (Z.to_nat (max_items_or_default max_items * 2))
              (map fst (sort_desc rank_gtb (candidates db user utcnow)))))).
Proof.
  intros Hm Hpos. rewrite (select_query_rows db user max_items utcnow m Hm).
  unfold limit, slice_to.
  destruct (max_items_or_default max_items * 2 <? 0) eqn:E;
    [apply Z.ltb_lt in E; lia|].
  cbn [bind]. destruct (0 <=? max_items_or_default max_items) eqn:E';
    [reflexivity|apply Z.leb_gt in E'; lia].
Qed.

Lemma select_members db user max_items utcnow l item :
  select_query db user max_items utcnow = Ok l ->
  In item l ->
  exists c m,
    ContentItem.classification item = Some c
    /\ min_relevance_of db user = Some m
    /\ is_candidate (active_source_ids db user) (utcnow - hours 24) m (item, c)
       = true.
Proof.
  intros Hsel Hin.
  destruct (select_query_threshold _ _ _ _ _ Hsel) as (m & Hm).
  rewrite (select_query_rows db user max_items utcnow m Hm) in Hsel.
  unfold limit, slice_to in Hsel.
  destruct (_ <? 0); [discriminate|]. cbn [bind] in Hsel.
  injection Hsel as <-.
  assert (Hrows : In item (map fst (sort_desc rank_gtb (candidates db user utcnow)))).
  { destruct (0 <=? _); apply In_firstn in Hin;
      apply filter_In in Hin as [Hin _]; apply In_firstn in Hin; exact Hin. }
  apply in_map_iff in Hrows as ([i c] & <- & Hrow).
  apply (Permutation_in _ (sort_desc_perm rank_gtb _)) in Hrow.
  apply candidates_spec in Hrow. destruct Hrow as (Hc & m' & Hm' & Hcand).
  exists c, m'. repeat split; assumption.
Qed.


(** ** The session *)

Lemma merge_db_empty db : merge_db db empty_db = db.
Proof.
  destruct db. unfold merge_db. simpl. rewrite !app_nil_r. reflexivity.
Qed.

Lemma constraints_hold_empty db : constraints_hold db empty_db = true.
Proof. reflexivity. Qed.

Lemma commit_clean s :
  inactive s = false -> pending s = empty_db ->
  commit s =
  (Ok tt, {| committed := live s; live := live s; pending := empty_db;
             inactive := false; drawn := drawn s; requests := requests s |}).
Proof.
  intros Hi Hp. unfold commit. rewrite Hi, Hp, constraints_hold_empty, merge_db_empty.
  reflexivity.
Qed.

Lemma update_first_find {A} (p : A -> bool) (f : A -> A) l x :
  find p l = Some x -> p (f x) = true ->
  find p (update_first p f l) = Some (f x).
Proof.
  induction l as [|y l IH]; simpl; [discriminate|].
  destruct (p y) eqn:E.
  - intros [= ->] Hf. simpl. rewrite Hf. reflexivity.
  - intros Hx Hf. simpl. rewrite E. apply IH; assumption.
Qed.

Lemma update_first_none {A} (p : A -> bool) (f : A -> A) l :
  find p l = None -> update_first p f l = l.
Proof.
  induction l as [|y l IH]; simpl; [reflexivity|].
  destruct (p y); [discriminate|]. intros H. rewrite IH by exact H. reflexivity.
Qed.

Lemma find_app_none {A} (p : A -> bool) l l' :
  find p l = None -> find p (l ++ l') = find p l'.
Proof.
  induction l as [|y l IH]; simpl; [reflexivity|].
  destruct (p y); [discriminate|exact IH].
Qed.


Lemma briefing_for_key user_id d b :
  briefing_for user_id d b = true <-> briefing_key b = (user_id, d).
Proof.
  unfold briefing_for, briefing_key_eqb, briefing_key. simpl.
  rewrite andb_true_iff, N.eqb_eq, Z.eqb_eq.
  split; [intros [-> ->]; reflexivity|intros [= -> ->]; split; reflexivity].
Qed.

(** ** The briefing state machine *)

(** C4: once the briefing of (user, date) is DELIVERED, every trigger for
    that (user, date) leaves the store as it is: the API endpoint answers
    with the existing record and queues nothing, the task returns the id of
    the existing record (nothing at all for a user who is not active), and
    the daily sweep queues no task for that user. *)
Theorem delivered_is_terminal run db current_user target_date b :
  find (briefing_for (User.id current_user) (get_default target_date (today run)))
       (briefings db) = Some b ->
  Briefing.status b = BriefingStatus.DELIVERED ->
  trigger_briefing_generation run db current_user target_date = (Ok b, [], db)
  /\ generate_briefing_task run db (User.id current_user) target_date
     = (match active_user db (User.id current_user) with
        | Some _ => Some (Briefing.id b)
        | None => None
        end, db)
  /\ (target_date = None ->
      forall briefing_date,
        ~ In (GenerateBriefing (User.id current_user) briefing_date)
             (generate_daily_briefings run db)).
Proof.
  intros Hfind Hst. split; [|split].
  - unfold trigger_briefing_generation. simpl. rewrite Hfind, Hst. reflexivity.
  - unfold generate_briefing, active_user. simpl.
    destruct (find _ (users db)) as [user|] eqn:Hu; [|reflexivity].
    destruct (User.is_active user); [|reflexivity]. simpl.
    apply find_some in Hu as [_ Hu]. apply andb_true_iff in Hu as [Hid _].
    apply N.eqb_eq in Hid. rewrite Hid, Hfind, Hst. reflexivity.
  - intros -> briefing_date Hin. simpl in Hfind.
    unfold generate_daily_briefings in Hin.
    apply in_flat_map in Hin as (u & _ & Hin).
    destruct (_ && _) in Hin; [|contradiction].
    destruct (find (briefing_for (User.id u) (today run)) (briefings db))
      as [existing|] eqn:He.
    + destruct (BriefingStatus.eqb _ _) eqn:Hd; [contradiction|].
      destruct Hin as [[= Hid _]|[]]. rewrite Hid, Hfind in He.
      injection He as <-. rewrite Hst in Hd. discriminate.
    + destruct Hin as [[= Hid _]|[]]. rewrite Hid, Hfind in He. discriminate.
Qed.

Lemma update_first_app_none {A} (p : A -> bool) (f : A -> A) l l' :
  find p l = None -> update_first p f (l ++ l') = (l ++ update_first p f l')%list.
Proof.
  induction l as [|y l IH]; simpl; [reflexivity|].
  destruct (p y); [discriminate|]. intros H. rewrite IH by exact H. reflexivity.
Qed.


Lemma briefing_key_eqb_sym a b : briefing_key_eqb a b = briefing_key_eqb b a.
Proof.
  unfold briefing_key_eqb. rewrite (N.eqb_sym (fst a)), (Z.eqb_sym (snd a)).
  reflexivity.
Qed.

(** What [generate_briefing] does from its first commit on: the selector
    raises, and the [except] clause records the briefing as FAILED with the
    text of the exception. *)
Lemma commit_and_generate_import_error run s user this briefing_id :
  inactive s = false ->
  constraints_hold (live s) (pending s) = true ->
  commit_and_generate str_slice_to summary_reply ELEVENLABS_API_KEY
    _generate_with_elevenlabs _generate_with_openai STORAGE_TYPE write_file
    format_2f run s user this briefing_id
  = (Some briefing_id,
     set_briefings (merge_db (live s) (pending s))
       (update_first this
          (fail_with (import_error "UserPreferences" "app.models.user"))
          (briefings (merge_db (live s) (pending s))))).
Proof.
  intros Hi Hc. unfold commit_and_generate, commit. rewrite Hi, Hc.
  unfold generate. cbn [live]. rewrite select_content_import_error.
  unfold commit, update_briefing, with_live. cbn [inactive live pending].
  rewrite constraints_hold_empty, merge_db_empty. reflexivity.
Qed.

Lemma fresh_briefing_key user_id d l :
  find (briefing_for user_id d) l = None ->
  existsb (briefing_key_eqb (user_id, d)) (map briefing_key l) = false.
Proof.
  induction l as [|b l IH]; simpl; [reflexivity|].
  unfold briefing_for at 1. rewrite (briefing_key_eqb_sym (user_id, d)).
  destruct (briefing_key_eqb (briefing_key b) (user_id, d)); [discriminate|].
  exact IH.
Qed.

(** For an active user whose briefing for the date is not DELIVERED,
    generation returns the briefing's id and leaves that briefing FAILED
    with the text of the [ImportError] of the selector; the run writes no
    briefing-content link. *)
Lemma generate_briefing_import_error run db user_id briefing_date user :
  active_user db user_id = Some user ->
  (forall b,
     find (briefing_for (User.id user) (get_default briefing_date (today run)))
          (briefings db) = Some b ->
     Briefing.status b <> BriefingStatus.DELIVERED) ->
  exists db' b',
    generate_briefing_task run db user_id briefing_date
    = (Some (Briefing.id b'), db')
    /\ find (briefing_for (User.id user) (get_default briefing_date (today run)))
            (briefings db') = Some b'
    /\ Briefing.status b' = BriefingStatus.FAILED
    /\ Briefing.error_message b'
       = Some (import_error "UserPreferences" "app.models.user")
    /\ briefing_content db' = briefing_content db.
Proof.
  intros Hu Hnd. unfold active_user in Hu. unfold generate_briefing.
  cbn [open_session live].
  destruct (find _ (users db)) as [u|]; [|discriminate].
  destruct (User.is_active u) eqn:Ha; [|discriminate].
  injection Hu as ->. cbn [negb].
  set (d := get_default briefing_date (today run)) in *.
  set (this := briefing_for (User.id user) d).
  destruct (find this (briefings db)) as [b|] eqn:Hb.
  - destruct (BriefingStatus.eqb (Briefing.status b) BriefingStatus.DELIVERED) eqn:Hd.
    { exfalso. apply (Hnd b Hb). destruct (Briefing.status b); try discriminate.
      reflexivity. }
    pose proof (find_some _ _ Hb) as [_ Hthis].
    rewrite commit_and_generate_import_error; [|reflexivity|reflexivity].
    cbn [live pending update_briefing with_live open_session].
    rewrite merge_db_empty. cbn [briefings set_briefings].
    eexists _, (fail_with (import_error "UserPreferences" "app.models.user")
                  (Briefing.set_status b BriefingStatus.GENERATING)).
    split; [|split; [|split; [|split]]].
    + reflexivity.
    + cbn [briefings set_briefings].
      apply (update_first_find this
               (fail_with (import_error "UserPreferences" "app.models.user")) _
               (Briefing.set_status b BriefingStatus.GENERATING));
        [|exact Hthis].
      exact (update_first_find this
               (fun b => Briefing.set_status b BriefingStatus.GENERATING)
               _ b Hb Hthis).
    + reflexivity.
    + reflexivity.
    + reflexivity.
  - set (new := Briefing.new (uuid4 run 0) (User.id user) d BriefingStatus.GENERATING).
    assert (Hthis : this new = true).
    { unfold this. apply briefing_for_key. reflexivity. }
    rewrite commit_and_generate_import_error; cbn [drawn open_session];
      fold new.
    + cbn [live pending add_briefing with_pending open_session merge_db
           briefings set_briefings empty_db briefing_content].
      rewrite (update_first_app_none _ _ _ _ Hb).
      cbn [app update_first].
      destruct (this new) eqn:Hnew; [|congruence].
      exists (set_briefings
                (merge_db db (set_briefings empty_db [new]))
                (briefings db ++ [fail_with (import_error "UserPreferences" "app.models.user") new])%list),
             (fail_with (import_error "UserPreferences" "app.models.user") new).
      split; [reflexivity|]. split.
      * cbn [briefings set_briefings]. rewrite (find_app_none _ _ _ Hb).
        cbn [find].
        change (this (fail_with (import_error "UserPreferences" "app.models.user") new))
          with (this new).
        rewrite Hnew. reflexivity.
      * split; [reflexivity|]. split; [reflexivity|].
        cbn. apply app_nil_r.
    + reflexivity.
    + cbn [live pending add_briefing with_pending open_session].
      unfold constraints_hold. cbn [content_items briefings briefing_content
        set_briefings empty_db map fresh_keys app].
      change (briefing_key new) with (User.id user, d).
      rewrite (fresh_briefing_key _ _ _ Hb). reflexivity.
Qed.


(** *** Status transitions *)

Lemma generation_step_refl a : generation_step a a.
Proof. left. reflexivity. Qed.

Lemma generation_step_trans a b c :
  generation_step a b -> generation_step b c -> generation_step a c.
Proof.
  intros [->|[Ha Hb]] [->|[Hb' Hc]].
  - left. reflexivity.
  - right. split; assumption.
  - right. split; assumption.
  - right. split; assumption.
Qed.

Lemma in_progress_not_delivered b :
  in_progress b -> Briefing.status b <> BriefingStatus.DELIVERED.
Proof. intros [H|[H|H]]; rewrite H; discriminate. Qed.

Lemma same_row_in_progress a b :
  same_row generation_step a b -> in_progress a -> in_progress b.
Proof.
  intros (_ & _ & [H|[_ H]]) Ha; [|exact H].
  unfold in_progress in *. rewrite <- H. exact Ha.
Qed.

Lemma same_row_refl step a : (forall x, step x x) -> same_row step a a.
Proof. intros H. repeat split. apply H. Qed.

Lemma same_row_trans a b c :
  same_row generation_step a b -> same_row generation_step b c ->
  same_row generation_step a c.
Proof.
  intros (H1 & H2 & H3) (H1' & H2' & H3'). split; [congruence|].
  split; [congruence|]. eapply generation_step_trans; eassumption.
Qed.

Lemma Forall2_refl {A} (R : A -> A -> Prop) l :
  (forall x, R x x) -> Forall2 R l l.
Proof. intros H. induction l; constructor; auto. Qed.

Lemma evolves_refl step l : (forall x, step x x) -> evolves step l l.
Proof.
  intros H. exists l, []. rewrite app_nil_r. split; [reflexivity|].
  split; [|constructor]. apply Forall2_refl. intros x. apply same_row_refl, H.
Qed.

Lemma evolves_trans old mid new :
  evolves generation_step old mid -> evolves generation_step mid new ->
  evolves generation_step old new.
Proof.
  intros (k1 & c1 & -> & Hk1 & Hc1) (k2 & c2 & -> & Hk2 & Hc2).
  apply Forall2_app_inv_l in Hk2 as (k2a & k2b & Ha & Hb & ->).
  exists k2a, (k2b ++ c2)%list. split; [symmetry; apply app_assoc|]. split.
  - clear -Hk1 Ha. revert k2a Ha.
    induction Hk1 as [|x y l l' Hxy Hl IH]; intros k2a Ha;
      inversion Ha; subst; constructor.
    + eapply same_row_trans; eassumption.
    + apply IH. assumption.
  - apply Forall_app. split; [|exact Hc2].
    clear -Hc1 Hb. induction Hb as [|x y l l' Hxy Hl IH]; [constructor|].
    inversion Hc1; subst. constructor; [|apply IH; assumption].
    eapply same_row_in_progress; eassumption.
Qed.

Lemma evolves_created old created :
  Forall in_progress created ->
  evolves generation_step old (old ++ created).
Proof.
  intros H. exists old, created. split; [reflexivity|]. split; [|exact H].
  apply Forall2_refl. intros x. apply same_row_refl, generation_step_refl.
Qed.

Lemma update_first_rows step (p : Briefing.t -> bool) f l :
  (forall x, step x x) ->
  (forall x, find p l = Some x -> same_row step x (f x)) ->
  Forall2 (same_row step) l (update_first p f l).
Proof.
  intros Hrefl. induction l as [|y l IH]; simpl; intros H; [constructor|].
  destruct (p y).
  - constructor; [apply H; reflexivity|].
    apply Forall2_refl. intros x. apply same_row_refl, Hrefl.
  - constructor; [apply same_row_refl, Hrefl|apply IH, H].
Qed.

Lemma evolves_update step p f l rest :
  (forall x, step x x) ->
  (forall x, find p l = Some x -> same_row step x (f x)) ->
  Forall in_progress rest ->
  evolves step (l ++ rest) (update_first p f l ++ rest).
Proof.
  intros Hrefl H Hrest. exists (update_first p f l ++ rest)%list, [].
  rewrite app_nil_r. split; [reflexivity|]. split; [|constructor].
  apply Forall2_app; [apply update_first_rows; assumption|].
  apply Forall2_refl. intros x. apply same_row_refl, Hrefl.
Qed.

Lemma generation_update_row f b :
  generation_update f -> Briefing.status b <> BriefingStatus.DELIVERED ->
  same_row generation_step b (f b).
Proof.
  intros Hf Hb. destruct (Hf b) as (Hid & Hkey & Hp).
  split; [symmetry; exact Hid|]. split; [symmetry; exact Hkey|].
  right. split; [exact Hb|exact Hp].
Qed.

Lemma briefing_for_update user_id d f b :
  generation_update f -> briefing_for user_id d (f b) = briefing_for user_id d b.
Proof.
  intros Hf. unfold briefing_for. destruct (Hf b) as (_ & -> & _). reflexivity.
Qed.

Lemma find_app_cases {A} (p : A -> bool) l l' x :
  find p (l ++ l') = Some x -> find p l = Some x \/ In x l'.
Proof.
  induction l as [|y l IH]; simpl.
  - intros H. right. apply find_some in H. exact (proj1 H).
  - destruct (p y); [left; assumption|exact IH].
Qed.

Section GenerationInvariant.

Variable old : list Briefing.t.
Variable user_id : UUID.
Variable d : Date.

Local Abbreviation this := (briefing_for user_id d).
Local Abbreviation Inv := (generation_invariant old user_id d).

Lemma invariant_update s f :
  generation_update f -> Inv s -> Inv (update_briefing s this f).
Proof.
  intros Hf (Hc & Hl & Hj & Hk).
  unfold generation_invariant, update_briefing, with_live.
  cbn [committed live pending briefings set_briefings].
  split; [exact Hc|]. split; [|split; [|exact Hk]].
  - eapply evolves_trans; [exact Hl|].
    apply evolves_update; [apply generation_step_refl| |exact Hk].
    intros x Hx. apply generation_update_row; [exact Hf|apply Hj, Hx].
  - intros b Hb.
    destruct (find this (briefings (live s))) as [x|] eqn:Hx.
    + rewrite (update_first_find _ f _ x Hx) in Hb.
      * injection Hb as <-. apply in_progress_not_delivered, Hf.
      * rewrite briefing_for_update by exact Hf.
        apply find_some in Hx. exact (proj2 Hx).
    + rewrite update_first_none in Hb by exact Hx. congruence.
Qed.

Lemma invariant_commit s : Inv s -> Inv (snd (commit s)).
Proof.
  intros (Hc & Hl & Hj & Hk). unfold commit.
  destruct (inactive s); [repeat split; assumption|].
  destruct (constraints_hold (live s) (pending s));
    [|repeat split; assumption].
  unfold generation_invariant.
  cbn [snd committed live pending briefings merge_db empty_db].
  rewrite app_nil_r. split; [exact Hl|]. split; [exact Hl|].
  split; [|constructor].
  intros b Hb. apply find_app_cases in Hb as [Hb|Hb]; [apply Hj, Hb|].
  apply in_progress_not_delivered. rewrite Forall_forall in Hk. apply Hk, Hb.
Qed.

Lemma invariant_link s l : Inv s -> Inv (add_briefing_content s l).
Proof. intros H. exact H. Qed.

Lemma invariant_links briefing_id rows s :
  Inv s -> Inv (snd (for_each (link_body format_2f briefing_id) rows s)).
Proof.
  revert s. induction rows as [|[order item] rows IH]; intros s H; [exact H|].
  cbn [for_each]. unfold link_body at 1.
  destruct (ContentItem.classification item); [|exact H].
  apply IH, invariant_link, H.
Qed.

Lemma fail_with_update message : generation_update (fail_with message).
Proof.
  intros b. repeat split. right. right. reflexivity.
Qed.

Lemma set_generating_update :
  generation_update (fun b => Briefing.set_status b BriefingStatus.GENERATING).
Proof.
  intros b. repeat split. left. reflexivity.
Qed.

Lemma set_ready_update summary url duration count at_ :
  generation_update
    (fun b => Briefing.set_status
                (Briefing.set_generated b summary url duration count at_)
                BriefingStatus.READY).
Proof.
  intros b. repeat split. right. left. reflexivity.
Qed.

Lemma invariant_generate run s user briefing_id :
  Inv s ->
  Inv (snd (generate str_slice_to summary_reply ELEVENLABS_API_KEY
              _generate_with_elevenlabs _generate_with_openai STORAGE_TYPE
              write_file format_2f run s user this briefing_id)).
Proof.
  intros H. unfold generate.
  destruct (select_content_for_briefing _ _ _ _) as [[|item items]|e];
    [apply invariant_commit, invariant_update; [apply fail_with_update|exact H]
    | |exact H].
  destruct (bind _ _) as [audio_url|e]; [|exact H].
  cbv zeta.
  match goal with
  | |- context [for_each ?body ?rows ?s0] =>
      pose proof (invariant_links briefing_id rows s0) as Hlinks;
      destruct (for_each body rows s0) as [[u|e] s']
  end.
  - apply invariant_commit. apply Hlinks.
    apply invariant_update; [apply set_ready_update|exact H].
  - apply Hlinks.
    apply invariant_update; [apply set_ready_update|exact H].
Qed.

Lemma invariant_commit_and_generate run s user briefing_id :
  Inv s ->
  evolves generation_step old
    (briefings
       (snd (commit_and_generate str_slice_to summary_reply ELEVENLABS_API_KEY
               _generate_with_elevenlabs _generate_with_openai STORAGE_TYPE
               write_file format_2f run s user this briefing_id))).
Proof.
  intros H. unfold commit_and_generate.
  pose proof (invariant_commit s H) as H1.
  destruct (commit s) as [[u|e] s1]; cbn [snd] in H1; [|apply H1].
  pose proof (invariant_generate run s1 user briefing_id H1) as H2.
  destruct (generate _ _ _ _ _ _ _ _ _ _ _ _ _) as [[u'|e] s2];
    cbn [snd] in H2; [apply H2|].
  pose proof (invariant_commit _
                (invariant_update s2 (fail_with e) (fail_with_update e) H2)) as H3.
  destruct (commit _) as [[u'|e'] s3]; apply H3.
Qed.

End GenerationInvariant.

Lemma invariant_add old user_id d s new :
  in_progress new ->
  generation_invariant old user_id d s ->
  generation_invariant old user_id d (add_briefing s new).
Proof.
  intros Hnew (Hc & Hl & Hj & Hk).
  unfold generation_invariant, add_briefing, with_pending.
  cbn [committed live pending briefings set_briefings].
  split; [exact Hc|]. split; [|split; [exact Hj|]].
  - rewrite app_assoc. eapply evolves_trans; [exact Hl|].
    apply evolves_created. constructor; [exact Hnew|constructor].
  - apply Forall_app. split; [exact Hk|]. constructor; [exact Hnew|constructor].
Qed.

Lemma invariant_open db user_id d :
  (forall b, find (briefing_for user_id d) (briefings db) = Some b ->
             Briefing.status b <> BriefingStatus.DELIVERED) ->
  generation_invariant (briefings db) user_id d (open_session db).
Proof.
  intros H. unfold generation_invariant.
  cbn [open_session committed live pending briefings empty_db].
  rewrite app_nil_r.
  split; [apply evolves_refl, generation_step_refl|].
  split; [apply evolves_refl, generation_step_refl|].
  split; [exact H|constructor].
Qed.

Lemma status_eqb_false a b : BriefingStatus.eqb a b = false -> a <> b.
Proof. intros H ->. destruct b; discriminate. Qed.

Lemma delivery_step_refl a : delivery_step a a.
Proof. left. reflexivity. Qed.

Lemma update_first_changes {A} (p : A -> bool) (f : A -> A) l :
  Forall2 (fun a b => b = a \/ (p a = true /\ b = f a)) l (update_first p f l).
Proof.
  induction l as [|y l IH]; cbn [update_first]; [constructor|].
  destruct (p y) eqn:E.
  - constructor; [right; split; [exact E|reflexivity]|].
    apply Forall2_refl. intros x. left. reflexivity.
  - constructor; [left; reflexivity|exact IH].
Qed.


(** ** Reconciliation *)

Lemma item_key_eqb_sym a b : item_key_eqb a b = item_key_eqb b a.
Proof.
  unfold item_key_eqb. rewrite (N.eqb_sym (fst a)), (String.eqb_sym (snd a)).
  reflexivity.
Qed.

Lemma item_key_eqb_eq a b : item_key_eqb a b = true <-> a = b.
Proof.
  unfold item_key_eqb. rewrite andb_true_iff, N.eqb_eq, String.eqb_eq.
  destruct a, b; simpl. split; [intros [-> ->]; reflexivity|intros [= -> ->]; split; reflexivity].
Qed.

Lemma existsb_same_item source external_id items :
  existsb (item_key_eqb (DataSource.id source, external_id)) (map item_key items)
  = existsb (same_item source external_id) items.
Proof.
  induction items as [|i items IH]; simpl; [reflexivity|].
  rewrite IH. unfold same_item. rewrite item_key_eqb_sym. reflexivity.
Qed.

Lemma existing_item_new s source external_id :
  is_new s source external_id = true ->
  existing_item s source external_id = None.
Proof.
  unfold is_new, existing_item. rewrite negb_true_iff.
  induction (content_items (live s)) as [|i items IH]; simpl; [reflexivity|].
  destruct (same_item source external_id i); [discriminate|exact IH].
Qed.

Lemma existing_item_old s source external_id :
  is_new s source external_id = false ->
  exists i, existing_item s source external_id = Some i.
Proof.
  unfold is_new, existing_item. rewrite negb_false_iff.
  induction (content_items (live s)) as [|i items IH]; simpl; [discriminate|].
  destruct (same_item source external_id i); [eexists; reflexivity|exact IH].
Qed.

Lemma update_first_keys (p : ContentItem.t -> bool) f items :
  (forall i, item_key (f i) = item_key i) ->
  map item_key (update_first p f items) = map item_key items.
Proof.
  intros Hf. induction items as [|i items IH]; simpl; [reflexivity|].
  destruct (p i); simpl; [rewrite Hf|rewrite IH]; reflexivity.
Qed.

Lemma is_new_keys s s' source external_id :
  map item_key (content_items (live s')) = map item_key (content_items (live s)) ->
  is_new s' source external_id = is_new s source external_id.
Proof.
  intros H. unfold is_new. rewrite <- !existsb_same_item, H. reflexivity.
Qed.

Lemma fresh_keys_nodup {K} (eqb : K -> K -> bool) existing new :
  (forall a b, eqb a b = true <-> a = b) ->
  (forall k, In k new -> existsb (eqb k) existing = false) ->
  NoDup new ->
  fresh_keys eqb existing new = true.
Proof.
  intros Heq. revert existing.
  induction new as [|k new IH]; intros existing Hout Hnd; [reflexivity|].
  simpl. rewrite (Hout k (or_introl eq_refl)). simpl.
  inversion Hnd as [|? ? Hk Hnd']; subst.
  apply IH; [|exact Hnd'].
  intros k' Hk'. simpl. rewrite (Hout k' (or_intror Hk')), orb_false_r.
  apply not_true_iff_false. rewrite Heq. intros ->. contradiction.
Qed.

Lemma NoDup_map_pair {K V} (k : K) (l : list V) :
  NoDup l -> NoDup (map (pair k) l).
Proof.
  induction 1 as [|x l Hx Hl IH]; simpl; constructor; [|exact IH].
  rewrite in_map_iff. intros (y & [= ->] & Hy). contradiction.
Qed.

Section Reconcile.

Context {A : Type} (source : DataSource.t).
Variable body : A -> Counts -> result Counts.
Variable ext : A -> option string.
Variable ok : A -> Prop.

Hypothesis body_skip : forall x st, ext x = None -> body x st = Ok st.

Hypothesis body_old :
  forall x external_id s n u,
    ext x = Some external_id -> is_new s source external_id = false ->
    exists f,
      (forall i, item_key (f i) = item_key i)
      /\ body x (s, n, u) = Ok (update_item s source external_id f, n, u + 1).

Hypothesis body_new :
  forall x external_id s n u,
    ext x = Some external_id -> is_new s source external_id = true -> ok x ->
    exists item,
      item_key item = (DataSource.id source, external_id)
      /\ body x (s, n, u) = Ok (add_content_item s item, n + 1, u).

Lemma for_each_counts batch s n u :
  (forall x external_id,
     In x batch -> ext x = Some external_id ->
     is_new s source external_id = true -> ok x) ->
  exists s',
    for_each body batch (s, n, u)
    = (Ok tt,
       (s', n + count_ids (is_new s source) (ids_of ext batch),
        u + count_ids (fun id => negb (is_new s source id)) (ids_of ext batch)))
    /\ map item_key (content_items (live s')) = map item_key (content_items (live s))
    /\ map item_key (content_items (pending s'))
       = (map item_key (content_items (pending s))
          ++ map (pair (DataSource.id source))
                 (filter (is_new s source) (ids_of ext batch)))%list
    /\ inactive s' = inactive s
    /\ briefings (pending s') = briefings (pending s)
    /\ briefing_content (pending s') = briefing_content (pending s).
Proof using body_skip body_old body_new.
  revert s n u. induction batch as [|x batch IH]; intros s n u Hok.
  - exists s. unfold count_ids. simpl. rewrite !Z.add_0_r, app_nil_r.
    repeat split.
  - cbn [for_each]. unfold ids_of in *. cbn [flat_map].
    destruct (ext x) as [external_id|] eqn:Hx.
    + destruct (is_new s source external_id) eqn:Hnew.
      * destruct (body_new x external_id s n u Hx Hnew
                    (Hok x external_id (or_introl eq_refl) Hx Hnew))
          as (item & Hkey & ->).
        destruct (IH (add_content_item s item) (n + 1) u) as (s' & Hs' & Hl & Hp & Hi & Hb & Hc).
        { intros y id Hy Hext Hnew'. apply (Hok y id (or_intror Hy) Hext).
          exact Hnew'. }
        change (is_new (add_content_item s item) source)
          with (is_new s source) in *.
        exists s'. rewrite Hs'.
        unfold count_ids. cbn [app filter]. rewrite Hnew. cbn [negb List.length].
        split; [repeat (f_equal; try lia)|].
        split; [exact Hl|].
        split; [|split; [exact Hi|split; [exact Hb|exact Hc]]].
        rewrite Hp. cbn [add_content_item with_pending pending content_items
                           set_content_items map].
        rewrite map_app. cbn [map]. rewrite Hkey, <- app_assoc. reflexivity.
      * destruct (body_old x external_id s n u Hx Hnew) as (f & Hf & ->).
        destruct (IH (update_item s source external_id f) n (u + 1))
          as (s' & Hs' & Hl & Hp & Hi & Hb & Hc).
        { intros y id Hy Hext Hnew'. apply (Hok y id (or_intror Hy) Hext).
          rewrite <- Hnew'. symmetry. apply is_new_keys.
          cbn [update_item with_live live content_items set_content_items].
          apply update_first_keys, Hf. }
        assert (Hsame : forall id, is_new (update_item s source external_id f) source id
                                   = is_new s source id).
        { intros id. apply is_new_keys.
          cbn [update_item with_live live content_items set_content_items].
          apply update_first_keys, Hf. }
        unfold count_ids in *.
        rewrite (filter_ext _ _ Hsame) in Hs', Hp.
        rewrite (filter_ext (fun id => negb (is_new (update_item s source external_id f) source id))
                            (fun id => negb (is_new s source id))) in Hs'
          by (intros id; rewrite Hsame; reflexivity).
        exists s'. rewrite Hs'.
        cbn [app filter]. rewrite Hnew. cbn [negb List.length].
        split; [repeat (f_equal; try lia)|].
        split; [rewrite Hl; cbn [update_item with_live live content_items
                                   set_content_items];
                apply update_first_keys, Hf|].
        split; [exact Hp|split; [exact Hi|split; [exact Hb|exact Hc]]].
    + rewrite (body_skip x _ Hx).
      destruct (IH s n u) as (s' & Hs' & Hrest).
      { intros y id Hy. apply (Hok y id (or_intror Hy)). }
      exists s'. rewrite Hs'. split; [reflexivity|exact Hrest].
Qed.

(** A sync function's loop, final commit and return value, on a session
    with nothing pending. *)
Lemma reconcile_generic batch s :
  inactive s = false -> pending s = empty_db ->
  NoDup (filter (is_new s source) (ids_of ext batch)) ->
  (forall x external_id,
     In x batch -> ext x = Some external_id ->
     is_new s source external_id = true -> ok x) ->
  exists s',
    reconcile body batch s
    = (Ok (Z.of_nat (List.length batch),
           count_ids (is_new s source) (ids_of ext batch),
           count_ids (fun id => negb (is_new s source id)) (ids_of ext batch)),
       s')
    /\ map item_key (content_items (committed s'))
       = (map item_key (content_items (live s))
          ++ map (pair (DataSource.id source))
                 (filter (is_new s source) (ids_of ext batch)))%list.
Proof using body_skip body_old body_new.
  intros Hi Hp Hnd Hok. unfold reconcile.
  destruct (for_each_counts batch s 0 0 Hok)
    as (s1 & -> & Hl & Hpk & Hi1 & Hb & Hc).
  rewrite Hp in Hpk, Hb, Hc. cbn [empty_db content_items briefings
                                   briefing_content map app] in Hpk, Hb, Hc.
  unfold commit_counts, commit. rewrite Hi1, Hi.
  assert (Hfresh : constraints_hold (live s1) (pending s1) = true).
  { unfold constraints_hold. rewrite Hb, Hc, Hl, Hpk. cbn [map fresh_keys].
    rewrite !andb_true_r.
    apply fresh_keys_nodup; [apply item_key_eqb_eq| |apply NoDup_map_pair, Hnd].
    intros k Hk. apply in_map_iff in Hk as (id & <- & Hid).
    apply filter_In in Hid as [_ Hid]. unfold is_new in Hid.
    rewrite existsb_same_item. apply negb_true_iff, Hid. }
  rewrite Hfresh. eexists. rewrite !Z.add_0_l. split; [reflexivity|].
  cbn [committed merge_db content_items]. rewrite map_app, Hl, Hpk. reflexivity.
Qed.

End Reconcile.

Lemma update_first_id {A} (p : A -> bool) l : update_first p (fun x => x) l = l.
Proof.
  induction l as [|x l IH]; simpl; [reflexivity|].
  destruct (p x); [reflexivity|rewrite IH; reflexivity].
Qed.

Lemma ids_of_some {A} (f : A -> string) l :
  ids_of (fun x => Some (f x)) l = map f l.
Proof.
  unfold ids_of. induction l as [|x l IH]; simpl; [reflexivity|].
  rewrite IH. reflexivity.
Qed.

(** C6, as the code has it.  On a session with nothing pending, a
    reconciliation run whose new items have distinct external ids (and, for
    tweets, a creation time that parses) reports the number of fetched
    elements, counts as new the external ids with no stored item of the
    source and as updated the others, and commits one item per new id.
    Every tweet has an external id; a Telegram update has one only when it
    carries a message, so an update without a message counts as fetched and
    as neither new nor updated. *)
Theorem reconcile_counts run source s :
  inactive s = false -> pending s = empty_db ->
  (forall credentials tweets,
     NoDup (filter (is_new s source) (map tw_id tweets)) ->
     (forall tweet,
        In tweet tweets -> is_new s source (tw_id tweet) = true ->
        exists created t,
          tw_created_at tweet = Some created
          /\ parse_created datetime_fromisoformat created = Ok t) ->
     exists s',
       reconcile (twitter_loop_body run source credentials) tweets s
       = (Ok (Z.of_nat (List.length tweets),
              count_ids (is_new s source) (map tw_id tweets),
              count_ids (fun id => negb (is_new s source id)) (map tw_id tweets)),
          s')
       /\ map item_key (content_items (committed s'))
          = (map item_key (content_items (live s))
             ++ map (pair (DataSource.id source))
                    (filter (is_new s source) (map tw_id tweets)))%list)
  /\ (forall updates,
        NoDup (filter (is_new s source) (ids_of update_external_id updates)) ->
        exists s',
          reconcile (telegram_body run source) updates s
          = (Ok (Z.of_nat (List.length updates),
                 count_ids (is_new s source) (ids_of update_external_id updates),
                 count_ids (fun id => negb (is_new s source id))
                           (ids_of update_external_id updates)),
             s')
          /\ map item_key (content_items (committed s'))
             = (map item_key (content_items (live s))
                ++ map (pair (DataSource.id source))
                       (filter (is_new s source)
                               (ids_of update_external_id updates)))%list).
Proof.
  intros Hi Hp. split.
  - intros credentials tweets Hnd Hok.
    rewrite <- (ids_of_some tw_id tweets) in *.
    apply reconcile_generic
      with (ok := fun tweet =>
                    exists created t,
                      tw_created_at tweet = Some created
                      /\ parse_created datetime_fromisoformat created = Ok t);
      try assumption.
    + intros x st [=].
    + intros x external_id s0 n u [= <-] Hold.
      destruct (existing_item_old _ _ _ Hold) as (i & Hex).
      eexists. split; [|unfold twitter_body; rewrite Hex; reflexivity].
      reflexivity.
    + intros x external_id s0 n u [= <-] Hnew (created & t & Hc & Ht).
      eexists. split;
        [|unfold twitter_body; rewrite (existing_item_new _ _ _ Hnew), Hc, Ht;
          reflexivity].
      reflexivity.
    + intros x external_id Hx [= <-]. apply Hok, Hx.
  - intros updates Hnd.
    apply reconcile_generic with (ok := fun _ => True); try assumption.
    + intros x [[s0 n] u] Hx. unfold update_external_id in Hx.
      unfold telegram_body. destruct (upd_message x); [discriminate|reflexivity].
    + intros x external_id s0 n u Hx Hold. unfold update_external_id in Hx.
      destruct (upd_message x) as [message|] eqn:Hm; [|discriminate].
      injection Hx as <-.
      destruct (existing_item_old _ _ _ Hold) as (i & Hex).
      exists (fun i => i). split; [reflexivity|].
      unfold telegram_body. rewrite Hm, Hex. unfold update_item.
      rewrite update_first_id. destruct s0 as [c [] p ? ? ?]. reflexivity.
    + intros x external_id s0 n u Hx Hnew _. unfold update_external_id in Hx.
      destruct (upd_message x) as [message|] eqn:Hm; [|discriminate].
      injection Hx as <-.
      eexists. split;
        [|unfold telegram_body; rewrite Hm, (existing_item_new _ _ _ Hnew);
          reflexivity].
      reflexivity.
    + intros; exact I.
Qed.

(** ** [sync_data_source] *)

Lemma window_start_after_assignment source start_time utcnow :
  window_start (DataSource.set_last_sync_at source (Some start_time)) utcnow
  = start_time.
Proof. reflexivity. Qed.

Lemma parse_feed_absorbs_errors run feed_url e :
  feedparser_parse feed_url = Raise e ->
  parse_feed soup_get_text feedparser_parse run feed_url = [].
Proof. intros H. unfold parse_feed. rewrite H. reflexivity. Qed.

(** C8, as the code has it, for an active source.  When its sync function
    raises and the session can still commit, the run appends a sync log with
    status FAILED, zero counts and the text of the exception as error
    message: a text that is not empty unless the exception has none.  When
    the source is an RSS source and its feed cannot be fetched or parsed,
    nothing raises ([parse_feed] returns no item) and the run appends a sync
    log with status SUCCESS, zero counts and no error message. *)
Theorem sync_failure_is_logged run db source_id source :
  find (source_by_id source_id) (data_sources db) = Some source ->
  DataSource.is_active source = true ->
  (forall e s',
     sync_dispatch decrypt_data datetime_fromisoformat soup_get_text
       get_user_timeline get_updates get_user_feed get_user_media
       feedparser_parse str_slice_to run (start_sync run db source_id)
       (DataSource.set_last_sync_at source (Some (t_start run)))
     = (Raise e, s') ->
     can_commit s' ->
     exists logs log,
       sync_logs (committed (sync_task run db source_id)) = (logs ++ [log])%list
       /\ SyncLog.source_id log = DataSource.id source
       /\ SyncLog.status log = SyncStatus.FAILED
       /\ SyncLog.error_message log = Some e
       /\ (e <> "" ->
           exists text, SyncLog.error_message log = Some text /\ text <> "")
       /\ (SyncLog.items_fetched log, SyncLog.items_new log,
           SyncLog.items_updated log) = (0, 0, 0))
  /\ (DataSource.source_type source = SourceType.RSS ->
      forall settings feed_url e,
        DataSource.settings source = Some settings ->
        dict_get settings "feed_url" = Some feed_url ->
        feedparser_parse feed_url = Raise e ->
        exists log,
          sync_logs (committed (sync_task run db source_id))
          = (sync_logs db ++ [log])%list
          /\ SyncLog.source_id log = DataSource.id source
          /\ SyncLog.status log = SyncStatus.SUCCESS
          /\ SyncLog.error_message log = None
          /\ (SyncLog.items_fetched log, SyncLog.items_new log,
              SyncLog.items_updated log) = (0, 0, 0)).
Proof.
  intros Hfind Hactive.
  assert (Hsrc : find (source_by_id source_id)
                   (data_sources (live (start_sync run db source_id)))
                 = Some (DataSource.set_last_sync_at source (Some (t_start run)))).
  { unfold start_sync. cbn [with_live live set_data_sources data_sources].
    apply (update_first_find (source_by_id source_id)
             (fun x => DataSource.set_last_sync_at x (Some (t_start run))) _ _ Hfind).
    apply find_some in Hfind. exact (proj2 Hfind). }
  split.
  - intros e s' Hraise [Hi Hc]. unfold sync_data_source.
    cbn [open_session live]. rewrite Hfind, Hactive. cbn [negb].
    fold (start_sync run db source_id).
    rewrite Hsrc, Hraise. unfold commit, add_sync_log, with_pending.
    cbn [inactive live pending]. rewrite Hi.
    change (constraints_hold (live s') (set_sync_logs (pending s') _))
      with (constraints_hold (live s') (pending s')).
    rewrite Hc. cbn [committed rollback merge_db sync_logs set_sync_logs].
    exists (sync_logs (live s') ++ sync_logs (pending s'))%list.
    eexists. split; [apply app_assoc|].
    split; [reflexivity|]. split; [reflexivity|]. split; [reflexivity|].
    split; [|reflexivity].
    intros He. exists e. split; [reflexivity|exact He].
  - intros Htype settings feed_url e Hset Hurl Hparse. unfold sync_data_source.
    cbn [open_session live]. rewrite Hfind, Hactive. cbn [negb].
    fold (start_sync run db source_id).
    rewrite Hsrc. unfold sync_dispatch.
    change (DataSource.source_type
              (DataSource.set_last_sync_at source (Some (t_start run))))
      with (DataSource.source_type source).
    rewrite Htype. unfold sync_rss_source.
    change (DataSource.settings
              (DataSource.set_last_sync_at source (Some (t_start run))))
      with (DataSource.settings source).
    rewrite Hset. destruct settings as [|kv settings']; [discriminate|].
    rewrite Hurl, (parse_feed_absorbs_errors run feed_url e Hparse).
    unfold reconcile. cbn [for_each List.length Z.of_nat]. unfold commit_counts.
    rewrite commit_clean by reflexivity.
    unfold commit, add_sync_log, with_pending.
    cbn [inactive live pending send start_sync with_live open_session].
    exists (new_sync_log run
              (DataSource.set_last_sync_at source (Some (t_start run)))
              (Ok (0, 0, 0))).
    split; [reflexivity|]. repeat split.
Qed.

(** *** The request a Twitter sync sends *)

Lemma requests_commit s : requests (snd (commit s)) = requests s.
Proof.
  unfold commit. destruct (inactive s); [reflexivity|].
  destruct (constraints_hold _ _); reflexivity.
Qed.

Lemma requests_for_each {A} (body : A -> Counts -> result Counts) batch st :
  (forall x s n u s' n' u',
     body x (s, n, u) = Ok (s', n', u') -> requests s' = requests s) ->
  requests (fst (fst (snd (for_each body batch st)))) = requests (fst (fst st)).
Proof.
  intros Hbody. revert st.
  induction batch as [|x batch IH]; intros st; [reflexivity|].
  cbn [for_each]. destruct (body x st) as [[[s' n'] u']|e] eqn:E; [|reflexivity].
  rewrite IH. destruct st as [[s n] u]. apply (Hbody _ _ _ _ _ _ _ E).
Qed.

Lemma requests_reconcile {A} (body : A -> Counts -> result Counts) batch s :
  (forall x s n u s' n' u',
     body x (s, n, u) = Ok (s', n', u') -> requests s' = requests s) ->
  requests (snd (reconcile body batch s)) = requests s.
Proof.
  intros Hbody. unfold reconcile.
  pose proof (requests_for_each body batch (s, 0, 0) Hbody) as H.
  destruct (for_each body batch (s, 0, 0)) as [[u|e] [[s1 n1] u1]];
    cbn [fst snd] in H; [|exact H].
  unfold commit_counts. pose proof (requests_commit s1) as Hc.
  destruct (commit s1) as [[u'|e] s2]; cbn [snd] in *; congruence.
Qed.

Lemma requests_twitter_body run source credentials x s n u s' n' u' :
  twitter_loop_body run source credentials x (s, n, u) = Ok (s', n', u') ->
  requests s' = requests s.
Proof.
  unfold twitter_body. destruct (existing_item s source (tw_id x)).
  - intros [= <- _ _]. reflexivity.
  - destruct (tw_created_at x) as [created|]; [|discriminate].
    cbn [bind]. destruct (parse_created _ created); [|discriminate].
    intros [= <- _ _]. reflexivity.
Qed.

(** Whatever [last_sync_at] the source had, the timeline of an active
    Twitter source with usable credentials is requested from the start time
    of the run on. *)
Lemma twitter_sync_requests run db source_id source credentials token access_token :
  find (source_by_id source_id) (data_sources db) = Some source ->
  DataSource.is_active source = true ->
  DataSource.source_type source = SourceType.TWITTER ->
  require_credentials source "Twitter" = Ok credentials ->
  dict_get credentials "access_token" = Some token ->
  decrypt_data token = Ok access_token ->
  requests (sync_task run db source_id)
  = [TwitterUserTimeline (dict_get credentials "twitter_user_id") 100
       (t_start run)].
Proof.
  intros Hfind Hactive Htype Hcred Htoken Hdecrypt. unfold sync_data_source.
  cbn [open_session live]. rewrite Hfind, Hactive. cbn [negb].
  fold (start_sync run db source_id).
  assert (Hsrc : find (source_by_id source_id)
                   (data_sources (live (start_sync run db source_id)))
                 = Some (DataSource.set_last_sync_at source (Some (t_start run)))).
  { unfold start_sync. cbn [with_live live set_data_sources data_sources].
    apply (update_first_find (source_by_id source_id)
             (fun x => DataSource.set_last_sync_at x (Some (t_start run))) _ _ Hfind).
    apply find_some in Hfind. exact (proj2 Hfind). }
  rewrite Hsrc. unfold sync_dispatch.
  cbn [DataSource.set_last_sync_at DataSource.source_type]. rewrite Htype.
  unfold sync_twitter_source.
  change (require_credentials
            (DataSource.set_last_sync_at source (Some (t_start run))) "Twitter")
    with (require_credentials source "Twitter").
  rewrite Hcred. cbn [bind]. unfold subscript. rewrite Htoken. cbn [bind].
  rewrite Hdecrypt. cbn [bind].
  rewrite window_start_after_assignment.
  match goal with
  | |- context [get_user_timeline ?a ?b ?c ?d] =>
      destruct (get_user_timeline a b c d) as [tweets|e]
  end.
  - match goal with
    | |- context [reconcile ?body tweets ?s0] =>
        pose proof (requests_reconcile body tweets s0
                      (requests_twitter_body run _ credentials)) as Hr;
        destruct (reconcile body tweets s0) as [outcome s1]
    end.
    cbn [snd] in Hr.
    match goal with
    | |- context [commit ?s2] =>
        pose proof (requests_commit s2) as Hc;
        destruct (commit s2) as [[u|e] s3]
    end; cbn [snd] in Hc; cbn [rollback requests]; rewrite Hc;
      cbn [add_sync_log with_pending requests]; rewrite Hr; reflexivity.
  - match goal with
    | |- context [commit ?s2] =>
        pose proof (requests_commit s2) as Hc;
        destruct (commit s2) as [[u|e'] s3]
    end; cbn [snd] in Hc; cbn [rollback requests]; rewrite Hc; reflexivity.
Qed.


(** ** What the sync functions keep *)

Local Abbreviation dispatch :=
  (sync_dispatch decrypt_data datetime_fromisoformat soup_get_text
     get_user_timeline get_updates get_user_feed get_user_media
     feedparser_parse str_slice_to).

Lemma identity_key f :
  (forall i, item_identity (f i) = item_identity i) ->
  forall i, item_key (f i) = item_key i.
Proof.
  intros H i. specialize (H i). unfold item_identity in H. unfold item_key.
  congruence.
Qed.

Lemma twitter_body_step run source credentials x s n u s' n' u' :
  twitter_loop_body run source credentials x (s, n, u) = Ok (s', n', u') ->
  item_step source s s'.
Proof.
  unfold twitter_body. destruct (existing_item s source (tw_id x)).
  - intros [= <- _ _]. right. left. eexists _, _. split; [|reflexivity].
    intros i. reflexivity.
  - destruct (tw_created_at x) as [created|]; [|discriminate].
    cbn [bind]. destruct (parse_created _ created); [|discriminate].
    intros [= <- _ _]. right. right. eexists. split; [|split; [|reflexivity]]; reflexivity.
Qed.

Lemma rss_body_step run source x s n u s' n' u' :
  rss_body run source x (s, n, u) = Ok (s', n', u') -> item_step source s s'.
Proof.
  unfold rss_body. destruct (existing_item s source (rss_external_id x)).
  - intros [= <- _ _]. right. left. eexists _, _. split; [|reflexivity].
    intros i. reflexivity.
  - intros [= <- _ _]. right. right. eexists. split; [|split; [|reflexivity]]; reflexivity.
Qed.

Lemma telegram_body_step run source x s n u s' n' u' :
  telegram_body run source x (s, n, u) = Ok (s', n', u') -> item_step source s s'.
Proof.
  unfold telegram_body. destruct (upd_message x) as [message|].
  - destruct (existing_item s source _).
    + intros [= <- _ _]. left. reflexivity.
    + intros [= <- _ _]. right. right. eexists. split; [|split; [|reflexivity]]; reflexivity.
  - intros [= <- _ _]. left. reflexivity.
Qed.

Lemma facebook_body_step run source x s n u s' n' u' :
  facebook_body datetime_fromisoformat run source x (s, n, u) = Ok (s', n', u') ->
  item_step source s s'.
Proof.
  unfold facebook_body. destruct (existing_item s source _).
  - intros [= <- _ _]. right. left. eexists _, _. split; [|reflexivity].
    intros i. reflexivity.
  - destruct (created_or_now _ run (fb_created_time x)); [|discriminate].
    cbn [bind]. intros [= <- _ _]. right. right. eexists. split; [|split; [|reflexivity]]; reflexivity.
Qed.

Lemma instagram_body_step run source x s n u s' n' u' :
  instagram_body datetime_fromisoformat str_slice_to run source x (s, n, u)
  = Ok (s', n', u') ->
  item_step source s s'.
Proof.
  unfold instagram_body. destruct (existing_item s source _).
  - intros [= <- _ _]. right. left. eexists _, _. split; [|reflexivity].
    intros i. reflexivity.
  - destruct (created_or_now _ run (ig_timestamp x)); [|discriminate].
    cbn [bind]. intros [= <- _ _]. right. right. eexists. split; [|split; [|reflexivity]]; reflexivity.
Qed.

(** A property of the session that every iteration of a loop and a commit
    keep is kept by the loop followed by its commit. *)
Section LoopInvariant.

Variable P : Session -> Prop.
Variable step : Session -> Session -> Prop.

Hypothesis P_step : forall s s', step s s' -> P s -> P s'.
Hypothesis P_commit : forall s, P s -> P (snd (commit s)).

Lemma invariant_for_each {A} (body : A -> Counts -> result Counts) batch st :
  (forall x s n u s' n' u', body x (s, n, u) = Ok (s', n', u') -> step s s') ->
  P (fst (fst st)) -> P (fst (fst (snd (for_each body batch st)))).
Proof using P_step.
  intros Hbody. revert st.
  induction batch as [|x batch IH]; intros st Hst; [exact Hst|].
  cbn [for_each]. destruct (body x st) as [[[s' n'] u']|e] eqn:E; [|exact Hst].
  apply IH. destruct st as [[s n] u]. cbn [fst] in *.
  eapply P_step; [eapply Hbody, E|exact Hst].
Qed.

Lemma invariant_reconcile {A} (body : A -> Counts -> result Counts) batch s :
  (forall x s n u s' n' u', body x (s, n, u) = Ok (s', n', u') -> step s s') ->
  P s -> P (snd (reconcile body batch s)).
Proof using P_step P_commit.
  intros Hbody Hs. unfold reconcile.
  pose proof (invariant_for_each body batch (s, 0, 0) Hbody Hs) as H.
  destruct (for_each body batch (s, 0, 0)) as [[u|e] [[s1 n1] u1]];
    cbn [fst snd] in H; [|exact H].
  unfold commit_counts. pose proof (P_commit s1 H) as Hc.
  destruct (commit s1) as [[u'|e] s2]; exact Hc.
Qed.

End LoopInvariant.

(** A property that sending a request, an iteration of a sync loop and a
    commit keep is kept by every sync function. *)
Section SyncInvariant.

Variable P : Session -> Prop.
Variable source : DataSource.t.

Hypothesis P_send : forall s r, P s -> P (send s r).
Hypothesis P_step : forall s s', item_step source s s' -> P s -> P s'.
Hypothesis P_commit : forall s, P s -> P (snd (commit s)).

Lemma invariant_sync_dispatch run s : P s -> P (snd (dispatch run s source)).
Proof using P_send P_step P_commit.
  intros Hs. unfold sync_dispatch.
  destruct (DataSource.source_type source).
  - unfold sync_twitter_source.
    destruct (bind _ _) as [[credentials access_token]|e]; [|exact Hs].
    destruct (get_user_timeline _ _ _ _) as [tweets|e]; [|apply P_send, Hs].
    apply (invariant_reconcile P (item_step source) P_step P_commit);
      [apply twitter_body_step|apply P_send, Hs].
  - unfold sync_facebook_source.
    destruct (bind _ _) as [access_token|e]; [|exact Hs].
    destruct (get_user_feed _ _ _ _) as [posts|e]; [|apply P_send, Hs].
    apply (invariant_reconcile P (item_step source) P_step P_commit);
      [apply facebook_body_step|apply P_send, Hs].
  - unfold sync_instagram_source.
    destruct (bind _ _) as [access_token|e]; [|exact Hs].
    destruct (get_user_media _ _ _) as [media|e]; [|apply P_send, Hs].
    apply (invariant_reconcile P (item_step source) P_step P_commit);
      [apply instagram_body_step|apply P_send, Hs].
  - unfold sync_telegram_source.
    destruct (bind _ _) as [bot_token|e]; [|exact Hs].
    destruct (get_updates _ _ _) as [updates|e]; [|apply P_send, Hs].
    apply (invariant_reconcile P (item_step source) P_step P_commit);
      [apply telegram_body_step|apply P_send, Hs].
  - unfold sync_rss_source.
    destruct (DataSource.settings source) as [[|kv settings]|];
      [exact Hs| |exact Hs].
    destruct (dict_get _ "feed_url") as [feed_url|]; [|exact Hs].
    apply (invariant_reconcile P (item_step source) P_step P_commit);
      [apply rss_body_step|apply P_send, Hs].
  - exact Hs.
Qed.

End SyncInvariant.

(** *** The shape of a run *)

Lemma stamped_found run db source_id source :
  find (source_by_id source_id) (data_sources db) = Some source ->
  find (source_by_id source_id)
       (data_sources (live (start_sync run db source_id)))
  = Some (stamped run source).
Proof.
  intros Hfind. unfold start_sync, stamped.
  cbn [with_live live set_data_sources data_sources].
  apply (update_first_find (source_by_id source_id)
           (fun x => DataSource.set_last_sync_at x (Some (t_start run))) _ _ Hfind).
  apply find_some in Hfind. exact (proj2 Hfind).
Qed.

Lemma sync_task_eq run db source_id source :
  find (source_by_id source_id) (data_sources db) = Some source ->
  DataSource.is_active source = true ->
  sync_task run db source_id
  = rollback
      (snd (commit
              (add_sync_log
                 (snd (dispatch run (start_sync run db source_id)
                         (stamped run source)))
                 (new_sync_log run (stamped run source)
                    (fst (dispatch run (start_sync run db source_id)
                            (stamped run source))))))).
Proof.
  intros Hfind Hactive. unfold sync_data_source.
  cbn [open_session live]. rewrite Hfind, Hactive. cbn [negb].
  fold (start_sync run db source_id).
  rewrite (stamped_found run db source_id source Hfind).
  destruct (dispatch run (start_sync run db source_id) (stamped run source))
    as [outcome s1].
  cbn [fst snd]. destruct (commit _) as [[u|e] s2]; reflexivity.
Qed.

Lemma sync_task_skipped run db source_id :
  (forall source,
     find (source_by_id source_id) (data_sources db) = Some source ->
     DataSource.is_active source = false) ->
  sync_task run db source_id = rollback (open_session db).
Proof.
  intros H. unfold sync_data_source. cbn [open_session live].
  destruct (find (source_by_id source_id) (data_sources db)) as [source|];
    [|reflexivity].
  rewrite (H source eq_refl). reflexivity.
Qed.

(** *** Unique constraints and commits *)

Lemma fresh_keys_spec {K} (eqb : K -> K -> bool) existing new :
  (forall a b, eqb a b = true <-> a = b) ->
  fresh_keys eqb existing new = true ->
  NoDup new /\ (forall k, In k new -> ~ In k existing).
Proof.
  intros Heq. revert existing.
  induction new as [|k new IH]; intros existing H; cbn [fresh_keys] in H.
  - split; [constructor|intros k []].
  - apply andb_true_iff in H. destruct H as [Hk H].
    apply negb_true_iff in Hk. destruct (IH _ H) as [Hnd Hnot].
    assert (Hkex : ~ In k existing).
    { intros Hin.
      assert (Ht : existsb (eqb k) existing = true).
      { apply existsb_exists. exists k. split; [exact Hin|].
        apply Heq. reflexivity. }
      congruence. }
    split.
    + constructor; [|exact Hnd]. intros Hin. apply (Hnot k Hin). left.
      reflexivity.
    + intros k' [<-|Hin]; [exact Hkex|]. intros Hex. apply (Hnot k' Hin).
      right. exact Hex.
Qed.

Lemma fresh_keys_app {K} (eqb : K -> K -> bool) existing new :
  (forall a b, eqb a b = true <-> a = b) ->
  fresh_keys eqb existing new = true ->
  NoDup existing -> NoDup (existing ++ new).
Proof.
  intros Heq H Hex. destruct (fresh_keys_spec eqb existing new Heq H) as [Hnd Hnot].
  apply NoDup_app; [exact Hex|exact Hnd|].
  intros k Hin Hin'. exact (Hnot k Hin' Hin).
Qed.

Lemma can_commit_log s l : can_commit (add_sync_log s l) <-> can_commit s.
Proof. split; intros H; exact H. Qed.

(** A commit either succeeds, and then the session could commit and the
    store is the session's objects, or fails and leaves the store alone and
    the session inactive. *)
Lemma commit_cases s :
  (fst (commit s) = Ok tt /\ can_commit s
   /\ snd (commit s)
      = {| committed := merge_db (live s) (pending s);
           live := merge_db (live s) (pending s);
           pending := empty_db; inactive := false;
           drawn := drawn s; requests := requests s |})
  \/ ((exists e, fst (commit s) = Raise e) /\ ~ can_commit s
      /\ snd (commit s)
         = {| committed := committed s; live := live s; pending := pending s;
              inactive := true; drawn := drawn s; requests := requests s |}).
Proof.
  unfold commit, can_commit. destruct (inactive s) eqn:Hi.
  - right. split; [eexists; reflexivity|]. split; [intros [H _]; discriminate|].
    destruct s. cbn in *. subst. reflexivity.
  - destruct (constraints_hold (live s) (pending s)) eqn:Hc.
    + left. split; [reflexivity|]. split; [split; reflexivity|reflexivity].
    + right. split; [eexists; reflexivity|].
      split; [intros [_ H]; discriminate|reflexivity].
Qed.

Lemma committed_item_step source s s' :
  item_step source s s' -> committed s' = committed s.
Proof.
  intros [->|[(external_id & f & _ & ->)|(item & _ & _ & ->)]]; reflexivity.
Qed.

Lemma requests_item_step source s s' :
  item_step source s s' -> requests s' = requests s.
Proof.
  intros [->|[(external_id & f & _ & ->)|(item & _ & _ & ->)]]; reflexivity.
Qed.

(** *** Loop counters *)

Lemma twitter_body_counts type run source credentials x s n u s' n' u' :
  twitter_loop_body run source credentials x (s, n, u) = Ok (s', n', u') ->
  counts_step type n u n' u'.
Proof.
  unfold twitter_body, counts_step. destruct (existing_item s source (tw_id x)).
  - intros [= _ <- <-]. right. left. split; reflexivity.
  - destruct (tw_created_at x) as [created|]; [|discriminate].
    cbn [bind]. destruct (parse_created _ created); [|discriminate].
    intros [= _ <- <-]. left. split; reflexivity.
Qed.

Lemma rss_body_counts type run source x s n u s' n' u' :
  rss_body run source x (s, n, u) = Ok (s', n', u') ->
  counts_step type n u n' u'.
Proof.
  unfold rss_body, counts_step.
  destruct (existing_item s source (rss_external_id x)).
  - intros [= _ <- <-]. right. left. split; reflexivity.
  - intros [= _ <- <-]. left. split; reflexivity.
Qed.

Lemma telegram_body_counts run source x s n u s' n' u' :
  telegram_body run source x (s, n, u) = Ok (s', n', u') ->
  counts_step SourceType.TELEGRAM n u n' u'.
Proof.
  unfold telegram_body, counts_step. destruct (upd_message x) as [message|].
  - destruct (existing_item s source _).
    + intros [= _ <- <-]. right. left. split; reflexivity.
    + intros [= _ <- <-]. left. split; reflexivity.
  - intros [= _ <- <-]. right. right. repeat split.
Qed.

Lemma facebook_body_counts type run source x s n u s' n' u' :
  facebook_body datetime_fromisoformat run source x (s, n, u) = Ok (s', n', u') ->
  counts_step type n u n' u'.
Proof.
  unfold facebook_body, counts_step. destruct (existing_item s source _).
  - intros [= _ <- <-]. right. left. split; reflexivity.
  - destruct (created_or_now _ run (fb_created_time x)); [|discriminate].
    cbn [bind]. intros [= _ <- <-]. left. split; reflexivity.
Qed.

Lemma instagram_body_counts type run source x s n u s' n' u' :
  instagram_body datetime_fromisoformat str_slice_to run source x (s, n, u)
  = Ok (s', n', u') ->
  counts_step type n u n' u'.
Proof.
  unfold instagram_body, counts_step. destruct (existing_item s source _).
  - intros [= _ <- <-]. right. left. split; reflexivity.
  - destruct (created_or_now _ run (ig_timestamp x)); [|discriminate].
    cbn [bind]. intros [= _ <- <-]. left. split; reflexivity.
Qed.

(** *** The shape of a sync function

    A sync function sends at most one request; then it raises, or (for a
    type without a sync function) returns zero counts, or runs one loop over
    what it fetched and commits. *)
Lemma dispatch_shape run s source :
  exists s0,
    (s0 = s \/ exists r, s0 = send s r)
    /\ ((exists e, dispatch run s source = (Raise e, s0))
        \/ (dispatch run s source = (Ok (0, 0, 0), s0) /\ s0 = s)
        \/ (exists (A : Type) (body : A -> Counts -> result Counts) batch,
              (forall x s n u s' n' u',
                 body x (s, n, u) = Ok (s', n', u') ->
                 item_step source s s'
                 /\ counts_step (DataSource.source_type source) n u n' u')
              /\ dispatch run s source = reconcile body batch s0)).
Proof.
  unfold sync_dispatch. destruct (DataSource.source_type source) eqn:Htype.
  - unfold sync_twitter_source.
    destruct (bind _ _) as [[credentials access_token]|e].
    + destruct (get_user_timeline _ _ _ _) as [tweets|e].
      * eexists. split; [right; eexists; reflexivity|]. right. right.
        eexists _, _, _. split; [|reflexivity]. intros x s1 n u s' n' u' H.
        split; [exact (twitter_body_step _ _ _ _ _ _ _ _ _ _ H)
               |exact (twitter_body_counts _ _ _ _ _ _ _ _ _ _ _ H)].
      * eexists. split; [right; eexists; reflexivity|]. left. eexists.
        reflexivity.
    + exists s. split; [left; reflexivity|]. left. eexists. reflexivity.
  - unfold sync_facebook_source.
    destruct (bind _ _) as [access_token|e].
    + destruct (get_user_feed _ _ _ _) as [posts|e].
      * eexists. split; [right; eexists; reflexivity|]. right. right.
        eexists _, _, _. split; [|reflexivity]. intros x s1 n u s' n' u' H.
        split; [exact (facebook_body_step _ _ _ _ _ _ _ _ _ H)
               |exact (facebook_body_counts _ _ _ _ _ _ _ _ _ _ H)].
      * eexists. split; [right; eexists; reflexivity|]. left. eexists.
        reflexivity.
    + exists s. split; [left; reflexivity|]. left. eexists. reflexivity.
  - unfold sync_instagram_source.
    destruct (bind _ _) as [access_token|e].
    + destruct (get_user_media _ _ _) as [media|e].
      * eexists. split; [right; eexists; reflexivity|]. right. right.
        eexists _, _, _. split; [|reflexivity]. intros x s1 n u s' n' u' H.
        split; [exact (instagram_body_step _ _ _ _ _ _ _ _ _ H)
               |exact (instagram_body_counts _ _ _ _ _ _ _ _ _ _ H)].
      * eexists. split; [right; eexists; reflexivity|]. left. eexists.
        reflexivity.
    + exists s. split; [left; reflexivity|]. left. eexists. reflexivity.
  - unfold sync_telegram_source.
    destruct (bind _ _) as [bot_token|e].
    + destruct (get_updates _ _ _) as [updates|e].
      * eexists. split; [right; eexists; reflexivity|]. right. right.
        eexists _, _, _. split; [|reflexivity]. intros x s1 n u s' n' u' H.
        split; [exact (telegram_body_step _ _ _ _ _ _ _ _ _ H)
               |exact (telegram_body_counts _ _ _ _ _ _ _ _ _ H)].
      * eexists. split; [right; eexists; reflexivity|]. left. eexists.
        reflexivity.
    + exists s. split; [left; reflexivity|]. left. eexists. reflexivity.
  - unfold sync_rss_source.
    destruct (DataSource.settings source) as [[|kv settings]|].
    + exists s. split; [left; reflexivity|]. left. eexists. reflexivity.
    + destruct (dict_get _ "feed_url") as [feed_url|].
      * eexists. split; [right; eexists; reflexivity|]. right. right.
        eexists _, _, _. split; [|reflexivity]. intros x s1 n u s' n' u' H.
        split; [exact (rss_body_step _ _ _ _ _ _ _ _ _ H)
               |exact (rss_body_counts _ _ _ _ _ _ _ _ _ _ H)].
      * exists s. split; [left; reflexivity|]. left. eexists. reflexivity.
    + exists s. split; [left; reflexivity|]. left. eexists. reflexivity.
  - exists s. split; [left; reflexivity|]. right. left. split; reflexivity.
Qed.

Lemma reconcile_committed {A} source (body : A -> Counts -> result Counts) batch s :
  (forall x s n u s' n' u',
     body x (s, n, u) = Ok (s', n', u') -> item_step source s s') ->
  committed (snd (reconcile body batch s)) = committed s
  \/ can_commit (snd (reconcile body batch s)).
Proof.
  intros Hbody. unfold reconcile.
  pose proof (invariant_for_each (fun s' => committed s' = committed s)
                (item_step source)
                (fun s1 s2 Hstep H =>
                   eq_trans (committed_item_step source s1 s2 Hstep) H)
                body batch (s, 0, 0) Hbody eq_refl) as H.
  destruct (for_each body batch (s, 0, 0)) as [[u|e] [[s1 n1] u1]];
    cbn [fst snd] in H; [|left; exact H].
  unfold commit_counts.
  destruct (commit_cases s1) as [(Hok & _ & Hs)|(_ & _ & Hs)].
  - right. destruct (commit s1) as [[u'|e] s2]; cbn [fst snd] in *;
      [|discriminate]. rewrite Hs. split; [reflexivity|].
    apply constraints_hold_empty.
  - left. destruct (commit s1) as [[u'|e] s2]; cbn [fst snd] in *;
      rewrite Hs; exact H.
Qed.

Lemma dispatch_committed run s source :
  committed (snd (dispatch run s source)) = committed s
  \/ can_commit (snd (dispatch run s source)).
Proof.
  destruct (dispatch_shape run s source)
    as (s0 & Hs0 & [[e ->]|[[-> ->]|(A & body & batch & Hbody & ->)]]).
  - left. destruct Hs0 as [->|[r ->]]; reflexivity.
  - left. reflexivity.
  - destruct (reconcile_committed source body batch s0
                (fun x s1 n u s' n' u' H => proj1 (Hbody x s1 n u s' n' u' H)))
      as [H|H]; [left|right; exact H].
    rewrite H. destruct Hs0 as [->|[r ->]]; reflexivity.
Qed.

(** *** The stored items stay unique *)

Lemma commit_items_unique s :
  items_unique (committed s) /\ items_unique (live s) ->
  items_unique (committed (snd (commit s)))
  /\ items_unique (live (snd (commit s))).
Proof.
  intros [Hc Hl].
  destruct (commit_cases s) as [(_ & [_ Hcan] & ->)|(_ & _ & ->)].
  - cbn [committed live].
    assert (H : items_unique (merge_db (live s) (pending s))).
    { unfold items_unique. cbn [merge_db content_items]. rewrite map_app.
      unfold constraints_hold in Hcan.
      apply andb_true_iff in Hcan. destruct Hcan as [Hcan _].
      apply andb_true_iff in Hcan. destruct Hcan as [Hcan _].
      exact (fresh_keys_app item_key_eqb _ _ item_key_eqb_eq Hcan Hl). }
    split; exact H.
  - split; assumption.
Qed.

Lemma found_source_id source_id l source :
  find (source_by_id source_id) l = Some source ->
  DataSource.id source = source_id.
Proof.
  intros H. apply find_some in H. destruct H as [_ H].
  apply N.eqb_eq. exact H.
Qed.

(** X1: Every run of [sync_data_source] keeps the stored items unique in
    [(source_id, external_id)]. *)
Theorem sync_keeps_items_unique run db source_id :
  items_unique db -> items_unique (committed (sync_task run db source_id)).
Proof.
  intros Hdb.
  destruct (find (source_by_id source_id) (data_sources db)) as [source|] eqn:Hfind.
  2:{ rewrite sync_task_skipped; [exact Hdb|]. intros source H. congruence. }
  destruct (DataSource.is_active source) eqn:Hactive.
  2:{ rewrite sync_task_skipped; [exact Hdb|]. intros source' H.
      rewrite Hfind in H. injection H as <-. exact Hactive. }
  rewrite (sync_task_eq run db source_id source Hfind Hactive).
  cbn [rollback committed].
  refine (proj1 (commit_items_unique _ _)).
  refine (invariant_sync_dispatch
            (fun s => items_unique (committed s) /\ items_unique (live s))
            (stamped run source) _ _ commit_items_unique run
            (start_sync run db source_id) _).
  - intros s r H. exact H.
  - intros s s' Hstep [Hc Hl]. split.
    + rewrite (committed_item_step _ _ _ Hstep). exact Hc.
    + destruct Hstep as [->|[(external_id & f & Hf & ->)|(item & _ & _ & ->)]];
        [exact Hl| |exact Hl].
      unfold items_unique, update_item.
      cbn [with_live live set_content_items content_items].
      rewrite update_first_keys; [exact Hl|apply identity_key, Hf].
  - split; exact Hdb.
Qed.

(** *** What a run leaves in the store *)

Lemma frame_sync_dispatch run s source :
  other_tables (pending s) = empty_db ->
  other_tables (live (snd (dispatch run s source))) = other_tables (live s)
  /\ other_tables (pending (snd (dispatch run s source))) = empty_db.
Proof.
  intros Hs.
  refine (invariant_sync_dispatch
            (fun s' => other_tables (live s') = other_tables (live s)
                       /\ other_tables (pending s') = empty_db)
            source _ _ _ run s (conj eq_refl Hs)).
  - intros s' r H. exact H.
  - intros s1 s2 [->|[(external_id & f & _ & ->)|(item & _ & _ & ->)]] H;
      exact H.
  - intros s' [H1 H2].
    destruct (commit_cases s') as [(_ & _ & ->)|(_ & _ & ->)]; cbn [live pending].
    + split; [|reflexivity].
      change (other_tables (merge_db (live s') (pending s')))
        with (merge_db (other_tables (live s')) (other_tables (pending s'))).
      rewrite H1, H2. apply merge_db_empty.
    + split; assumption.
Qed.

(** The two ways a run can end: without a trace, or with its log and the
    stamp on the source. *)
Lemma sync_task_cases run db source_id :
  let db' := committed (sync_task run db source_id) in
  db' = db
  \/ exists source,
       find (source_by_id source_id) (data_sources db) = Some source
       /\ DataSource.is_active source = true
       /\ sync_logs db'
          = (sync_logs db
             ++ [new_sync_log run (stamped run source)
                   (fst (dispatch run (start_sync run db source_id)
                           (stamped run source)))])%list
       /\ data_sources db'
          = update_first (source_by_id source_id) (stamped run) (data_sources db)
       /\ users db' = users db
       /\ user_preferences db' = user_preferences db
       /\ briefings db' = briefings db
       /\ briefing_content db' = briefing_content db.
Proof.
  cbv zeta.
  destruct (find (source_by_id source_id) (data_sources db)) as [source|] eqn:Hfind.
  2:{ left. rewrite sync_task_skipped; [reflexivity|]. intros source H.
      congruence. }
  destruct (DataSource.is_active source) eqn:Hactive.
  2:{ left. rewrite sync_task_skipped; [reflexivity|]. intros source' H.
      rewrite Hfind in H. injection H as <-. exact Hactive. }
  rewrite (sync_task_eq run db source_id source Hfind Hactive).
  cbn [rollback committed].
  destruct (frame_sync_dispatch run (start_sync run db source_id)
              (stamped run source) eq_refl) as [F1 F2].
  pose proof (dispatch_committed run (start_sync run db source_id)
                (stamped run source)) as D.
  set (r := dispatch run (start_sync run db source_id) (stamped run source)) in *.
  destruct (commit_cases (add_sync_log (snd r)
                            (new_sync_log run (stamped run source) (fst r))))
    as [(_ & _ & Hs)|(_ & Hnot & Hs)]; rewrite Hs; cbn [committed].
  - right. exists source. split; [reflexivity|]. split; [exact Hactive|].
    cbn [merge_db add_sync_log with_pending live pending set_sync_logs
         sync_logs data_sources users user_preferences briefings
         briefing_content].
    split.
    { rewrite app_assoc. f_equal.
      rewrite (f_equal sync_logs F1 : sync_logs (live (snd r)) = sync_logs db).
      rewrite (f_equal sync_logs F2 : sync_logs (pending (snd r)) = []).
      apply app_nil_r. }
    split.
    { rewrite (f_equal data_sources F1
               : data_sources (live (snd r))
                 = update_first (source_by_id source_id) (stamped run)
                     (data_sources db)).
      rewrite (f_equal data_sources F2 : data_sources (pending (snd r)) = []).
      apply app_nil_r. }
    split.
    { rewrite (f_equal users F1 : users (live (snd r)) = users db).
      rewrite (f_equal users F2 : users (pending (snd r)) = []).
      apply app_nil_r. }
    split.
    { rewrite (f_equal user_preferences F1
               : user_preferences (live (snd r)) = user_preferences db).
      rewrite (f_equal user_preferences F2
               : user_preferences (pending (snd r)) = []).
      apply app_nil_r. }
    split.
    { rewrite (f_equal briefings F1 : briefings (live (snd r)) = briefings db).
      rewrite (f_equal briefings F2 : briefings (pending (snd r)) = []).
      apply app_nil_r. }
    rewrite (f_equal briefing_content F1
             : briefing_content (live (snd r)) = briefing_content db).
    rewrite (f_equal briefing_content F2
             : briefing_content (pending (snd r)) = []).
    apply app_nil_r.
  - left. destruct D as [D|D]; [exact D|]. exfalso. apply Hnot. exact D.
Qed.

(** X2: A run of [sync_data_source] leaves the store as it was, or it appends
    one sync log, the log of this run with the outcome of the sync function,
    and stamps [last_sync_at] of the source with the start time of the run,
    whatever the outcome was.  It never touches users, preferences,
    briefings or briefing links. *)
Theorem sync_leaves_log_or_nothing run db source_id :
  let db' := committed (sync_task run db source_id) in
  db' = db
  \/ exists source,
       find (source_by_id source_id) (data_sources db) = Some source
       /\ DataSource.is_active source = true
       /\ sync_logs db'
          = (sync_logs db
             ++ [new_sync_log run (stamped run source)
                   (fst (dispatch run (start_sync run db source_id)
                           (stamped run source)))])%list
       /\ data_sources db'
          = update_first (source_by_id source_id) (stamped run) (data_sources db)
       /\ users db' = users db
       /\ user_preferences db' = user_preferences db
       /\ briefings db' = briefings db
       /\ briefing_content db' = briefing_content db.
Proof. exact (sync_task_cases run db source_id). Qed.

(** *** The stored items *)

Lemma items_evolve_refl source_id l : items_evolve source_id l l.
Proof.
  exists l, []. split; [symmetry; apply app_nil_r|]. split; [|constructor].
  apply Forall2_refl. intros x. split; reflexivity.
Qed.

Lemma Forall2_compose {A} (R S T : A -> A -> Prop) l1 l2 l3 :
  (forall a b c, R a b -> S b c -> T a c) ->
  Forall2 R l1 l2 -> Forall2 S l2 l3 -> Forall2 T l1 l3.
Proof.
  intros H H12. revert l3.
  induction H12 as [|a b l1 l2 Hab _ IH]; intros l3 H23; inversion H23; subst.
  - constructor.
  - constructor; [eapply H; eassumption|apply IH; assumption].
Qed.

Lemma kept_item_trans source_id a b c :
  kept_item source_id a b -> kept_item source_id b c -> kept_item source_id a c.
Proof.
  intros [Hab Hab'] [Hbc Hbc']. split; [congruence|].
  intros Hne. specialize (Hab' Hne). subst b. exact (Hbc' Hne).
Qed.

Lemma kept_item_added source_id l l' :
  Forall2 (kept_item source_id) l l' ->
  Forall (added_item source_id) l -> Forall (added_item source_id) l'.
Proof.
  induction 1 as [|a b l l' [Hab _] _ IH]; intros Hl; [constructor|].
  inversion Hl as [|? ? [Ha1 Ha2] Hl']; subst.
  constructor; [|exact (IH Hl')].
  unfold item_identity in Hab. unfold added_item. split; congruence.
Qed.

Lemma update_first_kept source_id (p : ContentItem.t -> bool) f l :
  (forall i, item_identity (f i) = item_identity i) ->
  (forall i, p i = true -> ContentItem.source_id i = source_id) ->
  Forall2 (kept_item source_id) l (update_first p f l).
Proof.
  intros Hf Hp. induction l as [|x l IH]; cbn [update_first]; [constructor|].
  destruct (p x) eqn:Hx.
  - constructor.
    + split; [apply Hf|]. intros Hne. destruct (Hne (Hp x Hx)).
    + apply Forall2_refl. intros y. split; reflexivity.
  - constructor; [split; reflexivity|exact IH].
Qed.

Lemma items_evolve_update source_id old (p : ContentItem.t -> bool) f l :
  (forall i, item_identity (f i) = item_identity i) ->
  (forall i, p i = true -> ContentItem.source_id i = source_id) ->
  items_evolve source_id old l ->
  items_evolve source_id old (update_first p f l).
Proof.
  intros Hf Hp (kept & added & -> & HK & HA).
  destruct (Forall2_app_inv_l _ _ (update_first_kept source_id p f
                                     (kept ++ added) Hf Hp))
    as (kept' & added' & HK' & HA' & ->).
  exists kept', added'. split; [reflexivity|]. split.
  - exact (Forall2_compose _ _ _ _ _ _ (kept_item_trans source_id) HK HK').
  - exact (kept_item_added source_id _ _ HA' HA).
Qed.

Lemma items_evolve_app source_id old l l' :
  items_evolve source_id old l -> Forall (added_item source_id) l' ->
  items_evolve source_id old (l ++ l').
Proof.
  intros (kept & added & -> & HK & HA) Hl'.
  exists kept, (added ++ l')%list. split; [symmetry; apply app_assoc|].
  split; [exact HK|]. apply Forall_app. split; assumption.
Qed.

Lemma same_item_source source external_id i :
  same_item source external_id i = true ->
  ContentItem.source_id i = DataSource.id source.
Proof.
  unfold same_item. intros H. apply item_key_eqb_eq in H.
  exact (f_equal fst H).
Qed.

(** X3: A run of [sync_data_source] removes no stored item and moves none; a
    stored item keeps its id, source, external id, type, publication time
    and classification, an item of another source is not changed at all,
    and what the run adds are unclassified items of the synced source. *)
Theorem sync_keeps_stored_items run db source_id :
  items_evolve source_id (content_items db)
    (content_items (committed (sync_task run db source_id))).
Proof.
  destruct (find (source_by_id source_id) (data_sources db)) as [source|] eqn:Hfind.
  2:{ rewrite sync_task_skipped; [apply items_evolve_refl|]. intros source H.
      congruence. }
  destruct (DataSource.is_active source) eqn:Hactive.
  2:{ rewrite sync_task_skipped; [apply items_evolve_refl|]. intros source' H.
      rewrite Hfind in H. injection H as <-. exact Hactive. }
  rewrite (sync_task_eq run db source_id source Hfind Hactive).
  cbn [rollback committed].
  pose proof (found_source_id _ _ _ Hfind) as Hid.
  set (P := fun s =>
              items_evolve source_id (content_items db)
                (content_items (committed s))
              /\ items_evolve source_id (content_items db)
                   (content_items (live s))
              /\ Forall (added_item source_id) (content_items (pending s))).
  assert (P_commit : forall s, P s -> P (snd (commit s))).
  { intros s (Hc & Hl & Hp).
    destruct (commit_cases s) as [(_ & _ & ->)|(_ & _ & ->)];
      unfold P; cbn [committed live pending].
    - cbn [merge_db content_items empty_db].
      split; [|split; [|constructor]]; apply items_evolve_app; assumption.
    - split; [|split]; assumption. }
  refine (proj1 (P_commit _ _)).
  refine (invariant_sync_dispatch P (stamped run source) _ _ P_commit run
            (start_sync run db source_id) _).
  - intros s r H. exact H.
  - intros s s' Hstep (Hc & Hl & Hp). unfold P.
    rewrite (committed_item_step _ _ _ Hstep).
    destruct Hstep as [->|[(external_id & f & Hf & ->)|(item & Hi & Hn & ->)]].
    + split; [|split]; assumption.
    + split; [exact Hc|]. split; [|exact Hp].
      unfold update_item. cbn [with_live live set_content_items content_items].
      apply items_evolve_update; [exact Hf| |exact Hl].
      intros i Hi. rewrite <- Hid. exact (same_item_source _ _ _ Hi).
    + split; [exact Hc|]. split; [exact Hl|].
      cbn [add_content_item with_pending pending set_content_items content_items].
      apply Forall_app. split; [exact Hp|]. constructor; [|constructor].
      split; [|exact Hn]. rewrite Hi. exact Hid.
  - unfold P. split; [|split; [|constructor]]; apply items_evolve_refl.
Qed.

(** *** The counters a sync function returns *)

Lemma for_each_counts_step type {A} (body : A -> Counts -> result Counts) batch :
  (forall x s n u s' n' u',
     body x (s, n, u) = Ok (s', n', u') -> counts_step type n u n' u') ->
  forall s n u s' n' u',
    for_each body batch (s, n, u) = (Ok tt, (s', n', u')) ->
    n <= n' /\ u <= u'
    /\ n' + u' <= n + u + Z.of_nat (List.length batch)
    /\ (type <> SourceType.TELEGRAM ->
        n' + u' = n + u + Z.of_nat (List.length batch)).
Proof.
  intros Hbody. induction batch as [|x batch IH]; intros s n u s' n' u' H.
  - cbn in H. injection H as <- <- <-. cbn. repeat split; intros; lia.
  - cbn [for_each] in H.
    destruct (body x (s, n, u)) as [[[s1 n1] u1]|e] eqn:E; [|discriminate].
    specialize (IH _ _ _ _ _ _ H). specialize (Hbody _ _ _ _ _ _ _ E).
    cbn [List.length]. rewrite Nat2Z.inj_succ.
    destruct IH as (I1 & I2 & I3 & I4).
    destruct Hbody as [[-> ->]|[[-> ->]|(Ht & -> & ->)]].
    + repeat split; try lia. intros Hne. specialize (I4 Hne). lia.
    + repeat split; try lia. intros Hne. specialize (I4 Hne). lia.
    + repeat split; try lia. intros Hne. destruct (Hne Ht).
Qed.

(** X4: When a sync function returns, the counts it reports are consistent:
    [items_new] and [items_updated] are not negative, they add up to
    [items_fetched] for every source type but Telegram, and to at most
    [items_fetched] for Telegram. *)
Theorem sync_counts_add_up run s source fetched new updated s' :
  dispatch run s source = (Ok (fetched, new, updated), s') ->
  0 <= new /\ 0 <= updated /\ new + updated <= fetched
  /\ (DataSource.source_type source <> SourceType.TELEGRAM ->
      new + updated = fetched).
Proof.
  intros H.
  destruct (dispatch_shape run s source)
    as (s0 & _ & [[e He]|[[He _]|(A & body & batch & Hbody & He)]]);
    rewrite He in H.
  - discriminate.
  - injection H as <- <- <- _. repeat split; intros; lia.
  - unfold reconcile in H.
    destruct (for_each body batch (s0, 0, 0)) as [[[]|e] [[s1 n1] u1]] eqn:E;
      [|discriminate].
    unfold commit_counts in H.
    destruct (commit s1) as [[u'|e] s2]; [|discriminate].
    injection H as <- <- <- _.
    destruct (for_each_counts_step (DataSource.source_type source) body batch
                (fun x s n u s' n' u' Hx => proj2 (Hbody x s n u s' n' u' Hx))
                _ _ _ _ _ _ E) as (H1 & H2 & H3 & H4).
    repeat split; try lia. intros Hne. specialize (H4 Hne). lia.
Qed.

(** *** The requests of a run *)

Lemma requests_dispatch run s source :
  requests (snd (dispatch run s source)) = requests s
  \/ exists r, requests (snd (dispatch run s source)) = (requests s ++ [r])%list.
Proof.
  destruct (dispatch_shape run s source)
    as (s0 & Hs0 & [[e ->]|[[-> ->]|(A & body & batch & Hbody & ->)]]).
  - destruct Hs0 as [->|[r ->]]; [left; reflexivity|right; eexists; reflexivity].
  - left. reflexivity.
  - rewrite (requests_reconcile body batch s0).
    + destruct Hs0 as [->|[r ->]];
        [left; reflexivity|right; eexists; reflexivity].
    + intros x s1 n u s' n' u' H.
      exact (requests_item_step source _ _ (proj1 (Hbody _ _ _ _ _ _ _ H))).
Qed.

(** X5: A run of [sync_data_source] calls a provider client at most once, and
    not at all when the source is unknown or inactive. *)
Theorem sync_sends_at_most_one_request run db source_id :
  (List.length (requests (sync_task run db source_id)) <= 1)%nat
  /\ ((forall source,
         find (source_by_id source_id) (data_sources db) = Some source ->
         DataSource.is_active source = false) ->
      requests (sync_task run db source_id) = []
      /\ committed (sync_task run db source_id) = db).
Proof.
  split.
  - destruct (find (source_by_id source_id) (data_sources db)) as [source|] eqn:Hfind.
    2:{ rewrite sync_task_skipped; [cbn; lia|]. intros source H. congruence. }
    destruct (DataSource.is_active source) eqn:Hactive.
    2:{ rewrite sync_task_skipped; [cbn; lia|]. intros source' H.
        rewrite Hfind in H. injection H as <-. exact Hactive. }
    rewrite (sync_task_eq run db source_id source Hfind Hactive).
    cbn [rollback requests]. rewrite requests_commit.
    cbn [add_sync_log with_pending requests].
    destruct (requests_dispatch run (start_sync run db source_id)
                (stamped run source)) as [->|[r ->]]; cbn; lia.
  - intros H. rewrite (sync_task_skipped run db source_id H).
    split; reflexivity.
Qed.

(** *** Missing credentials *)

Lemma dispatch_without_credentials run s source name :
  provider_name (DataSource.source_type source) = Some name ->
  DataSource.credentials source = None \/ DataSource.credentials source = Some [] ->
  dispatch run s source
  = (Raise ("No credentials found for " ++ name ++ " source"), s).
Proof.
  intros Hname Hcred. unfold sync_dispatch.
  destruct (DataSource.source_type source); cbn in Hname;
    try discriminate; injection Hname as <-;
    unfold sync_twitter_source, sync_facebook_source, sync_instagram_source,
      sync_telegram_source, require_credentials;
    destruct Hcred as [->| ->]; reflexivity.
Qed.

(** X6: A source of a provider that needs credentials and has none (the column
    is NULL or an empty object) is not requested from its provider; the run
    logs the failure with the provider's name and stores no item. *)
Theorem sync_without_credentials run db source_id source name :
  find (source_by_id source_id) (data_sources db) = Some source ->
  DataSource.is_active source = true ->
  provider_name (DataSource.source_type source) = Some name ->
  DataSource.credentials source = None \/ DataSource.credentials source = Some [] ->
  requests (sync_task run db source_id) = []
  /\ sync_logs (committed (sync_task run db source_id))
     = (sync_logs db
        ++ [new_sync_log run (stamped run source)
              (Raise ("No credentials found for " ++ name ++ " source"))])%list
  /\ content_items (committed (sync_task run db source_id)) = content_items db.
Proof.
  intros Hfind Hactive Hname Hcred.
  rewrite (sync_task_eq run db source_id source Hfind Hactive).
  rewrite (dispatch_without_credentials run _ (stamped run source) name Hname Hcred).
  cbn [fst snd]. unfold commit.
  cbn [add_sync_log with_pending start_sync with_live open_session inactive
       live pending].
  change (constraints_hold _ (set_sync_logs empty_db _)) with
    (constraints_hold
       (set_data_sources db
          (update_first (source_by_id source_id)
             (fun x => DataSource.set_last_sync_at x (Some (t_start run)))
             (data_sources db))) empty_db).
  rewrite constraints_hold_empty.
  cbn [snd rollback requests committed merge_db sync_logs content_items
       set_data_sources set_sync_logs empty_db].
  split; [reflexivity|]. split; [reflexivity|apply app_nil_r].
Qed.

(** *** Telegram *)

(** X7: A sync of a Telegram source never assigns to a stored item: the items
    stored before the run are there unchanged, followed by what the run
    added. *)
Theorem telegram_sync_only_adds run db source_id source :
  find (source_by_id source_id) (data_sources db) = Some source ->
  DataSource.source_type source = SourceType.TELEGRAM ->
  exists added,
    content_items (committed (sync_task run db source_id))
    = (content_items db ++ added)%list.
Proof.
  intros Hfind Htype.
  destruct (DataSource.is_active source) eqn:Hactive.
  2:{ exists []. rewrite sync_task_skipped; [symmetry; apply app_nil_r|].
      intros source' H. rewrite Hfind in H. injection H as <-. exact Hactive. }
  rewrite (sync_task_eq run db source_id source Hfind Hactive).
  cbn [rollback committed].
  set (P := fun s =>
              (exists a, content_items (committed s)
                         = (content_items db ++ a)%list)
              /\ (exists a, content_items (live s)
                            = (content_items db ++ a)%list)).
  assert (P_commit : forall s, P s -> P (snd (commit s))).
  { intros s ([a Hc] & [a' Hl]).
    destruct (commit_cases s) as [(_ & _ & ->)|(_ & _ & ->)];
      unfold P; cbn [committed live].
    - cbn [merge_db content_items]. rewrite Hl, <- app_assoc.
      split; eexists; reflexivity.
    - split; eexists; eassumption. }
  assert (P0 : P (start_sync run db source_id)).
  { split; exists []; symmetry; apply app_nil_r. }
  refine (proj1 (P_commit _ _)).
  change (P (snd (dispatch run (start_sync run db source_id)
                    (stamped run source)))).
  unfold sync_dispatch.
  change (DataSource.source_type (stamped run source))
    with (DataSource.source_type source).
  rewrite Htype. unfold sync_telegram_source.
  destruct (bind _ _) as [bot_token|e]; [|exact P0].
  destruct (get_updates _ _ _) as [updates|e]; [|exact P0].
  apply (invariant_reconcile P
           (fun s s' => s' = s \/ exists item, s' = add_content_item s item));
    [|exact P_commit| |exact P0].
  - intros s s' [->|[item ->]] H; exact H.
  - intros x s n u s' n' u'. unfold telegram_body.
    destruct (upd_message x) as [message|].
    + destruct (existing_item s _ _).
      * intros [= <- _ _]. left. reflexivity.
      * intros [= <- _ _]. right. eexists. reflexivity.
    + intros [= <- _ _]. left. reflexivity.
Qed.

(** *** A feed with a repeated entry *)

(** X8: When a feed carries the same new external id twice (two entries without
    [id] and [link] both get the id [""]), the loop adds both entries, the
    commit of the sync function violates [uq_content_source_external], and
    the run stores nothing: no item of the feed, no sync log, and
    [last_sync_at] stays as it was. *)
Theorem rss_repeated_entry_stores_nothing run db source_id source settings feed_url :
  find (source_by_id source_id) (data_sources db) = Some source ->
  DataSource.is_active source = true ->
  DataSource.source_type source = SourceType.RSS ->
  DataSource.settings source = Some settings ->
  dict_get settings "feed_url" = Some feed_url ->
  ~ NoDup (filter (is_new (open_session db) source)
             (map rss_external_id
                (parse_feed soup_get_text feedparser_parse run feed_url))) ->
  committed (sync_task run db source_id) = db.
Proof.
  intros Hfind Hactive Htype Hset Hurl Hdup.
  rewrite (sync_task_eq run db source_id source Hfind Hactive).
  assert (Hd : exists e s2,
             dispatch run (start_sync run db source_id) (stamped run source)
             = (Raise e, s2)
             /\ committed s2 = db /\ inactive s2 = true).
  { unfold sync_dispatch.
    change (DataSource.source_type (stamped run source))
      with (DataSource.source_type source).
    rewrite Htype. unfold sync_rss_source.
    change (DataSource.settings (stamped run source))
      with (DataSource.settings source).
    rewrite Hset. destruct settings as [|kv settings']; [discriminate|].
    rewrite Hurl.
    set (src := stamped run source).
    set (batch := parse_feed soup_get_text feedparser_parse run feed_url) in *.
    set (s0 := send (start_sync run db source_id) (FeedparserParse feed_url)).
    destruct (for_each_counts src (rss_body run src)
                (fun x => Some (rss_external_id x)) (fun _ => True))
      with (batch := batch) (s := s0) (n := 0) (u := 0)
      as (s1 & Hfor & Hlive & Hpend & Hin & _).
    - intros x st [=].
    - intros x external_id s n u [= <-] Hold.
      destruct (existing_item_old _ _ _ Hold) as (i & Hex).
      eexists. split; [|unfold rss_body; rewrite Hex; reflexivity].
      reflexivity.
    - intros x external_id s n u [= <-] Hnew _.
      eexists. split;
        [|unfold rss_body; rewrite (existing_item_new _ _ _ Hnew); reflexivity].
      reflexivity.
    - intros; exact I.
    - pose proof (invariant_for_each (fun s' => committed s' = db)
                    (item_step src)
                    (fun s1 s2 Hstep H =>
                       eq_trans (committed_item_step src s1 s2 Hstep) H)
                    (rss_body run src) batch (s0, 0, 0)
                    (rss_body_step run src) eq_refl) as Hcm.
      unfold reconcile. rewrite Hfor in *. cbn [fst snd] in Hcm.
      unfold commit_counts.
      destruct (commit_cases s1) as [(_ & [_ Hcan] & _)|([e He] & _ & Hs)].
      + exfalso. apply Hdup.
        unfold constraints_hold in Hcan.
        apply andb_true_iff in Hcan. destruct Hcan as [Hcan _].
        apply andb_true_iff in Hcan. destruct Hcan as [Hcan _].
        rewrite Hpend in Hcan.
        apply (fresh_keys_spec item_key_eqb _ _ item_key_eqb_eq) in Hcan.
        destruct Hcan as [Hnd _]. cbn [app] in Hnd.
        rewrite ids_of_some in Hnd.
        apply NoDup_map_inv in Hnd. exact Hnd.
      + destruct (commit s1) as [[u'|e'] s2]; cbn [fst snd] in *;
          [discriminate|].
        exists e', s2. split; [reflexivity|]. rewrite Hs. split; [exact Hcm|].
        reflexivity. }
  destruct Hd as (e & s2 & -> & Hcm & Hin). cbn [fst snd rollback committed].
  unfold commit. cbn [add_sync_log with_pending inactive]. rewrite Hin.
  exact Hcm.
Qed.

(** *** [sync_all_sources] after a run *)

Lemma stamped_unique source_id (f : DataSource.t -> DataSource.t) l source x :
  (forall y, DataSource.id (f y) = DataSource.id y) ->
  NoDup (map DataSource.id l) ->
  find (source_by_id source_id) l = Some source ->
  In x (update_first (source_by_id source_id) f l) ->
  DataSource.id x = source_id -> x = f source.
Proof.
  intros Hf. induction l as [|y l IH]; intros Hnd Hfind Hin Hid; [discriminate|].
  cbn [find] in Hfind. cbn [update_first] in Hin. cbn [map] in Hnd.
  inversion Hnd as [|? ? Hy Hnd']; subst.
  destruct (source_by_id (DataSource.id x) y) eqn:Hy'.
  - injection Hfind as <-. destruct Hin as [<-|Hin]; [reflexivity|].
    exfalso. apply Hy. apply N.eqb_eq in Hy'. rewrite Hy'.
    apply in_map. exact Hin.
  - destruct Hin as [<-|Hin].
    + unfold source_by_id in Hy'. rewrite N.eqb_refl in Hy'. discriminate.
    + exact (IH Hnd' Hfind Hin eq_refl).
Qed.

(** The loop of the sweep reaches the end exactly when no source it visits
    has a [last_sync_at]; the tasks it queues are for such sources. *)
Lemma queue_due_spec utcnow sources :
  (snd (queue_due utcnow sources) = Ok tt
   <-> forall source, In source sources -> DataSource.last_sync_at source = None)
  /\ (snd (queue_due utcnow sources) = Ok tt
      \/ snd (queue_due utcnow sources)
         = Raise "can't subtract offset-naive and offset-aware datetimes")
  /\ (forall task,
        In task (fst (queue_due utcnow sources)) ->
        exists source,
          In source sources
          /\ DataSource.last_sync_at source = None
          /\ task = SyncDataSource (DataSource.id source))
  /\ (snd (queue_due utcnow sources) = Ok tt ->
      fst (queue_due utcnow sources)
      = map (fun source => SyncDataSource (DataSource.id source)) sources).
Proof.
  induction sources as [|source sources (IHok & IHraise & IHtasks & IHall)].
  - cbn [queue_due fst snd map]. split; [|split; [|split]].
    + split; [intros _ source []|reflexivity].
    + left. reflexivity.
    + intros task [].
    + reflexivity.
  - cbn [queue_due]. destruct (DataSource.last_sync_at source) eqn:E.
    + cbn [datetime_sub fst snd]. split; [|split; [|split]].
      * split; [discriminate|].
        intros H. rewrite (H source (or_introl eq_refl)) in E. discriminate E.
      * right. reflexivity.
      * intros task [].
      * discriminate.
    + destruct (queue_due utcnow sources) as [tasks outcome].
      cbn [fst snd] in *. split; [|split; [|split]].
      * split.
        -- intros H source' [<-|Hin]; [exact E|]. exact (proj1 IHok H source' Hin).
        -- intros H. apply IHok. intros source' Hin.
           exact (H source' (or_intror Hin)).
      * exact IHraise.
      * intros task [<-|Hin].
        -- exists source. split; [left; reflexivity|]. split; [exact E|reflexivity].
        -- destruct (IHtasks task Hin) as (source' & Hin' & H).
           exists source'. split; [right; exact Hin'|exact H].
      * intros H. cbn [map]. rewrite (IHall H). reflexivity.
Qed.

(** X28: [sync_all_sources] subtracts the stored [last_sync_at], which is
    timezone-aware, from the naive [datetime.utcnow()].  So the sweep ends
    well exactly when no active source has a [last_sync_at], and then it
    queues every active source; otherwise it raises [TypeError].  In both
    cases the tasks it queues are for active sources that were never
    synced. *)
Theorem sweep_needs_unsynced_sources run db :
  let tasks := fst (sync_all_sources run db) in
  let outcome := snd (sync_all_sources run db) in
  (outcome = Ok tt
   <-> forall source,
         In source (data_sources db) ->
         DataSource.is_active source = true ->
         DataSource.last_sync_at source = None)
  /\ (outcome = Ok tt
      \/ outcome = Raise "can't subtract offset-naive and offset-aware datetimes")
  /\ (forall task,
        In task tasks ->
        exists source,
          In source (data_sources db)
          /\ DataSource.is_active source = true
          /\ DataSource.last_sync_at source = None
          /\ task = SyncDataSource (DataSource.id source))
  /\ (outcome = Ok tt ->
      tasks = map (fun source => SyncDataSource (DataSource.id source))
                  (filter DataSource.is_active (data_sources db))).
Proof.
  cbv zeta. unfold sync_all_sources.
  destruct (queue_due_spec (t_now run)
              (filter DataSource.is_active (data_sources db)))
    as (Hok & Hraise & Htasks & Hall).
  split; [|split; [exact Hraise|split; [|exact Hall]]].
  - rewrite Hok. split.
    + intros H source Hin Hactive. apply H. apply filter_In.
      split; assumption.
    + intros H source Hin. apply filter_In in Hin. destruct Hin as [Hin Hactive].
      exact (H source Hin Hactive).
  - intros task Hin. destruct (Htasks task Hin) as (source & Hs & Hnone & Htask).
    apply filter_In in Hs. destruct Hs as [Hs Hactive].
    exists source. repeat split; assumption.
Qed.

(** X9: After a run of [sync_data_source] that left its trace, the source
    has a [last_sync_at]: every later sweep of [sync_all_sources] raises
    [TypeError], and it does not queue that source. *)
Theorem synced_source_stops_the_sweep run run' db source_id source :
  find (source_by_id source_id) (data_sources db) = Some source ->
  NoDup (map DataSource.id (data_sources db)) ->
  committed (sync_task run db source_id) <> db ->
  snd (sync_all_sources run' (committed (sync_task run db source_id)))
  = Raise "can't subtract offset-naive and offset-aware datetimes"
  /\ ~ In (SyncDataSource source_id)
         (fst (sync_all_sources run' (committed (sync_task run db source_id)))).
Proof.
  intros Hfind Hnd Hne.
  destruct (sync_task_cases run db source_id)
    as [H|(source' & Hfind' & Hactive & _ & Hsources & _)]; [destruct (Hne H)|].
  rewrite Hfind in Hfind'. injection Hfind' as <-.
  unfold sync_all_sources. rewrite Hsources.
  assert (Hin : In (stamped run source)
                   (update_first (source_by_id source_id) (stamped run)
                      (data_sources db))).
  { clear Hnd Hsources Hne. induction (data_sources db) as [|y l IH];
      [discriminate|].
    cbn [find] in Hfind. cbn [update_first].
    destruct (source_by_id source_id y).
    - injection Hfind as <-. left. reflexivity.
    - right. exact (IH Hfind). }
  destruct (queue_due_spec (t_now run')
              (filter DataSource.is_active
                 (update_first (source_by_id source_id) (stamped run)
                    (data_sources db))))
    as (Hok & Hraise & Htasks & _).
  split.
  - destruct Hraise as [H|H]; [|exact H]. exfalso.
    assert (Hs : DataSource.last_sync_at (stamped run source) = None).
    { apply (proj1 Hok H). apply filter_In. split; [exact Hin|exact Hactive]. }
    discriminate Hs.
  - intros Htask. destruct (Htasks _ Htask) as (x & Hx & Hnone & Hid).
    apply filter_In in Hx. destruct Hx as [Hx _].
    injection Hid as Hid.
    rewrite (stamped_unique source_id (stamped run) _ source x
               (fun y => eq_refl) Hnd Hfind Hx (eq_sym Hid)) in Hnone.
    discriminate Hnone.
Qed.

(** ** The rule-based category *)

Lemma max_by_value_max {K} (best : K * Q) rest :
  exists v,
    In (max_by_value best rest, v) (best :: rest)
    /\ forall kv, In kv (best :: rest) -> (snd kv <= v)%Q.
Proof.
  revert best. induction rest as [|kv rest IH]; intros best.
  - exists (snd best). cbn [max_by_value]. split.
    + left. destruct best. reflexivity.
    + intros kv [<-|[]]. apply Qle_refl.
  - cbn [max_by_value]. destruct (Qltb (snd best) (snd kv)) eqn:E.
    + destruct (IH kv) as (v & Hin & Hmax). exists v. split.
      * right. exact Hin.
      * intros x [<-|Hx]; [|exact (Hmax x Hx)].
        apply Qltb_true in E. apply Qlt_le_weak.
        apply Qlt_le_trans with (snd kv); [exact E|].
        apply Hmax. left. reflexivity.
    + destruct (IH best) as (v & Hin & Hmax). exists v. split.
      * destruct Hin as [Hin|Hin]; [left; exact Hin|right; right; exact Hin].
      * intros x [<-|[<-|Hx]].
        -- apply Hmax. left. reflexivity.
        -- apply Qltb_false in E. apply Qle_trans with (snd best); [exact E|].
           apply Hmax. left. reflexivity.
        -- apply Hmax. right. exact Hx.
Qed.

Lemma matches_positive text keywords kw :
  In kw keywords -> str_in kw text = true -> (0 < matches text keywords)%nat.
Proof.
  intros Hin Hkw. unfold matches.
  assert (H : In kw (filter (fun keyword => str_in keyword text) keywords)).
  { apply filter_In. split; assumption. }
  destruct (filter _ keywords); [destruct H|cbn; lia].
Qed.

Lemma matches_zero text keywords kw :
  matches text keywords = 0%nat -> In kw keywords -> str_in kw text = false.
Proof.
  intros H Hin. destruct (str_in kw text) eqn:E; [|reflexivity].
  pose proof (matches_positive text keywords kw Hin E). lia.
Qed.

(** A keyword list of at most 19 words scores above 1/10 as soon as one of
    its words occurs. *)
Lemma score_of_matches (m n : nat) :
  (0 < m)%nat -> (0 < n <= 19)%nat ->
  (1 # 10 < Qmin (inject_Z (Z.of_nat m) / inject_Z (Z.of_nat n) * 2) 1)%Q.
Proof.
  intros Hm Hn. apply Q.min_glb_lt; [|reflexivity].
  unfold Qlt, Qdiv, Qmult, Qinv, inject_Z.
  destruct n as [|n]; [lia|]. cbn.
  rewrite Pos.mul_1_r. rewrite Zpos_P_of_succ_nat. lia.
Qed.

Lemma score_positive text keywords kw :
  (List.length keywords <= 19)%nat ->
  In kw keywords -> str_in kw text = true ->
  (1 # 10 < _calculate_score text keywords)%Q.
Proof.
  intros Hlen Hin Hkw. unfold _calculate_score.
  destruct keywords as [|k keywords]; [destruct Hin|].
  apply score_of_matches.
  - exact (matches_positive text _ kw Hin Hkw).
  - cbn [List.length] in *. lia.
Qed.

Lemma score_small text keywords kw :
  (List.length keywords <= 19)%nat ->
  (_calculate_score text keywords <= 1 # 10)%Q ->
  In kw keywords -> str_in kw text = false.
Proof.
  intros Hlen Hle Hin. destruct (str_in kw text) eqn:E; [|reflexivity].
  pose proof (score_positive text keywords kw Hlen Hin E) as H.
  destruct (Qlt_not_le _ _ H Hle).
Qed.

Lemma keywords_of_length c : (List.length (keywords_of c) <= 19)%nat.
Proof. destruct c; cbn; lia. Qed.

Lemma CategoryType_eq_other (c : CategoryType.t) :
  c = CategoryType.OTHER \/ c <> CategoryType.OTHER.
Proof. destruct c; (left; reflexivity) || (right; discriminate). Qed.

Lemma score_none text keywords :
  (forall kw, In kw keywords -> str_in kw text = false) ->
  (_calculate_score text keywords == 0)%Q.
Proof.
  intros H. unfold _calculate_score.
  destruct keywords as [|k l]; [reflexivity|].
  rewrite (matches_none text (k :: l) H).
  change (inject_Z (Z.of_nat 0)) with 0%Q. unfold Qdiv.
  rewrite !Qmult_0_l. reflexivity.
Qed.

Lemma half_of_unit (i : Q) : (i <= 1)%Q -> (i * (1 # 2) + 0 * (1 # 2) <= 1 # 2)%Q.
Proof.
  destruct i as [a b]. unfold Qle, Qplus, Qmult. cbn.
  rewrite ?Pos2Z.inj_mul. lia.
Qed.

(** X10: The category of the rule-based classifier is OTHER exactly when no
    keyword of any category occurs in the text, and in every case no
    category has a higher keyword score than the one chosen. *)
Theorem rule_based_category_is_best content :
  let text := full_text str_lower content in
  let c := category (rule_based content) in
  (c = CategoryType.OTHER <->
   forall kw, In kw category_keywords -> str_in kw text = false)
  /\ forall c',
       (_calculate_score text (keywords_of c')
        <= _calculate_score text (keywords_of c))%Q.
Proof.
  cbv zeta.
  assert (Hnone : (forall kw, In kw category_keywords ->
                              str_in kw (full_text str_lower content) = false) ->
                  category (rule_based content) = CategoryType.OTHER).
  { intros H. exact (proj1 (no_keywords_scores content H)). }
  unfold RuleBasedClassifier_classify in *. cbn [category] in *.
  set (t := full_text str_lower content) in *.
  match goal with
  | |- context [max_by_value ?b ?r] =>
      destruct (max_by_value_max b r) as (v & Hin & Hmax);
      generalize dependent (max_by_value b r)
  end.
  intros c Hnone Hin.
  assert (Hle : forall c', c' <> CategoryType.OTHER ->
                           (_calculate_score t (keywords_of c') <= v)%Q).
  { intros c' Hc'. destruct c'; cbn [keywords_of].
    - exact (Hmax (CategoryType.PERSONAL, _) (or_intror (or_introl eq_refl))).
    - exact (Hmax (CategoryType.WORK, _) (or_introl eq_refl)).
    - exact (Hmax (CategoryType.HOBBY, _)
               (or_intror (or_intror (or_introl eq_refl)))).
    - exact (Hmax (CategoryType.NEWS, _)
               (or_intror (or_intror (or_intror (or_introl eq_refl))))).
    - exact (Hmax (CategoryType.IMPORTANT, _)
               (or_intror (or_intror (or_intror (or_intror (or_introl eq_refl)))))).
    - destruct (Hc' eq_refl). }
  assert (Hother : c = CategoryType.OTHER ->
                   forall c' kw, In kw (keywords_of c') -> str_in kw t = false).
  { intros Hc. subst c.
    assert (Hv : v = (1 # 10)%Q).
    { destruct Hin as [Hin|[Hin|[Hin|[Hin|[Hin|[Hin|[]]]]]]];
        try discriminate Hin.
      injection Hin as <-. reflexivity. }
    intros c' kw Hkw. destruct (CategoryType_eq_other c') as [->|Hc'];
      [destruct Hkw|].
    apply (score_small t (keywords_of c') kw (keywords_of_length c'));
      [|exact Hkw].
    rewrite <- Hv. exact (Hle c' Hc'). }
  split.
  - split; [|exact Hnone].
    intros Hc kw Hkw. unfold category_keywords in Hkw.
    rewrite !in_app_iff in Hkw.
    destruct Hkw as [Hkw|[Hkw|[Hkw|[Hkw|Hkw]]]].
    + exact (Hother Hc CategoryType.WORK kw Hkw).
    + exact (Hother Hc CategoryType.PERSONAL kw Hkw).
    + exact (Hother Hc CategoryType.HOBBY kw Hkw).
    + exact (Hother Hc CategoryType.NEWS kw Hkw).
    + exact (Hother Hc CategoryType.IMPORTANT kw Hkw).
  - intros c'.
    destruct (CategoryType_eq_other c) as [Hc|Hc].
    + rewrite Hc. cbn [keywords_of].
      rewrite (score_none t (keywords_of c') (Hother Hc c')).
      apply Qle_refl.
    + assert (Hv : (v == _calculate_score t (keywords_of c))%Q).
      { destruct Hin as [Hin|[Hin|[Hin|[Hin|[Hin|[Hin|[]]]]]]];
          injection Hin as Hc0 Hv0; subst c v;
          solve [apply Qeq_refl | destruct (Hc eq_refl)]. }
      rewrite <- Hv.
      destruct (CategoryType_eq_other c') as [->|Hc']; [|exact (Hle c' Hc')].
      cbn [keywords_of _calculate_score]. rewrite Hv.
      exact (proj1 (calculate_score_range t (keywords_of c))).
Qed.

(** X11: An item in which only IMPORTANT keywords occur is put in the category
    IMPORTANT with relevance 0: the relevance score looks at the work,
    personal, hobby and news keywords only, and the importance score is then
    at most 1/2. *)
Theorem important_keywords_give_no_relevance content kw :
  (forall k,
     In k (WORK_KEYWORDS ++ PERSONAL_KEYWORDS ++ HOBBY_KEYWORDS ++ NEWS_KEYWORDS) ->
     str_in k (full_text str_lower content) = false) ->
  In kw IMPORTANT_KEYWORDS ->
  str_in kw (full_text str_lower content) = true ->
  category (rule_based content) = CategoryType.IMPORTANT
  /\ (relevance_score (rule_based content) == 0)%Q
  /\ (importance_score (rule_based content) <= 1 # 2)%Q.
Proof.
  intros Hnone Hin Hkw.
  unfold RuleBasedClassifier_classify.
  cbn [category relevance_score importance_score].
  set (t := full_text str_lower content) in *.
  assert (Hw : (_calculate_score t WORK_KEYWORDS == 0)%Q).
  { apply score_none. intros k Hk. apply Hnone. rewrite !in_app_iff. auto. }
  assert (Hp : (_calculate_score t PERSONAL_KEYWORDS == 0)%Q).
  { apply score_none. intros k Hk. apply Hnone. rewrite !in_app_iff. auto. }
  assert (Hh : (_calculate_score t HOBBY_KEYWORDS == 0)%Q).
  { apply score_none. intros k Hk. apply Hnone. rewrite !in_app_iff. auto. }
  assert (Hn : (_calculate_score t NEWS_KEYWORDS == 0)%Q).
  { apply score_none. intros k Hk. apply Hnone. rewrite !in_app_iff. auto. }
  pose proof (score_positive t IMPORTANT_KEYWORDS kw
                (keywords_of_length CategoryType.IMPORTANT) Hin Hkw) as Hi.
  pose proof (calculate_score_range t IMPORTANT_KEYWORDS) as [_ Hi1].
  clear Hnone Hin Hkw.
  generalize dependent (_calculate_score t IMPORTANT_KEYWORDS).
  generalize dependent (_calculate_score t NEWS_KEYWORDS).
  generalize dependent (_calculate_score t HOBBY_KEYWORDS).
  generalize dependent (_calculate_score t PERSONAL_KEYWORDS).
  generalize dependent (_calculate_score t WORK_KEYWORDS).
  intros w Hw p Hp h Hh n Hn i Hi Hi1.
  assert (Hr : (Qmax (Qmax (Qmax w p) h) n == 0)%Q).
  { rewrite Hw, Hp, Hh, Hn. reflexivity. }
  split; [|split].
  - cbn [max_by_value fst snd].
    assert (E1 : Qltb w p = false).
    { apply Qltb_false. rewrite Hw, Hp. apply Qle_refl. }
    rewrite E1.
    assert (E2 : Qltb w h = false).
    { apply Qltb_false. rewrite Hw, Hh. apply Qle_refl. }
    rewrite E2.
    assert (E3 : Qltb w n = false).
    { apply Qltb_false. rewrite Hw, Hn. apply Qle_refl. }
    rewrite E3.
    assert (E4 : Qltb w i = true).
    { apply Qltb_true. rewrite Hw.
      apply Qlt_trans with (1 # 10)%Q; [reflexivity|exact Hi]. }
    rewrite E4.
    assert (E5 : Qltb i (1 # 10) = false).
    { apply Qltb_false. apply Qlt_le_weak. exact Hi. }
    rewrite E5. reflexivity.
  - rewrite Hr. reflexivity.
  - rewrite Hr. apply Qle_trans with (i * (1 # 2) + 0 * (1 # 2))%Q;
      [apply Q.le_min_l|]. exact (half_of_unit i Hi1).
Qed.

(** ** [Counter] and [_extract_topics] *)

Lemma count_of_add c w k :
  count_of (counter_add c w) k
  = (count_of c k + if String.eqb w k then 1 else 0)%nat.
Proof.
  induction c as [|[k0 n] c IH]; cbn [counter_add].
  - unfold count_of. cbn [find fst]. destruct (String.eqb w k); reflexivity.
  - destruct (String.eqb k0 w) eqn:E0.
    + apply String.eqb_eq in E0. subst k0. unfold count_of. cbn [find fst].
      destruct (String.eqb w k); cbn [snd]; lia.
    + unfold count_of in *. cbn [find fst].
      destruct (String.eqb k0 k) eqn:E1.
      * apply String.eqb_eq in E1. subst k0. rewrite String.eqb_sym, E0.
        cbn [snd]. lia.
      * exact IH.
Qed.

Lemma counter_add_keys c w k :
  In k (map fst (counter_add c w)) <-> k = w \/ In k (map fst c).
Proof.
  induction c as [|[k0 n] c IH]; cbn [counter_add].
  - cbn. split; [intros [H|[]]; left; congruence|intros [H|[]]; left; congruence].
  - destruct (String.eqb k0 w) eqn:E0.
    + apply String.eqb_eq in E0. subst k0. cbn [map fst In].
      split; [intros [H|H]; [left; congruence|right; right; exact H]
             |intros [H|[H|H]]; [left; congruence|left; exact H|right; exact H]].
    + cbn [map fst In]. rewrite IH.
      split; [intros [H|[H|H]]; auto|intros [H|[H|H]]; auto].
Qed.

Lemma counter_add_nodup c w :
  NoDup (map fst c) -> NoDup (map fst (counter_add c w)).
Proof.
  induction c as [|[k0 n] c IH]; cbn [counter_add]; intros H.
  - cbn. constructor; [intros []|constructor].
  - destruct (String.eqb k0 w) eqn:E0; [exact H|].
    cbn [map fst] in *. inversion H as [|? ? Hk0 Hc]; subst.
    constructor; [|exact (IH Hc)].
    intros Hin. apply counter_add_keys in Hin. destruct Hin as [->|Hin].
    + rewrite String.eqb_refl in E0. discriminate.
    + exact (Hk0 Hin).
Qed.

Lemma fold_counter words :
  forall c,
    NoDup (map fst c) ->
    NoDup (map fst (fold_left counter_add words c))
    /\ (forall k, count_of (fold_left counter_add words c) k
                  = (count_of c k + occurrences words k)%nat)
    /\ (forall k, In k (map fst (fold_left counter_add words c))
                  <-> In k (map fst c) \/ In k words).
Proof.
  induction words as [|w words IH]; intros c Hc; cbn [fold_left].
  - split; [exact Hc|]. split.
    + intros k. unfold occurrences. cbn. lia.
    + intros k. cbn. split; [auto|intros [H|[]]; exact H].
  - destruct (IH (counter_add c w) (counter_add_nodup c w Hc)) as (H1 & H2 & H3).
    split; [exact H1|]. split.
    + intros k. rewrite H2, count_of_add. unfold occurrences.
      cbn [count_occ]. destruct (string_dec w k) as [->|Hne].
      * rewrite String.eqb_refl. lia.
      * apply String.eqb_neq in Hne. rewrite Hne. lia.
    + intros k. rewrite H3, counter_add_keys. cbn [In].
      split; [intros [[H|H]|H]; auto|intros [H|[H|H]]; auto].
Qed.

Lemma Counter_spec words :
  NoDup (map fst (Counter words))
  /\ (forall k, count_of (Counter words) k = occurrences words k)
  /\ (forall k, In k (map fst (Counter words)) <-> In k words).
Proof.
  destruct (fold_counter words [] (NoDup_nil _)) as (H1 & H2 & H3).
  split; [exact H1|]. split.
  - intros k. exact (H2 k).
  - intros k. rewrite (H3 k). cbn. split; [intros [[]|H]; exact H|auto].
Qed.

Lemma In_count_of c k n :
  NoDup (map fst c) -> In (k, n) c -> count_of c k = n.
Proof.
  induction c as [|[k0 n0] c IH]; intros Hnd Hin; [destruct Hin|].
  cbn [map fst] in Hnd. inversion Hnd as [|? ? Hk0 Hc]; subst.
  unfold count_of in *. cbn [find fst]. destruct Hin as [Hin|Hin].
  - injection Hin as -> ->. rewrite String.eqb_refl. reflexivity.
  - destruct (String.eqb k0 k) eqn:E.
    + apply String.eqb_eq in E. subst k0. exfalso. apply Hk0.
      apply (in_map fst) in Hin. exact Hin.
    + exact (IH Hc Hin).
Qed.

Lemma sorted_prefix_dominates {A} (R : A -> A -> Prop) l1 l2 a b :
  StronglySorted R (l1 ++ l2) -> In a l1 -> In b l2 -> R a b.
Proof.
  induction l1 as [|x l1 IH]; intros Hs Ha Hb; [destruct Ha|].
  cbn [app] in Hs. inversion Hs as [|? ? Hs' Hx]; subst.
  destruct Ha as [->|Ha].
  - rewrite Forall_forall in Hx. apply Hx. apply in_or_app. right. exact Hb.
  - exact (IH Hs' Ha Hb).
Qed.

Lemma NoDup_firstn {A} n (l : list A) : NoDup l -> NoDup (firstn n l).
Proof.
  intros H. rewrite <- (firstn_skipn n l) in H.
  exact (NoDup_app_remove_r _ _ H).
Qed.

(** X12: [_extract_topics] returns at most five words of the text, each once; a
    word of the text is left out only when five topics were found, and then
    it occurs no more often than any of the topics. *)
Theorem extract_topics_most_frequent text :
  let words := findall_words (str_lower text) in
  let topics := _extract_topics str_lower findall_words text in
  (List.length topics <= 5)%nat
  /\ NoDup topics
  /\ (forall t, In t topics -> In t words)
  /\ (forall w, In w words -> ~ In w topics ->
        List.length topics = 5%nat
        /\ forall t, In t topics ->
             (occurrences words w <= occurrences words t)%nat).
Proof.
  cbv zeta. unfold _extract_topics, most_common.
  set (words := findall_words (str_lower text)).
  set (gtb := fun a b : string * nat => Nat.ltb (snd b) (snd a)).
  destruct (Counter_spec words) as (Hnd & Hcount & Hkeys).
  set (c := Counter words) in *.
  pose proof (sort_desc_perm gtb c) as Hperm.
  assert (Hsorted : StronglySorted (fun a b => gtb b a = false) (sort_desc gtb c)).
  { apply sort_desc_sorted; unfold gtb.
    - intros a b H. apply Nat.ltb_lt in H. apply Nat.ltb_ge. lia.
    - intros a b x H1 H2. apply Nat.ltb_ge in H1, H2. apply Nat.ltb_ge. lia. }
  set (sorted := sort_desc gtb c) in *.
  assert (Hnd' : NoDup (map fst sorted)).
  { exact (Permutation_NoDup
             (Permutation_map fst (Permutation_sym Hperm)) Hnd). }
  split; [rewrite length_map; apply firstn_le_length|].
  split; [rewrite <- firstn_map; apply NoDup_firstn, Hnd'|].
  split.
  - intros t Ht. apply in_map_iff in Ht. destruct Ht as ([t' n] & <- & Hin).
    apply Hkeys. apply In_firstn in Hin.
    apply (Permutation_in _ Hperm) in Hin.
    exact (in_map fst _ _ Hin).
  - intros w Hw Hout.
    apply Hkeys in Hw. apply in_map_iff in Hw.
    destruct Hw as ([w' m] & Hw' & Hin). cbn [fst] in Hw'. subst w'.
    pose proof (In_count_of c w m Hnd Hin) as Hm.
    apply (Permutation_in _ (Permutation_sym Hperm)) in Hin.
    rewrite <- (firstn_skipn 5 sorted) in Hin, Hsorted.
    apply in_app_or in Hin. destruct Hin as [Hin|Hin].
    { destruct Hout. exact (in_map fst _ _ Hin). }
    split.
    + rewrite length_map. apply firstn_length_le.
      destruct (Nat.le_gt_cases 5 (List.length sorted)) as [H|H]; [exact H|].
      rewrite skipn_all2 in Hin; [destruct Hin|lia].
    + intros t Ht. apply in_map_iff in Ht.
      destruct Ht as ([t' n] & Ht' & Hin'). cbn [fst] in Ht'. subst t'.
      pose proof (sorted_prefix_dominates _ _ _ _ _ Hsorted Hin' Hin) as Hle.
      unfold gtb in Hle. cbn [snd] in Hle. apply Nat.ltb_ge in Hle.
      apply In_firstn in Hin'. apply (Permutation_in _ Hperm) in Hin'.
      rewrite <- (Hcount w), <- (Hcount t), Hm,
        (In_count_of c t n Hnd Hin').
      exact Hle.
Qed.

(** ** What the query of the selector returns

    The selector raises at its second import; what follows is about the
    statements after the imports, [select_query]. *)

Lemma select_rows db user max_items utcnow l item :
  select_query db user max_items utcnow = Ok l ->
  In item l ->
  exists c, In (item, c) (candidates db user utcnow).
Proof.
  intros Hsel Hin.
  destruct (select_query_threshold _ _ _ _ _ Hsel) as (m & Hm).
  rewrite (select_query_rows db user max_items utcnow m Hm) in Hsel.
  unfold limit, slice_to in Hsel.
  destruct (_ <? 0); [discriminate|]. cbn [bind] in Hsel.
  injection Hsel as <-.
  assert (Hrows : In item (map fst (sort_desc rank_gtb (candidates db user utcnow)))).
  { destruct (0 <=? _); apply In_firstn in Hin;
      apply filter_In in Hin as [Hin _]; apply In_firstn in Hin; exact Hin. }
  apply in_map_iff in Hrows as ([i c] & <- & Hrow).
  apply (Permutation_in _ (sort_desc_perm rank_gtb _)) in Hrow.
  exists c. exact Hrow.
Qed.

(** X13: Every item the query of the selector returns is a stored,
    classified item of an active source of the user, published in the last
    24 hours, whose relevance reaches the user's threshold. *)
Theorem selected_items_are_eligible db user max_items utcnow l item :
  select_query db user max_items utcnow = Ok l ->
  In item l ->
  exists c source m,
    In item (content_items db)
    /\ ContentItem.classification item = Some c
    /\ In source (data_sources db)
    /\ DataSource.id source = ContentItem.source_id item
    /\ DataSource.user_id source = User.id user
    /\ DataSource.is_active source = true
    /\ utcnow - hours 24 <= ContentItem.published_at item
    /\ min_relevance_of db user = Some m
    /\ (m <= ContentClassification.relevance_score c)%Q.
Proof.
  intros Hsel Hin.
  destruct (select_rows _ _ _ _ _ _ Hsel Hin) as (c & Hrow).
  unfold candidates in Hrow.
  destruct (min_relevance_of db user) as [m|]; [|destruct Hrow].
  apply filter_In in Hrow. destruct Hrow as [Hjoin Hc].
  apply join_classification_spec in Hjoin. cbn [fst snd] in Hjoin.
  destruct Hjoin as [Hitem Hclass].
  unfold is_candidate in Hc. cbn [fst snd] in Hc.
  apply andb_true_iff in Hc. destruct Hc as [Hc Hrel].
  apply andb_true_iff in Hc. destruct Hc as [Hsrc Htime].
  apply existsb_exists in Hsrc. destruct Hsrc as (id & Hid & Heq).
  apply N.eqb_eq in Heq. unfold active_source_ids in Hid.
  apply in_map_iff in Hid. destruct Hid as (source & Hsid & Hsource).
  apply filter_In in Hsource. destruct Hsource as [Hsource Hs].
  apply andb_true_iff in Hs. destruct Hs as [Huser Hactive].
  apply N.eqb_eq in Huser. apply Z.leb_le in Htime.
  apply Qle_bool_iff in Hrel.
  exists c, source, m. repeat split; try assumption. congruence.
Qed.

Lemma Forall_firstn {A} (P : A -> Prop) n l : Forall P l -> Forall P (firstn n l).
Proof.
  intros H. apply Forall_forall. intros x Hx. apply In_firstn in Hx.
  rewrite Forall_forall in H. exact (H x Hx).
Qed.

Lemma select_prefix db user max_items utcnow m :
  min_relevance_of db user = Some m ->
  0 < max_items_or_default max_items ->
  select_query db user max_items utcnow
  = Ok (firstn (Z.to_nat (max_items_or_default max_items))
          (map fst (sort_desc rank_gtb (candidates db user utcnow)))).
Proof.
  intros Hm Hpos. rewrite (select_query_eq db user max_items utcnow m Hm Hpos).
  rewrite filter_all
    by (apply Forall_firstn, ordered_candidates_truthy).
  rewrite firstn_firstn. f_equal. f_equal. lia.
Qed.

(** X14: With a positive bound, the query of the selector leaves a
    candidate out only when the selection is full, and then every selected
    item ranks at least as high as the candidate (relevance first,
    importance second). *)
Theorem selection_takes_the_best db user max_items utcnow l row :
  0 < max_items_or_default max_items ->
  select_query db user max_items utcnow = Ok l ->
  In row (candidates db user utcnow) ->
  ~ In (fst row) l ->
  Z.of_nat (List.length l) = max_items_or_default max_items
  /\ forall item, In item l -> rank_ge item (fst row).
Proof.
  intros Hpos Hsel Hrow Hout.
  destruct (select_query_threshold _ _ _ _ _ Hsel) as (threshold & Hm).
  rewrite (select_prefix db user max_items utcnow threshold Hm Hpos) in Hsel.
  injection Hsel as <-.
  set (m := Z.to_nat (max_items_or_default max_items)) in *.
  pose proof (ordered_candidates_sorted db user utcnow) as Hsorted.
  set (rows := map fst (sort_desc rank_gtb (candidates db user utcnow))) in *.
  assert (Hin : In (fst row) rows).
  { apply in_map.
    exact (Permutation_in _ (Permutation_sym (sort_desc_perm rank_gtb _)) Hrow). }
  rewrite <- (firstn_skipn m rows) in Hin, Hsorted.
  apply in_app_or in Hin. destruct Hin as [Hin|Hin]; [destruct (Hout Hin)|].
  split.
  - destruct (Nat.le_gt_cases m (List.length rows)) as [H|H].
    + rewrite (firstn_length_le rows H). unfold m. lia.
    + rewrite skipn_all2 in Hin; [destruct Hin|lia].
  - intros item Hitem.
    exact (sorted_prefix_dominates _ _ _ _ _ Hsorted Hitem Hin).
Qed.


(** ** What the briefing functions keep *)

Local Abbreviation generate_steps :=
  (generate str_slice_to summary_reply ELEVENLABS_API_KEY
     _generate_with_elevenlabs _generate_with_openai STORAGE_TYPE write_file
     format_2f).
Local Abbreviation commit_and_generate_steps :=
  (commit_and_generate str_slice_to summary_reply ELEVENLABS_API_KEY
     _generate_with_elevenlabs _generate_with_openai STORAGE_TYPE write_file
     format_2f).

Lemma update_first_map {A B} (g : A -> B) (p : A -> bool) f l :
  (forall x, g (f x) = g x) -> map g (update_first p f l) = map g l.
Proof.
  intros Hf. induction l as [|x l IH]; cbn [update_first map]; [reflexivity|].
  destruct (p x); cbn [map]; [rewrite Hf; reflexivity|rewrite IH; reflexivity].
Qed.

Lemma briefing_key_eqb_eq a b : briefing_key_eqb a b = true <-> a = b.
Proof.
  destruct a as [u d], b as [u' d']. unfold briefing_key_eqb. cbn [fst snd].
  rewrite andb_true_iff, N.eqb_eq, Z.eqb_eq.
  split; [intros [-> ->]; reflexivity|intros [= -> ->]; split; reflexivity].
Qed.

(** A property of the session that an assignment to a briefing which keeps
    its user and date, the addition of a briefing and a commit keep is kept
    by the API functions; if the addition of a link keeps it too, it is kept
    by the generation task. *)
Section BriefingSteps.

Variable P : Session -> Prop.

Hypothesis P_update :
  forall s this f,
    (forall b, briefing_key (f b) = briefing_key b) ->
    P s -> P (update_briefing s this f).
Hypothesis P_add : forall s b, P s -> P (add_briefing s b).
Hypothesis P_commit : forall s, P s -> P (snd (commit s)).

Lemma steps_trigger run db current_user target_date :
  P (open_session db) ->
  exists s,
    P s
    /\ snd (trigger_briefing_generation run db current_user target_date)
       = committed s.
Proof using P_update P_add P_commit.
  intros H0. unfold trigger_briefing_generation. cbv zeta.
  cbn [open_session live].
  set (this := briefing_for (User.id current_user)
                 (get_default target_date (today run))).
  destruct (find this (briefings db)) as [existing|].
  - destruct (BriefingStatus.eqb _ _).
    + exists (open_session db). split; [exact H0|reflexivity].
    + match goal with
      | |- context [commit ?s1] =>
          assert (H1 : P (snd (commit s1)))
            by (apply P_commit, P_update; [reflexivity|exact H0]);
          destruct (commit s1) as [[u|e] s2]
      end; cbn [snd] in H1.
      * exists s2. split; [exact H1|].
        destruct (find _ (briefings (live s2))); reflexivity.
      * exists s2. split; [exact H1|reflexivity].
  - match goal with
    | |- context [commit ?s1] =>
        assert (H1 : P (snd (commit s1)))
          by (apply P_commit, P_add; exact H0);
        destruct (commit s1) as [[u|e] s2]
    end; cbn [snd] in H1.
    + exists s2. split; [exact H1|].
      destruct (find _ (briefings (live s2))); reflexivity.
    + exists s2. split; [exact H1|reflexivity].
Qed.

Lemma steps_mark run db briefing_id current_user :
  P (open_session db) ->
  exists s,
    P s
    /\ snd (mark_briefing_delivered run db briefing_id current_user)
       = committed s.
Proof using P_update P_commit.
  intros H0. unfold mark_briefing_delivered. cbv zeta.
  cbn [open_session live].
  destruct (find _ (briefings db)) as [b|].
  - match goal with
    | |- context [commit ?s1] =>
        assert (H1 : P (snd (commit s1)))
          by (apply P_commit, P_update; [reflexivity|exact H0]);
        destruct (commit s1) as [[u|e] s2]
    end; cbn [snd] in H1.
    + exists s2. split; [exact H1|].
      destruct (find _ (briefings (live s2))); reflexivity.
    + exists s2. split; [exact H1|reflexivity].
  - exists (open_session db). split; [exact H0|reflexivity].
Qed.

Hypothesis P_link : forall s l, P s -> P (add_briefing_content s l).

Lemma steps_links briefing_id rows s :
  P s -> P (snd (for_each (link_body format_2f briefing_id) rows s)).
Proof using P_link.
  revert s. induction rows as [|[order item] rows IH]; intros s H; [exact H|].
  cbn [for_each]. unfold link_body at 1.
  destruct (ContentItem.classification item); [|exact H].
  apply IH, P_link, H.
Qed.

Lemma steps_generate run s user this briefing_id :
  P s -> P (snd (generate_steps run s user this briefing_id)).
Proof using P_update P_commit P_link.
  intros H. unfold generate.
  destruct (select_content_for_briefing _ _ _ _) as [[|item items]|e];
    [apply P_commit, P_update; [reflexivity|exact H]| |exact H].
  destruct (bind _ _) as [audio_url|e]; [|exact H].
  cbv zeta.
  match goal with
  | |- context [for_each ?body ?rows ?s0] =>
      pose proof (steps_links briefing_id rows s0) as Hlinks;
      destruct (for_each body rows s0) as [[u|e] s']
  end.
  - apply P_commit. apply Hlinks. apply P_update; [reflexivity|exact H].
  - apply Hlinks. apply P_update; [reflexivity|exact H].
Qed.

Lemma steps_commit_and_generate run s user this briefing_id :
  P s ->
  exists s',
    P s'
    /\ snd (commit_and_generate_steps run s user this briefing_id)
       = committed s'.
Proof using P_update P_commit P_link.
  intros H. unfold commit_and_generate.
  pose proof (P_commit s H) as H1.
  destruct (commit s) as [[u|e] s1]; cbn [snd] in H1;
    [|exists s1; split; [exact H1|reflexivity]].
  pose proof (steps_generate run s1 user this briefing_id H1) as H2.
  destruct (generate _ _ _ _ _ _ _ _ _ _ _ _ _) as [[u'|e] s2];
    cbn [snd] in H2; [exists s2; split; [exact H2|reflexivity]|].
  pose proof (P_commit _ (P_update s2 this (fail_with e) (fun b => eq_refl) H2))
    as H3.
  destruct (commit _) as [[u'|e'] s3]; cbn [snd] in H3;
    exists s3; (split; [exact H3|reflexivity]).
Qed.

Lemma steps_generate_briefing run db user_id briefing_date :
  P (open_session db) ->
  exists s,
    P s
    /\ snd (generate_briefing_task run db user_id briefing_date) = committed s.
Proof using P_update P_add P_commit P_link.
  intros H0. unfold generate_briefing. cbn [open_session live].
  destruct (find _ (users db)) as [user|];
    [|exists (open_session db); split; [exact H0|reflexivity]].
  destruct (negb (User.is_active user));
    [exists (open_session db); split; [exact H0|reflexivity]|].
  cbv zeta.
  destruct (find _ (briefings db)) as [existing|].
  - destruct (BriefingStatus.eqb _ _);
      [exists (open_session db); split; [exact H0|reflexivity]|].
    apply steps_commit_and_generate. apply P_update; [reflexivity|exact H0].
  - apply steps_commit_and_generate. apply P_add. exact H0.
Qed.

End BriefingSteps.

Lemma commit_briefings_unique s :
  briefings_unique (committed s) /\ briefings_unique (live s) ->
  briefings_unique (committed (snd (commit s)))
  /\ briefings_unique (live (snd (commit s))).
Proof.
  intros [Hc Hl].
  destruct (commit_cases s) as [(_ & [_ Hcan] & ->)|(_ & _ & ->)].
  - cbn [committed live].
    assert (H : briefings_unique (merge_db (live s) (pending s))).
    { unfold briefings_unique. cbn [merge_db briefings]. rewrite map_app.
      unfold constraints_hold in Hcan.
      apply andb_true_iff in Hcan. destruct Hcan as [Hcan _].
      apply andb_true_iff in Hcan. destruct Hcan as [_ Hcan].
      exact (fresh_keys_app briefing_key_eqb _ _ briefing_key_eqb_eq Hcan Hl). }
    split; exact H.
  - split; assumption.
Qed.

Lemma update_briefings_unique s this f :
  (forall b, briefing_key (f b) = briefing_key b) ->
  briefings_unique (committed s) /\ briefings_unique (live s) ->
  briefings_unique (committed (update_briefing s this f))
  /\ briefings_unique (live (update_briefing s this f)).
Proof.
  intros Hf [Hc Hl]. split; [exact Hc|].
  unfold briefings_unique, update_briefing.
  cbn [with_live live set_briefings briefings].
  rewrite (update_first_map briefing_key this f _ Hf). exact Hl.
Qed.

(** X16: The generation task, the API trigger and the delivery acknowledgment
    keep [(user_id, date)] unique among the briefings. *)
Theorem briefings_stay_unique run db :
  briefings_unique db ->
  (forall user_id briefing_date,
     briefings_unique (snd (generate_briefing_task run db user_id briefing_date)))
  /\ (forall current_user target_date,
        briefings_unique
          (snd (trigger_briefing_generation run db current_user target_date)))
  /\ (forall briefing_id current_user,
        briefings_unique
          (snd (mark_briefing_delivered run db briefing_id current_user))).
Proof.
  intros Hdb.
  set (P := fun s => briefings_unique (committed s) /\ briefings_unique (live s)).
  assert (P_update : forall s this f,
             (forall b, briefing_key (f b) = briefing_key b) ->
             P s -> P (update_briefing s this f)).
  { intros s this f. apply update_briefings_unique. }
  assert (P_add : forall s b, P s -> P (add_briefing s b)).
  { intros s b H. exact H. }
  assert (P_link : forall s l, P s -> P (add_briefing_content s l)).
  { intros s l H. exact H. }
  assert (P0 : P (open_session db)) by (split; exact Hdb).
  split; [|split].
  - intros user_id briefing_date.
    destruct (steps_generate_briefing P P_update P_add commit_briefings_unique
                P_link run db user_id briefing_date P0) as (s & [Hs _] & ->).
    exact Hs.
  - intros current_user target_date.
    destruct (steps_trigger P P_update P_add commit_briefings_unique
                run db current_user target_date P0) as (s & [Hs _] & ->).
    exact Hs.
  - intros briefing_id current_user.
    destruct (steps_mark P P_update commit_briefings_unique
                run db briefing_id current_user P0) as (s & [Hs _] & ->).
    exact Hs.
Qed.

Lemma appended_refl {A} (l : list A) : appended l l.
Proof. exists []. symmetry. apply app_nil_r. Qed.

(** X17: The generation task writes briefings and briefing links only, and it
    only appends links; the API trigger and the delivery acknowledgment
    write briefings only. *)
Theorem briefing_functions_write_briefings_only run db :
  (forall user_id briefing_date,
     let db' := snd (generate_briefing_task run db user_id briefing_date) in
     content_tables db' = content_tables db
     /\ appended (briefing_content db) (briefing_content db'))
  /\ (forall current_user target_date,
        let db' := snd (trigger_briefing_generation run db current_user
                          target_date) in
        content_tables db' = content_tables db
        /\ briefing_content db' = briefing_content db)
  /\ (forall briefing_id current_user,
        let db' := snd (mark_briefing_delivered run db briefing_id
                          current_user) in
        content_tables db' = content_tables db
        /\ briefing_content db' = briefing_content db).
Proof.
  set (F := fun s =>
              content_tables (committed s) = content_tables db
              /\ content_tables (live s) = content_tables db
              /\ content_tables (pending s) = empty_db).
  assert (F_commit : forall s, F s -> F (snd (commit s))).
  { intros s (H1 & H2 & H3).
    destruct (commit_cases s) as [(_ & _ & ->)|(_ & _ & ->)];
      unfold F; cbn [committed live pending].
    - change (content_tables (merge_db (live s) (pending s)))
        with (merge_db (content_tables (live s)) (content_tables (pending s))).
      rewrite H2, H3, merge_db_empty. repeat split.
    - repeat split; assumption. }
  set (P := fun s =>
              F s
              /\ appended (briefing_content db) (briefing_content (committed s))
              /\ appended (briefing_content db) (briefing_content (live s))).
  set (Q := fun s =>
              F s
              /\ briefing_content (committed s) = briefing_content db
              /\ briefing_content (live s) = briefing_content db
              /\ briefing_content (pending s) = []).
  assert (P_commit : forall s, P s -> P (snd (commit s))).
  { intros s (HF & Hc & Hl). split; [exact (F_commit s HF)|].
    destruct (commit_cases s) as [(_ & _ & ->)|(_ & _ & ->)];
      cbn [committed live]; [|split; assumption].
    destruct Hl as [a Hl]. cbn [merge_db briefing_content]. rewrite Hl.
    split; exists (a ++ briefing_content (pending s))%list;
      symmetry; apply app_assoc. }
  assert (Q_commit : forall s, Q s -> Q (snd (commit s))).
  { intros s (HF & Hc & Hl & Hp). split; [exact (F_commit s HF)|].
    destruct (commit_cases s) as [(_ & _ & ->)|(_ & _ & ->)];
      cbn [committed live pending]; [|repeat split; assumption].
    cbn [merge_db briefing_content empty_db]. rewrite Hl, Hp, app_nil_r.
    repeat split. }
  assert (P0 : P (open_session db)).
  { repeat split; apply appended_refl. }
  assert (Q0 : Q (open_session db)) by (repeat split).
  split; [|split].
  - intros user_id briefing_date. cbv zeta.
    destruct (steps_generate_briefing P) with (run := run) (db := db)
      (user_id := user_id) (briefing_date := briefing_date)
      as (s & ((Hs & _) & Ha & _) & ->); try assumption.
    + intros s this f _ H. exact H.
    + intros s b H. exact H.
    + intros s l H. exact H.
    + split; assumption.
  - intros current_user target_date. cbv zeta.
    destruct (steps_trigger Q) with (run := run) (db := db)
      (current_user := current_user) (target_date := target_date)
      as (s & ((Hs & _) & Ha & _) & ->); try assumption.
    + intros s this f _ H. exact H.
    + intros s b H. exact H.
    + split; assumption.
  - intros briefing_id current_user. cbv zeta.
    destruct (steps_mark Q) with (run := run) (db := db)
      (briefing_id := briefing_id) (current_user := current_user)
      as (s & ((Hs & _) & Ha & _) & ->); try assumption.
    + intros s this f _ H. exact H.
    + split; assumption.
Qed.

(** ** [classify_pending_content] *)

Section ClassifyPending.

Variable openai_client : bool.
Variable classify_reply : ContentItem.t -> result json.
Variable stores_topics : json -> bool.

Local Abbreviation classification_for :=
  (new_classification str_lower findall_words float_of_str openai_client
     classify_reply).
Local Abbreviation classify_items :=
  (classify_first str_lower findall_words float_of_str openai_client
     classify_reply).
Local Abbreviation classify_task :=
  (classify_pending_content str_lower findall_words float_of_str openai_client
     classify_reply stores_topics).
Local Abbreviation stored item :=
  (stores_topics (ContentClassification.topics (classification_for item))).

Lemma classify_first_rows n cutoff_time items :
  Forall2 (fun old new =>
             new = old
             \/ (is_pending cutoff_time old = true
                 /\ new = set_classification old (classification_for old)))
          items (classify_items n cutoff_time items).
Proof.
  revert n. induction items as [|item items IH]; intros n; [constructor|].
  cbn [classify_first].
  change (unclassified_since cutoff_time item) with (is_pending cutoff_time item).
  destruct (is_pending cutoff_time item) eqn:E.
  - destruct n as [|n].
    + apply Forall2_refl. intros x. left. reflexivity.
    + constructor; [right; split; [exact E|reflexivity]|apply IH].
  - constructor; [left; reflexivity|apply IH].
Qed.

Lemma classify_first_left n cutoff_time items :
  List.length (filter (is_pending cutoff_time) (classify_items n cutoff_time items))
  = (List.length (filter (is_pending cutoff_time) items)
     - Nat.min n (List.length (filter (is_pending cutoff_time) items)))%nat.
Proof.
  revert n. induction items as [|item items IH]; intros n; [reflexivity|].
  cbn [classify_first].
  change (unclassified_since cutoff_time item) with (is_pending cutoff_time item).
  destruct (is_pending cutoff_time item) eqn:E.
  - destruct n as [|n]; [cbn [Nat.min]; lia|].
    cbn [filter]. rewrite E.
    change (is_pending cutoff_time
              (set_classification item (classification_for item)))
      with false.
    cbv beta iota. rewrite IH. cbn [List.length]. lia.
  - cbn [filter]. rewrite E. apply IH.
Qed.

Lemma classify_first_batch cutoff_time items :
  classified_batch classification_for cutoff_time items
    (classify_items 100 cutoff_time items).
Proof.
  split; [|apply classify_first_left].
  eapply Forall2_impl; [|apply classify_first_rows].
  intros old new [H|[Hp H]]; [left; exact H|right].
  unfold is_pending, truthy_classification in Hp.
  apply andb_true_iff in Hp. destruct Hp as [Hc Ht].
  apply Z.leb_le in Ht.
  destruct (ContentItem.classification old); [discriminate|].
  repeat split; assumption.
Qed.

Lemma forallb_over_map {A B} (f : A -> B) (p : B -> bool) l :
  forallb p (map f l) = forallb (fun x => p (f x)) l.
Proof.
  induction l as [|x l IH]; [reflexivity|].
  cbn [map forallb]. rewrite IH. reflexivity.
Qed.

(** The two ways the task ends: the flush takes every classification of
    the batch, or it refuses one. *)
Lemma classify_task_cases run db :
  match forallb (fun item => stored item)
                (firstn 100 (filter (is_pending (t_now run - hours 24))
                               (content_items db))) with
  | true =>
      classify_task run db
      = set_content_items db
          (classify_items 100 (t_now run - hours 24) (content_items db))
  | false => classify_task run db = db
  end.
Proof.
  unfold classify_pending_content. cbv zeta. rewrite forallb_over_map.
  change (unclassified_since (t_now run - hours 24))
    with (is_pending (t_now run - hours 24)).
  destruct (forallb _ _); reflexivity.
Qed.

Lemma rule_based_topics content :
  topics (rule_based content)
  = JList (map JStr (_extract_topics str_lower findall_words
                       (full_text str_lower content))).
Proof. reflexivity. Qed.

(** X18: [classify_pending_content] changes no table but the items.  Its
    one commit stores the classifications of the whole batch or none: it
    leaves the store as it was, or it gives 100 of the pending items (all of
    them when they are fewer) their classification and changes nothing else.
    It classifies when the database takes the topics of every pending item,
    as it does with the rule-based classifier when it takes every list of
    strings; with at most 100 pending items, one refused classification
    makes the task store none. *)
Theorem classify_pending_takes_hundred run db :
  let cutoff_time := t_now run - hours 24 in
  let pending := filter (is_pending cutoff_time) (content_items db) in
  let db' := classify_task run db in
  let classified :=
    classified_batch classification_for cutoff_time
      (content_items db) (content_items db') in
  other_tables db' = other_tables db
  /\ (db' = db \/ classified)
  /\ ((forall item, In item pending -> stored item = true) -> classified)
  /\ ((List.length pending <= 100)%nat ->
      (exists item, In item pending /\ stored item = false) ->
      db' = db)
  /\ (openai_client = false ->
      (forall words, stores_topics (JList (map JStr words)) = true) ->
      classified).
Proof.
  cbv zeta. pose proof (classify_task_cases run db) as Hcases.
  set (cutoff_time := t_now run - hours 24) in *.
  set (pending := filter (is_pending cutoff_time) (content_items db)) in *.
  assert (Hall : (forall item, In item pending -> stored item = true) ->
                 classified_batch classification_for cutoff_time
                   (content_items db) (content_items (classify_task run db))).
  { intros H.
    assert (Hb : forallb (fun item => stored item) (firstn 100 pending) = true).
    { apply forallb_forall. intros item Hin. apply H.
      exact (In_firstn _ _ _ Hin). }
    rewrite Hb in Hcases. rewrite Hcases. cbn [content_items set_content_items].
    apply classify_first_batch. }
  destruct (forallb (fun item => stored item) (firstn 100 pending)) eqn:Hb.
  - rewrite Hcases. cbn [content_items set_content_items].
    split; [reflexivity|]. split; [right; apply classify_first_batch|].
    split; [intros _; apply classify_first_batch|]. split.
    + intros Hlen (item & Hin & Hitem).
      rewrite firstn_all2 in Hb by exact Hlen.
      rewrite forallb_forall in Hb. rewrite (Hb item Hin) in Hitem.
      discriminate Hitem.
    + intros _ _. apply classify_first_batch.
  - split; [rewrite Hcases; reflexivity|].
    split; [left; exact Hcases|]. split; [exact Hall|].
    split; [intros _ _; exact Hcases|].
    intros Hrule Hlists. apply Hall. intros item _.
    unfold new_classification. rewrite Hrule.
    cbn [ContentClassification.topics]. rewrite rule_based_topics.
    apply Hlists.
Qed.

End ClassifyPending.

(** ** The daily sweep *)

Lemma find_unique_user (p : User.t -> bool) users user :
  NoDup (map User.id users) ->
  In user users -> p user = true ->
  (forall u, p u = true -> User.id u = User.id user) ->
  find p users = Some user.
Proof.
  intros Hnd Hin Hp Hid. induction users as [|x users IH]; [destruct Hin|].
  cbn [map] in Hnd. inversion Hnd as [|? ? Hx Hnd']; subst.
  cbn [find]. destruct Hin as [->|Hin]; [rewrite Hp; reflexivity|].
  destruct (p x) eqn:E; [|exact (IH Hnd' Hin)].
  exfalso. apply Hx. rewrite (Hid x E). apply in_map. exact Hin.
Qed.

(** X19: Every task the daily sweep queues is for today, names an active user
    that is not deleted, and falls in the hour that starts ten minutes
    before the user's briefing time; the briefing of that user for today is
    not DELIVERED, so the task will not return early.  (Users are taken to
    have distinct ids.) *)
Theorem daily_sweep_hands_over run db user_id briefing_date :
  NoDup (map User.id (users db)) ->
  In (GenerateBriefing user_id briefing_date) (generate_daily_briefings run db) ->
  briefing_date = Some (today run)
  /\ exists user,
       active_user db user_id = Some user
       /\ today run * 86400 + User.briefing_time user - 600 <= t_now run
          <= today run * 86400 + User.briefing_time user + 3000
       /\ forall b,
            find (briefing_for user_id (today run)) (briefings db) = Some b ->
            Briefing.status b <> BriefingStatus.DELIVERED.
Proof.
  intros Hnd Hin. unfold generate_daily_briefings in Hin.
  apply in_flat_map in Hin. destruct Hin as (user & Huser & Hin).
  apply filter_In in Huser. destruct Huser as [Huser Hok].
  apply andb_true_iff in Hok. destruct Hok as [Hdel Hact].
  cbv zeta in Hin.
  destruct (_ && _) eqn:Hwin in Hin; [|destruct Hin].
  apply andb_true_iff in Hwin. destruct Hwin as [H1 H2].
  apply Z.leb_le in H1, H2.
  unfold settings.BRIEFING_GENERATION_START_MINUTES in H1, H2.
  assert (Htask : GenerateBriefing (User.id user) (Some (today run))
                  = GenerateBriefing user_id briefing_date
                  /\ forall b,
                       find (briefing_for (User.id user) (today run))
                            (briefings db) = Some b ->
                       Briefing.status b <> BriefingStatus.DELIVERED).
  { destruct (find _ (briefings db)) as [existing|].
    - destruct (BriefingStatus.eqb _ _) eqn:E in Hin; [destruct Hin|].
      destruct Hin as [Hin|[]]. split; [exact Hin|].
      intros b [= <-]. apply status_eqb_false, E.
    - destruct Hin as [Hin|[]]. split; [exact Hin|]. intros b [=]. }
  destruct Htask as [Htask Hnot]. injection Htask as <- <-.
  split; [reflexivity|]. exists user. split; [|split; [lia|exact Hnot]].
  unfold active_user.
  rewrite (find_unique_user _ (users db) user Hnd Huser).
  - rewrite Hact. reflexivity.
  - rewrite N.eqb_refl, Hdel. reflexivity.
  - intros u Hu. apply andb_true_iff in Hu. destruct Hu as [Hu _].
    apply N.eqb_eq. exact Hu.
Qed.

(** ** Delivery of another user's briefing *)

(** X20: The delivery acknowledgment finds only briefings of the calling user:
    for the id of a briefing of somebody else, or of no briefing, it answers
    "Briefing not found" and changes nothing. *)
Theorem delivery_needs_own_briefing run db briefing_id current_user :
  (forall b, In b (briefings db) -> Briefing.id b = briefing_id ->
             Briefing.user_id b <> User.id current_user) ->
  mark_briefing_delivered run db briefing_id current_user
  = (Raise "Briefing not found", db).
Proof.
  intros H. unfold mark_briefing_delivered. cbn [open_session live]. cbv zeta.
  destruct (find _ (briefings db)) as [b|] eqn:E; [|reflexivity].
  apply find_some in E. destruct E as [Hin Hb].
  apply andb_true_iff in Hb. destruct Hb as [Hid Hu].
  apply N.eqb_eq in Hid, Hu. destruct (H b Hin Hid Hu).
Qed.

(** ** Generation as it runs *)

(** X21: The selector raises [ImportError] on every call, so a generation
    run that gets past its guards (an active user whose briefing of the date
    is not DELIVERED) always ends the same way, whatever is stored: the
    briefing is FAILED with the text of that exception as error message, no
    link is written, and the task returns the id of the briefing. *)
Theorem generation_always_fails run db user_id briefing_date user :
  active_user db user_id = Some user ->
  (forall b,
     find (briefing_for (User.id user) (get_default briefing_date (today run)))
          (briefings db) = Some b ->
     Briefing.status b <> BriefingStatus.DELIVERED) ->
  exists db' b',
    generate_briefing_task run db user_id briefing_date
    = (Some (Briefing.id b'), db')
    /\ find (briefing_for (User.id user) (get_default briefing_date (today run)))
            (briefings db') = Some b'
    /\ Briefing.status b' = BriefingStatus.FAILED
    /\ Briefing.error_message b'
       = Some (import_error "UserPreferences" "app.models.user")
    /\ briefing_content db' = briefing_content db.
Proof.
  exact (generate_briefing_import_error run db user_id briefing_date user).
Qed.

(** ** The bound of the query *)

(** X29: The statements of the selector after its imports take
    [max_items or settings.MAX_CONTENT_ITEMS_PER_BRIEFING] as the bound, so
    an absent or zero [max_items] stands for the default of 10.  With that
    bound positive and a threshold that is not NULL they return at most that
    many items, ranked by (relevance descending, importance descending),
    and every candidate when there are no more candidates than the bound. *)
Theorem query_bounded_sorted db user max_items utcnow m :
  min_relevance_of db user = Some m ->
  0 < max_items_or_default max_items ->
  exists l,
    select_query db user max_items utcnow = Ok l
    /\ Z.of_nat (List.length l) <= max_items_or_default max_items
    /\ StronglySorted rank_ge l
    /\ (Z.of_nat (List.length (candidates db user utcnow))
        <= max_items_or_default max_items ->
        Permutation l (map fst (candidates db user utcnow))).
Proof.
  intros Hm Hpos. eexists. split; [exact (select_query_eq _ _ _ _ m Hm Hpos)|].
  set (bound := max_items_or_default max_items) in *.
  set (rows := map fst (sort_desc rank_gtb (candidates db user utcnow))).
  split; [|split].
  - pose proof (firstn_le_length (Z.to_nat bound)
                  (filter truthy_classification (firstn (Z.to_nat (bound * 2)) rows))).
    lia.
  - apply StronglySorted_firstn, StronglySorted_filter, StronglySorted_firstn.
    apply ordered_candidates_sorted.
  - intros Hfew.
    assert (Hlen : List.length rows = List.length (candidates db user utcnow)).
    { unfold rows. rewrite length_map.
      apply Permutation_length, sort_desc_perm. }
    rewrite (firstn_all2 (n := Z.to_nat (bound * 2)) rows) by lia.
    rewrite filter_all by apply ordered_candidates_truthy.
    rewrite firstn_all2 by (fold rows; lia).
    apply Permutation_map, sort_desc_perm.
Qed.

Lemma NoDup_map_filter {A B} (f : A -> B) (p : A -> bool) l :
  NoDup (map f l) -> NoDup (map f (filter p l)).
Proof.
  induction l as [|x l IH]; intros H; [constructor|].
  cbn [map] in H. inversion H as [|? ? Hx Hl]; subst. cbn [filter].
  destruct (p x); [|exact (IH Hl)].
  cbn [map]. constructor; [|exact (IH Hl)].
  intros Hin. apply Hx. apply in_map_iff in Hin.
  destruct Hin as (y & Hy & Hin). apply filter_In in Hin.
  rewrite <- Hy. apply in_map. exact (proj1 Hin).
Qed.

(** ** The pages of a timeline *)

Section TimelinePages.

Variable get_me : result (option string).
Variable get_page : nat -> option string -> option string -> result TimelinePage.

Local Abbreviation pages_loop := (TwitterClient.timeline_loop get_page).
Local Abbreviation timeline := (TwitterClient.get_user_timeline get_me get_page).

Lemma slice_to_length {A} (l : list A) n :
  0 <= n -> Z.of_nat (List.length (slice_to l n)) <= n.
Proof.
  intros Hn. unfold slice_to.
  destruct (0 <=? n) eqn:E; [|apply Z.leb_gt in E; lia].
  rewrite length_firstn. lia.
Qed.

Lemma timeline_loop_idle fuel n user_id max_results all_tweets next_token r :
  max_results <= Z.of_nat (List.length all_tweets) ->
  pages_loop fuel n user_id max_results all_tweets next_token = Some r ->
  r = Ok (all_tweets, n).
Proof.
  intros Hm. destruct fuel as [|fuel]; [discriminate|].
  cbn [TwitterClient.timeline_loop].
  destruct (_ <? max_results) eqn:E; [apply Z.ltb_lt in E; lia|].
  intros [= <-]. reflexivity.
Qed.

(** X24: [get_user_timeline] returns at most [max_results] tweets, whatever the
    pages hold; for a [max_results] that is not positive it returns no tweet
    and sends no timeline request. *)
Theorem timeline_within_max_results fuel user_id max_results l n :
  timeline fuel user_id max_results = Some (Ok (l, n)) ->
  Z.of_nat (List.length l) <= Z.max 0 max_results
  /\ (max_results <= 0 -> l = [] /\ n = 0%nat).
Proof.
  unfold TwitterClient.get_user_timeline.
  destruct (if negb (truthy_str user_id) then get_me else Ok user_id)
    as [u|e]; [|discriminate].
  destruct (pages_loop fuel 0 u max_results [] None) as [[[all_tweets k]|e]|] eqn:E;
    [|discriminate|discriminate].
  intros [= <- <-]. split.
  - destruct (Z.le_gt_cases 0 max_results) as [H|H].
    + pose proof (slice_to_length all_tweets max_results H). lia.
    + apply timeline_loop_idle in E; [|cbn [List.length]; lia].
      injection E as -> ->. unfold slice_to.
      destruct (0 <=? max_results); rewrite firstn_nil; cbn [List.length]; lia.
  - intros H. apply timeline_loop_idle in E; [|cbn [List.length]; lia].
    injection E as -> ->. split; [|reflexivity].
    unfold slice_to. destruct (0 <=? max_results); apply firstn_nil.
Qed.

Lemma timeline_loop_ends fuel :
  (forall n user_id token data,
     get_page n user_id token = Ok data ->
     truthy_str (page_next_token data) = true -> page_data data <> []) ->
  forall n user_id max_results all_tweets next_token,
    (Z.to_nat (max_results - Z.of_nat (List.length all_tweets)) < fuel)%nat ->
    exists r,
      pages_loop fuel n user_id max_results all_tweets next_token = Some r
      /\ (forall fuel',
            (fuel <= fuel')%nat ->
            pages_loop fuel' n user_id max_results all_tweets next_token
            = Some r)
      /\ forall l k,
           r = Ok (l, k) ->
           Z.of_nat k - Z.of_nat n
           <= Z.max 0 (max_results - Z.of_nat (List.length all_tweets)).
Proof.
  intros Hpages.
  induction fuel as [|fuel IH]; intros n user_id max_results all_tweets
    next_token Hfuel; [lia|].
  cbn [TwitterClient.timeline_loop].
  destruct (_ <? max_results) eqn:E.
  - apply Z.ltb_lt in E.
    destruct (get_page n user_id _) as [data|e] eqn:Hpage.
    + cbv zeta.
      destruct (truthy_str (page_next_token data)) eqn:Htoken; cbn [negb].
      * pose proof (Hpages _ _ _ _ Hpage Htoken) as Hdata.
        assert (Hlen : (List.length all_tweets
                        < List.length (all_tweets ++ page_data data))%nat).
        { rewrite length_app. destruct (page_data data); [congruence|].
          cbn [List.length]. lia. }
        destruct (IH (S n) user_id max_results (all_tweets ++ page_data data)%list
                    (page_next_token data)) as (r & Hr & Hmore & Hcount);
          [lia|].
        exists r. split; [exact Hr|]. split.
        -- intros [|fuel'] Hle; [lia|].
           cbn [TwitterClient.timeline_loop].
           apply Z.ltb_lt in E. rewrite E, Hpage. cbv zeta.
           rewrite Htoken. cbn [negb]. apply Hmore. lia.
        -- intros l k Hk. pose proof (Hcount l k Hk). lia.
      * eexists. split; [reflexivity|]. split.
        -- intros [|fuel'] Hle; [lia|].
           cbn [TwitterClient.timeline_loop].
           apply Z.ltb_lt in E. rewrite E, Hpage. cbv zeta.
           rewrite Htoken. reflexivity.
        -- intros l k [= <- <-]. lia.
    + eexists. split; [reflexivity|]. split.
      * intros [|fuel'] Hle; [lia|].
        cbn [TwitterClient.timeline_loop].
        apply Z.ltb_lt in E. rewrite E, Hpage. reflexivity.
      * intros l k Hk. discriminate Hk.
  - eexists. split; [reflexivity|]. split.
    + intros [|fuel'] Hle; [lia|].
      cbn [TwitterClient.timeline_loop]. rewrite E. reflexivity.
    + intros l k [= <- <-]. lia.
Qed.

(** X25: When every page that carries a next token holds at least one tweet,
    [get_user_timeline] returns: the loop ends within [max_results]
    iterations, more fuel changes nothing, and it sends at most
    [max_results] timeline requests. *)
Theorem timeline_returns fuel user_id max_results :
  (forall n user_id token data,
     get_page n user_id token = Ok data ->
     truthy_str (page_next_token data) = true -> page_data data <> []) ->
  (Z.to_nat max_results < fuel)%nat ->
  exists r,
    timeline fuel user_id max_results = Some r
    /\ (forall fuel',
          (fuel <= fuel')%nat -> timeline fuel' user_id max_results = Some r)
    /\ forall l n, r = Ok (l, n) -> Z.of_nat n <= Z.max 0 max_results.
Proof.
  intros Hpages Hfuel. unfold TwitterClient.get_user_timeline.
  destruct (if negb (truthy_str user_id) then get_me else Ok user_id)
    as [u|e].
  - destruct (timeline_loop_ends fuel Hpages 0%nat u max_results [] None)
      as (r & Hr & Hmore & Hcount); [cbn [List.length]; lia|].
    rewrite Hr. destruct r as [[all_tweets k]|e].
    + eexists. split; [reflexivity|]. split.
      * intros fuel' Hle. rewrite (Hmore fuel' Hle). reflexivity.
      * intros l n [= <- <-].
        pose proof (Hcount all_tweets k eq_refl) as H.
        cbn [List.length] in H. lia.
    + eexists. split; [reflexivity|]. split.
      * intros fuel' Hle. rewrite (Hmore fuel' Hle). reflexivity.
      * intros l n Hn. discriminate Hn.
  - eexists. split; [reflexivity|]. split; [reflexivity|].
    intros l n Hn. discriminate Hn.
Qed.

Lemma timeline_loop_spins fuel :
  forall n user_id max_results next_token,
    (forall n user_id token,
       exists data,
         get_page n user_id token = Ok data
         /\ page_data data = []
         /\ truthy_str (page_next_token data) = true) ->
    0 < max_results ->
    pages_loop fuel n user_id max_results [] next_token = None.
Proof.
  induction fuel as [|fuel IH]; intros n user_id max_results next_token
    Hpages Hmax; [reflexivity|].
  cbn [TwitterClient.timeline_loop List.length].
  destruct (Z.ltb_spec (Z.of_nat 0) max_results) as [_|H]; [|cbn in H; lia].
  destruct (Hpages n user_id (if truthy_str next_token then next_token else None))
    as (data & -> & Hdata & Htoken).
  cbv zeta. rewrite Htoken, Hdata. cbn [negb app].
  apply IH; assumption.
Qed.

(** X26: The loop of [get_user_timeline] is bounded by the number of tweets
    only: while the pages are empty and carry a next token, it sends request
    after request and never returns. *)
Theorem timeline_empty_pages_never_end fuel user_id max_results :
  (forall n user_id token,
     exists data,
       get_page n user_id token = Ok data
       /\ page_data data = []
       /\ truthy_str (page_next_token data) = true) ->
  truthy_str user_id = true ->
  0 < max_results ->
  timeline fuel user_id max_results = None.
Proof.
  intros Hpages Huser Hmax. unfold TwitterClient.get_user_timeline.
  rewrite Huser. cbn [negb].
  rewrite (timeline_loop_spins fuel 0%nat user_id max_results None Hpages Hmax).
  reflexivity.
Qed.

End TimelinePages.

(** ** The reading endpoints *)

Lemma sorted_strict {A} (f : A -> Z) l :
  StronglySorted (fun a b => (f a <? f b) = false) l ->
  NoDup (map f l) ->
  StronglySorted (fun a b => f b < f a) l.
Proof.
  induction 1 as [|x l Hs IH Hx]; intros Hnd; [constructor|].
  cbn [map] in Hnd. inversion Hnd as [|? ? Hout Hnd']; subst.
  constructor; [exact (IH Hnd')|].
  rewrite Forall_forall in Hx. apply Forall_forall. intros y Hy.
  pose proof (Hx y Hy) as Hle. apply Z.ltb_ge in Hle.
  assert (f y <> f x); [|lia].
  intros Heq. apply Hout. rewrite <- Heq. apply in_map. exact Hy.
Qed.

Lemma NoDup_map_pair_inv {A B} (a : A) (l : list B) :
  NoDup (map (pair a) l) -> NoDup l.
Proof.
  induction l as [|x l IH]; intros H; [constructor|].
  cbn [map] in H. inversion H as [|? ? Hout Hnd]; subst.
  constructor; [|exact (IH Hnd)].
  intros Hin. apply Hout. apply in_map. exact Hin.
Qed.


End Properties.

(** * The properties on the test data *)

(** ** C1 *)

(** The store holds three candidates, and the selector, asked for two of
    them, raises. *)
Lemma select_from_three_candidates_raises :
  List.length (candidates Example.selection_db Example.user 1700003601) = 3%nat
  /\ select_content_for_briefing Example.selection_db Example.user (Some 2)
       1700003601
     = Raise "cannot import name 'UserPreferences' from 'app.models.user'".
Proof. split; reflexivity. Qed.

(** ** C3 *)

Lemma ai_failure_falls_back_witness :
  ai_classify Example.no_float Example.malformed_reply
  = Raise "object has no attribute 'get'"
  /\ AIClassifier_classify Example.lower Example.no_words Example.no_float
       Example.malformed_reply Example.english_item
     = RuleBasedClassifier_classify Example.lower Example.no_words
         Example.english_item
  /\ (0 <= total_engagement
             (metadata_public_metrics
                (ContentItem.item_metadata Example.english_item)) ->
      valid_classification
        (AIClassifier_classify Example.lower Example.no_words Example.no_float
           Example.malformed_reply Example.english_item)).
Proof.
  split; [reflexivity|].
  apply (ai_failure_falls_back Example.lower Example.no_words Example.no_float
           Example.malformed_reply Example.english_item
           "object has no attribute 'get'").
  reflexivity.
Defined.

(** ** C4 *)

Lemma delivered_is_terminal_witness :
  let db := Example.db_with [] [] [Example.briefing BriefingStatus.DELIVERED] in
  trigger_briefing_generation Example.run1 db Example.user None
  = (Ok (Example.briefing BriefingStatus.DELIVERED), [], db)
  /\ Example.generate Example.run1 db = (Some 50%N, db).
Proof.
  intros db.
  destruct (delivered_is_terminal Example.slice Example.no_summary "" Example.tts
              Example.tts "local" Example.write Example.two_decimals
              Example.run1 db Example.user None
              (Example.briefing BriefingStatus.DELIVERED)
              eq_refl eq_refl) as (Htrigger & Htask & _).
  split; [exact Htrigger|exact Htask].
Defined.

(** ** C5 *)



(** ** C6 *)

(** C6 fails for Telegram: an update without a message is fetched, no item
    with its identity is stored, and it is counted neither as new nor as
    updated. *)
Lemma telegram_update_without_message_not_counted :
  let s := Example.sync_telegram [Example.edited_update] Example.run1
             (Example.db_with [Example.source SourceType.TELEGRAM None] [] []) in
  content_items (committed s) = []
  /\ map (fun l => (SyncLog.status l, SyncLog.items_fetched l,
                    SyncLog.items_new l, SyncLog.items_updated l))
         (sync_logs (committed s))
     = [(SyncStatus.SUCCESS, 1, 0, 0)]
  /\ 1 <> 0 + 0.
Proof.
  split; [reflexivity|]. split; [reflexivity|discriminate].
Qed.

Lemma reconcile_counts_witness :
  let s := open_session (Example.twitter_db None) in
  let source := Example.source SourceType.TWITTER None in
  inactive s = false /\ pending s = empty_db
  /\ exists s',
       reconcile (twitter_body Example.fromisoformat Example.run1 source [])
         [Example.tweet "a"; Example.tweet "b"; Example.tweet "c"] s
       = (Ok (3, 3, 0), s')
       /\ map item_key (content_items (committed s'))
          = [(10%N, "a"); (10%N, "b"); (10%N, "c")].
Proof.
  intros s source. split; [reflexivity|]. split; [reflexivity|].
  destruct (reconcile_counts Example.fromisoformat Example.run1 source s
              eq_refl eq_refl) as [Htwitter _].
  apply (Htwitter [] [Example.tweet "a"; Example.tweet "b"; Example.tweet "c"]).
  - vm_compute. repeat constructor; simpl; intuition discriminate.
  - intros tweet Hin _. exists "2023-11-14T22:13:20Z", 1700000000.
    simpl in Hin. destruct Hin as [<-|[<-|[<-|[]]]]; split; reflexivity.
Defined.

(** The two scenarios of the specification, run through [sync_data_source]:
    three fresh tweets, then one repeated and two fresh ones. *)
Lemma two_polls_of_one_source :
  let first := Example.sync_twitter
                 [Example.tweet "a"; Example.tweet "b"; Example.tweet "c"]
                 Example.run1 (Example.twitter_db None) in
  let second := Example.sync_twitter
                  [Example.tweet "a"; Example.tweet "d"; Example.tweet "e"]
                  Example.run2 (committed first) in
  map (fun l => (SyncLog.items_fetched l, SyncLog.items_new l,
                 SyncLog.items_updated l))
      (sync_logs (committed second))
  = [(3, 3, 0); (3, 2, 1)]
  /\ List.length (content_items (committed first)) = 3%nat
  /\ List.length (content_items (committed second)) = 5%nat.
Proof. vm_compute. repeat split. Qed.

(** ** C7 *)

(** C7 (the fetch window starts at the source's previous [last_sync_at]):
    [sync_data_source] assigns the start time of the run to
    [source.last_sync_at] before [sync_twitter_source] reads it, so the
    timeline is requested from the start of this run on, whether the source
    was synced before (here at 1699990000) or never. *)
Theorem sync_window_starts_at_run_start :
  requests (Example.sync_twitter [] Example.run1
              (Example.twitter_db (Some 1699990000)))
  = [TwitterUserTimeline (Some "42") 100 (t_start Example.run1)]
  /\ requests (Example.sync_twitter [] Example.run1 (Example.twitter_db None))
     = [TwitterUserTimeline (Some "42") 100 (t_start Example.run1)]
  /\ t_start Example.run1 <> 1699990000
  /\ t_start Example.run1 <> t_now Example.run1 - hours 24.
Proof.
  split; [reflexivity|]. split; [reflexivity|]. split; discriminate.
Qed.

(** ** C8 *)

(** C8 fails in two places.  For RSS: the feed cannot be fetched,
    [parse_feed] returns no item, and the run is logged as SUCCESS without
    an error message.  For the error text: the request of the Twitter client
    times out with an exception that has no text, and the run is logged as
    FAILED with the empty string as error message. *)
Lemma sync_failure_hidden_or_without_text :
  (let s := Example.sync_rss Example.run1
              (Example.db_with [Example.source SourceType.RSS None] [] []) in
   Example.feed_unreachable "https://example.org/feed"
   = Raise "<urlopen error [Errno -2] Name or service not known>"
   /\ requests s = [FeedparserParse "https://example.org/feed"]
   /\ map (fun l => (SyncLog.status l, SyncLog.error_message l))
          (sync_logs (committed s))
      = [(SyncStatus.SUCCESS, None)]
   /\ SyncStatus.SUCCESS <> SyncStatus.FAILED)
  /\ (let s := Fixture.sync_twitter_timing_out Example.run1
                 (Example.twitter_db None) in
      Fixture.timeline_times_out "token" (Some "42") 100 (t_start Example.run1)
      = Raise ""
      /\ map (fun l => (SyncLog.status l, SyncLog.error_message l))
             (sync_logs (committed s))
         = [(SyncStatus.FAILED, Some "")]).
Proof.
  split.
  - split; [reflexivity|]. split; [reflexivity|].
    split; [reflexivity|discriminate].
  - split; reflexivity.
Qed.

Lemma sync_failure_is_logged_witness :
  (exists logs log,
     sync_logs (committed (Example.sync_twitter_failing Example.run1
                             (Example.twitter_db None)))
     = (logs ++ [log])%list
     /\ SyncLog.source_id log = 10%N
     /\ SyncLog.status log = SyncStatus.FAILED
     /\ SyncLog.error_message log = Some "429 Too Many Requests"
     /\ ("429 Too Many Requests" <> "" ->
         exists text, SyncLog.error_message log = Some text /\ text <> "")
     /\ (SyncLog.items_fetched log, SyncLog.items_new log,
         SyncLog.items_updated log) = (0, 0, 0))
  /\ (exists log,
        sync_logs (committed (Example.sync_rss Example.run1
                                (Example.db_with
                                   [Example.source SourceType.RSS None] [] [])))
        = [log]
        /\ SyncLog.source_id log = 10%N
        /\ SyncLog.status log = SyncStatus.SUCCESS
        /\ SyncLog.error_message log = None
        /\ (SyncLog.items_fetched log, SyncLog.items_new log,
            SyncLog.items_updated log) = (0, 0, 0)).
Proof.
  split.
  - destruct (sync_failure_is_logged Example.slice Example.decrypt
                Example.fromisoformat Example.get_text Example.timeline_fails
                Example.no_updates Example.no_feed Example.no_media
                Example.feed_unreachable Example.run1 (Example.twitter_db None)
                10%N (Example.source SourceType.TWITTER None)
                eq_refl eq_refl) as [Hfailed _].
    eapply (Hfailed "429 Too Many Requests").
    + reflexivity.
    + split; reflexivity.
  - destruct (sync_failure_is_logged Example.slice Example.decrypt
                Example.fromisoformat Example.get_text (Example.timeline [])
                Example.no_updates Example.no_feed Example.no_media
                Example.feed_unreachable Example.run1
                (Example.db_with [Example.source SourceType.RSS None] [] [])
                10%N (Example.source SourceType.RSS None)
                eq_refl eq_refl) as [_ Hrss].
    apply (Hrss eq_refl [("feed_url", "https://example.org/feed")]
             "https://example.org/feed"
             "<urlopen error [Errno -2] Name or service not known>");
      reflexivity.
Defined.

(** ** C9 *)



(** ** C10 *)


(** ** Synchronisation *)

Lemma sync_keeps_items_unique_witness :
  items_unique Example.selection_db
  /\ items_unique
       (committed (Fixture.sync_with [Example.tweet "a"] [] Example.feed_unreachable
                     Example.run1 Example.selection_db)).
Proof.
  assert (H : items_unique Example.selection_db).
  { unfold items_unique. vm_compute.
    repeat constructor; simpl; intuition discriminate. }
  split; [exact H|].
  exact (sync_keeps_items_unique Example.slice Example.decrypt
           Example.fromisoformat Example.get_text
           (Example.timeline [Example.tweet "a"]) (Example.updates [])
           Example.no_feed Example.no_media Example.feed_unreachable
           Example.run1 Example.selection_db 10%N H).
Defined.

Lemma sync_counts_add_up_witness :
  let source := Example.source SourceType.TWITTER None in
  let r := sync_dispatch Example.decrypt Example.fromisoformat Example.get_text
             (Example.timeline [Example.tweet "a"; Example.tweet "b"])
             Example.no_updates Example.no_feed Example.no_media
             Example.feed_unreachable Example.slice Example.run1
             (open_session (Example.twitter_db None)) source in
  fst r = Ok (2, 2, 0)
  /\ 0 <= 2 /\ 0 <= 0 /\ 2 + 0 <= 2
  /\ (DataSource.source_type source <> SourceType.TELEGRAM -> 2 + 0 = 2).
Proof.
  intros source r. split; [reflexivity|].
  apply (sync_counts_add_up Example.slice Example.decrypt
           Example.fromisoformat Example.get_text
           (Example.timeline [Example.tweet "a"; Example.tweet "b"])
           Example.no_updates Example.no_feed Example.no_media
           Example.feed_unreachable Example.run1
           (open_session (Example.twitter_db None)) source 2 2 0 (snd r)).
  reflexivity.
Defined.

Lemma sync_without_credentials_witness :
  let db := Example.db_with [Fixture.bare_source] [] [] in
  let s := Fixture.sync_with [Example.tweet "a"] [] Example.feed_unreachable
             Example.run1 db in
  requests s = []
  /\ sync_logs (committed s)
     = [new_sync_log Example.run1 (stamped Example.run1 Fixture.bare_source)
          (Raise "No credentials found for Twitter source")]
  /\ content_items (committed s) = [].
Proof.
  intros db s.
  apply (sync_without_credentials Example.slice Example.decrypt
           Example.fromisoformat Example.get_text
           (Example.timeline [Example.tweet "a"]) (Example.updates [])
           Example.no_feed Example.no_media Example.feed_unreachable
           Example.run1 db 10%N Fixture.bare_source "Twitter");
    [reflexivity|reflexivity|reflexivity|left; reflexivity].
Defined.

Lemma telegram_sync_only_adds_witness :
  let db := Example.db_with [Example.source SourceType.TELEGRAM None]
              [Example.item 1%N 1700000000 None] [] in
  exists added,
    content_items
      (committed (Fixture.sync_with [] [Fixture.text_update]
                    Example.feed_unreachable Example.run1 db))
    = (content_items db ++ added)%list.
Proof.
  intros db.
  apply (telegram_sync_only_adds Example.slice Example.decrypt
           Example.fromisoformat Example.get_text (Example.timeline [])
           (Example.updates [Fixture.text_update]) Example.no_feed
           Example.no_media Example.feed_unreachable Example.run1 db 10%N
           (Example.source SourceType.TELEGRAM None));
    reflexivity.
Defined.

Lemma rss_repeated_entry_stores_nothing_witness :
  let db := Example.db_with [Example.source SourceType.RSS None] [] [] in
  committed (Fixture.sync_with [] [] Fixture.feed_twice Example.run1 db) = db.
Proof.
  intros db.
  apply (rss_repeated_entry_stores_nothing Example.slice Example.decrypt
           Example.fromisoformat Example.get_text (Example.timeline [])
           (Example.updates []) Example.no_feed Example.no_media
           Fixture.feed_twice Example.run1 db 10%N
           (Example.source SourceType.RSS None)
           [("feed_url", "https://example.org/feed")]
           "https://example.org/feed");
    [reflexivity|reflexivity|reflexivity|reflexivity|reflexivity|].
  intros H. vm_compute in H. inversion H as [|? ? Hn _]. apply Hn.
  left. reflexivity.
Defined.

Lemma synced_source_stops_the_sweep_witness :
  let db := Example.twitter_db None in
  let db' := committed (Fixture.sync_with [] [] Example.feed_unreachable
                          Example.run1 db) in
  sync_all_sources Example.run1 db = ([SyncDataSource 10%N], Ok tt)
  /\ snd (sync_all_sources Example.run2 db')
     = Raise "can't subtract offset-naive and offset-aware datetimes"
  /\ ~ In (SyncDataSource 10%N) (fst (sync_all_sources Example.run2 db')).
Proof.
  intros db db'. split; [reflexivity|].
  apply (synced_source_stops_the_sweep Example.slice Example.decrypt
           Example.fromisoformat Example.get_text (Example.timeline [])
           (Example.updates []) Example.no_feed Example.no_media
           Example.feed_unreachable Example.run1 Example.run2 db 10%N
           (Example.source SourceType.TWITTER None)).
  - reflexivity.
  - repeat constructor. intros [].
  - intros H. apply (f_equal sync_logs) in H. vm_compute in H. discriminate H.
Defined.

(** ** Classification *)

Lemma important_keywords_give_no_relevance_witness :
  category (RuleBasedClassifier_classify Example.lower Example.no_words
              Fixture.urgent_item) = CategoryType.IMPORTANT
  /\ (relevance_score (RuleBasedClassifier_classify Example.lower
                         Example.no_words Fixture.urgent_item) == 0)%Q
  /\ (importance_score (RuleBasedClassifier_classify Example.lower
                          Example.no_words Fixture.urgent_item) <= 1 # 2)%Q.
Proof.
  apply (important_keywords_give_no_relevance Example.lower Example.no_words
           Fixture.urgent_item "важно").
  - intros k Hk.
    assert (H : forallb
                  (fun k => negb (str_in k (full_text Example.lower
                                              Fixture.urgent_item)))
                  (WORK_KEYWORDS ++ PERSONAL_KEYWORDS ++ HOBBY_KEYWORDS
                   ++ NEWS_KEYWORDS) = true)
      by (vm_compute; reflexivity).
    rewrite forallb_forall in H. apply negb_true_iff. exact (H k Hk).
  - left. reflexivity.
  - vm_compute. reflexivity.
Defined.

(** ** The query of the selector *)

Lemma selected_items_are_eligible_witness :
  select_query Example.selection_db Example.user (Some 2) 1700003601
  = Ok [Fixture.item2; Fixture.item3]
  /\ exists c source m,
       In Fixture.item2 (content_items Example.selection_db)
       /\ ContentItem.classification Fixture.item2 = Some c
       /\ In source (data_sources Example.selection_db)
       /\ DataSource.id source = ContentItem.source_id Fixture.item2
       /\ DataSource.user_id source = User.id Example.user
       /\ DataSource.is_active source = true
       /\ 1700003601 - hours 24 <= ContentItem.published_at Fixture.item2
       /\ min_relevance_of Example.selection_db Example.user = Some m
       /\ (m <= ContentClassification.relevance_score c)%Q.
Proof.
  split; [vm_compute; reflexivity|].
  apply (selected_items_are_eligible Example.selection_db Example.user
           (Some 2) 1700003601 [Fixture.item2; Fixture.item3] Fixture.item2).
  - vm_compute. reflexivity.
  - left. reflexivity.
Defined.

Lemma selection_takes_the_best_witness :
  Z.of_nat (List.length [Fixture.item2; Fixture.item3])
  = max_items_or_default (Some 2)
  /\ forall item,
       In item [Fixture.item2; Fixture.item3] -> rank_ge item Fixture.item1.
Proof.
  apply (selection_takes_the_best Example.selection_db Example.user (Some 2)
           1700003601 [Fixture.item2; Fixture.item3]
           (Fixture.item1, Example.scored (1 # 2) (1 # 2))).
  - reflexivity.
  - vm_compute. reflexivity.
  - vm_compute. left. reflexivity.
  - intros [H|[H|[]]]; discriminate H.
Defined.

(** [max_items = 0] stands for the default of 10: the query returns the
    three candidates of the store. *)
Lemma query_bounded_sorted_witness :
  min_relevance_of Example.selection_db Example.user = Some (3 # 10)
  /\ max_items_or_default (Some 0) = 10
  /\ exists l,
       select_query Example.selection_db Example.user (Some 0) 1700003601 = Ok l
       /\ Z.of_nat (List.length l) <= max_items_or_default (Some 0)
       /\ StronglySorted rank_ge l
       /\ (Z.of_nat (List.length
                       (candidates Example.selection_db Example.user 1700003601))
           <= max_items_or_default (Some 0) ->
           Permutation l
             (map fst (candidates Example.selection_db Example.user 1700003601))).
Proof.
  split; [reflexivity|]. split; [reflexivity|].
  apply (query_bounded_sorted Example.selection_db Example.user (Some 0)
           1700003601 (3 # 10)); reflexivity.
Defined.

(** ** Briefings *)

Lemma briefings_stay_unique_witness :
  let db := Example.db_with [] [] [Example.briefing BriefingStatus.READY] in
  briefings_unique (snd (Example.generate Example.run1 db))
  /\ briefings_unique
       (snd (trigger_briefing_generation Example.run1 db Example.user
               (Some 19677)))
  /\ briefings_unique
       (snd (mark_briefing_delivered Example.run1 db 50%N Example.user)).
Proof.
  intros db.
  destruct (briefings_stay_unique Example.slice Example.no_summary ""
              Example.tts Example.tts "local" Example.write
              Example.two_decimals Example.run1 db)
    as (Htask & Htrigger & Hdeliver).
  - unfold briefings_unique. vm_compute. repeat constructor. intros [].
  - split; [exact (Htask 1%N None)|].
    split; [exact (Htrigger Example.user (Some 19677))
           |exact (Hdeliver 50%N Example.user)].
Defined.

Lemma daily_sweep_hands_over_witness :
  generate_daily_briefings Fixture.morning_run (Example.db_with [] [] [])
  = [GenerateBriefing 1%N (Some 19676)]
  /\ exists user,
       active_user (Example.db_with [] [] []) 1%N = Some user
       /\ today Fixture.morning_run * 86400 + User.briefing_time user - 600
          <= t_now Fixture.morning_run
          <= today Fixture.morning_run * 86400 + User.briefing_time user + 3000
       /\ forall b,
            find (briefing_for 1%N (today Fixture.morning_run))
                 (briefings (Example.db_with [] [] [])) = Some b ->
            Briefing.status b <> BriefingStatus.DELIVERED.
Proof.
  split; [reflexivity|].
  apply (daily_sweep_hands_over Fixture.morning_run (Example.db_with [] [] [])
           1%N (Some 19676)).
  - repeat constructor. intros [].
  - left. reflexivity.
Defined.

Lemma delivery_needs_own_briefing_witness :
  let db := Example.db_with [] [] [Example.briefing BriefingStatus.READY] in
  mark_briefing_delivered Example.run1 db 50%N Fixture.other_user
  = (Raise "Briefing not found", db).
Proof.
  intros db.
  apply (delivery_needs_own_briefing Example.run1 db 50%N Fixture.other_user).
  intros b [<-|[]] _. discriminate.
Defined.

(** The store holds three candidates, and generation fails all the
    same. *)
Lemma generation_always_fails_witness :
  candidates Example.selection_db Example.user (t_now Example.run1) <> []
  /\ exists db' b',
       Example.generate Example.run1 Example.selection_db
       = (Some (Briefing.id b'), db')
       /\ find (briefing_for 1%N 19676) (briefings db') = Some b'
       /\ Briefing.status b' = BriefingStatus.FAILED
       /\ Briefing.error_message b'
          = Some "cannot import name 'UserPreferences' from 'app.models.user'"
       /\ briefing_content db' = [].
Proof.
  split; [vm_compute; discriminate|].
  apply (generation_always_fails Example.slice Example.no_summary ""
           Example.tts Example.tts "local" Example.write Example.two_decimals
           Example.run1 Example.selection_db 1%N None Example.user).
  - reflexivity.
  - intros b H. discriminate H.
Defined.

(** With the rule-based classifier both pending items are classified; with
    a model that answers [topics] as one string the database refuses the
    batch and no item is classified. *)
Lemma classify_pending_stores_all_or_none :
  map truthy_classification
      (content_items
         (classify_pending_content Example.lower Example.no_words
            Example.no_float false Fixture.reply_with_topics_string
            Fixture.lists_of_strings Example.run1 Fixture.pending_db))
  = [true; true]
  /\ classify_pending_content Example.lower Example.no_words Example.no_float
       true Fixture.reply_with_topics_string Fixture.lists_of_strings
       Example.run1 Fixture.pending_db
     = Fixture.pending_db.
Proof. split; vm_compute; reflexivity. Qed.

(** ** The Twitter client *)

Lemma timeline_within_max_results_witness :
  TwitterClient.get_user_timeline (Ok None) Fixture.two_pages 5 (Some "42") 2
  = Some (Ok ([Example.tweet "a"; Example.tweet "b"], 1%nat))
  /\ Z.of_nat (List.length [Example.tweet "a"; Example.tweet "b"]) <= Z.max 0 2
  /\ (2 <= 0 -> [Example.tweet "a"; Example.tweet "b"] = [] /\ 1%nat = 0%nat).
Proof.
  split; [reflexivity|].
  apply (timeline_within_max_results (Ok None) Fixture.two_pages 5 (Some "42")
           2 [Example.tweet "a"; Example.tweet "b"] 1%nat).
  reflexivity.
Defined.

Lemma timeline_returns_witness :
  exists r,
    TwitterClient.get_user_timeline (Ok None) Fixture.two_pages 4 (Some "42") 3
    = Some r
    /\ (forall fuel',
          (4 <= fuel')%nat ->
          TwitterClient.get_user_timeline (Ok None) Fixture.two_pages fuel'
            (Some "42") 3 = Some r)
    /\ forall l n, r = Ok (l, n) -> Z.of_nat n <= Z.max 0 3.
Proof.
  apply (timeline_returns (Ok None) Fixture.two_pages 4 (Some "42") 3).
  - intros [|n] user_id token data [= <-] Htoken; [discriminate|].
    discriminate Htoken.
  - vm_compute. lia.
Defined.

Lemma timeline_empty_pages_never_end_witness :
  TwitterClient.get_user_timeline (Ok None) Fixture.empty_pages 1000
    (Some "42") 100 = None.
Proof.
  apply (timeline_empty_pages_never_end (Ok None) Fixture.empty_pages 1000
           (Some "42") 100).
  - intros n user_id token. eexists. split; [reflexivity|]. split; reflexivity.
  - reflexivity.
  - reflexivity.
Defined.

(** ** The reading endpoints *)

